(** * Blinkit automation: the Excel-to-record transformation core

    A shallow embedding of the transformation logic of [src/app.py]
    (purchase orders, class [InstamartAutomation]) and [src/grn.py]
    (goods-receipt notes, class [GRNAutomation]): filename metadata
    extraction, required-column check, row validation, totals, record
    building and the skip-existing filter of the Drive-to-Sheets workflow;
    and of what surrounds it in both files: the names of the files already
    processed as read off the sheet ([get_existing_source_files]), the
    attachments read off a Gmail message ([get_attachments]), the name
    under which an attachment is uploaded, and the loops and counters of
    the Mail-to-Drive and Drive-to-Sheets workflows.

    Conventions of the embedding.
    - A Python [str] is a [string]; one [ascii] stands for one character
      (characters outside ASCII and their Unicode classes are not modelled).
    - [self.log(message, level)] is a writer effect: every function returns
      its result together with the list of entries it logged, oldest first.
      A message is a constructor per call site carrying the interpolated
      values; the comment at each constructor gives the source text.
    - A [try: ... except Exception] block is the total function that returns
      what the handler returns.
    - pandas, the Google clients and the clock are outside the repository:
      [pd.read_excel] and the Drive and Sheets calls are arguments of the
      functions that use them, [datetime.now()] is the argument [today].
    - A table row lists its cells in the order of the header; a cell the
      row does not reach counts as absent. *)

From Stdlib Require Import ZArith Ascii String List Permutation DecimalString.
From Stdlib Require Floats.
From stdpp Require Import base option list gmap strings.

Local Open Scope string_scope.
Local Open Scope list_scope.

(** ** Python string operations used by the source *)
Module Py.

(** [str.isspace] on the ASCII range: TAB..CR, FS..US and the space. *)
Definition is_space (c : ascii) : bool :=
  let n := nat_of_ascii c in
  ((9 <=? n)%nat && (n <=? 13)%nat) || ((28 <=? n)%nat && (n <=? 32)%nat).

(** [c.isdigit()] / the regex class [\d] on the ASCII range. *)
Definition is_digit (c : ascii) : bool :=
  let n := nat_of_ascii c in (48 <=? n)%nat && (n <=? 57)%nat.

Definition is_empty (s : string) : bool :=
  match s with EmptyString => true | String _ _ => false end.

Fixpoint lstrip (s : string) : string :=
  match s with
  | EmptyString => EmptyString
  | String c s' => if is_space c then lstrip s' else s
  end.

Fixpoint rstrip (s : string) : string :=
  match s with
  | EmptyString => EmptyString
  | String c s' =>
      let r := rstrip s' in
      if is_space c && is_empty r then EmptyString else String c r
  end.

(** [s.strip()] *)
Definition strip (s : string) : string := rstrip (lstrip s).

(** [s.startswith(p)] *)
Fixpoint startswith (p s : string) : bool :=
  match p, s with
  | EmptyString, _ => true
  | String a p', String b s' => Ascii.eqb a b && startswith p' s'
  | String _ _, EmptyString => false
  end.

(** [s.replace(old, new)] for a non-empty [old]: occurrences are replaced
    from the left and do not overlap. [skip] counts the characters of a
    matched occurrence that are still to be dropped. *)
Fixpoint replace_from (old new : string) (skip : nat) (s : string) : string :=
  match s with
  | EmptyString => EmptyString
  | String c s' =>
      match skip with
      | S k => replace_from old new k s'
      | O =>
          if startswith old s
          then (new ++ replace_from old new (String.length old - 1) s')%string
          else String c (replace_from old new 0 s')
      end
  end.

Definition replace (old new s : string) : string := replace_from old new 0 s.

(** [s.split(sep)] for a one-character separator: always at least one piece. *)
Fixpoint split (sep : ascii) (s : string) : list string :=
  match s with
  | EmptyString => [EmptyString]
  | String c s' =>
      if Ascii.eqb c sep then EmptyString :: split sep s'
      else match split sep s' with
           | p :: ps => String c p :: ps
           | [] => [String c EmptyString]
           end
  end.

(** [s[i:j]] for [0 <= i <= j]. *)
Definition slice (i j : nat) (s : string) : string := substring i (j - i) s.

(** [x in xs] for a list of strings. *)
Definition str_in (x : string) (xs : list string) : bool :=
  existsb (String.eqb x) xs.

(** [s.rfind(c)] for a one-character [c]: the highest index of [c] in [s],
    -1 when there is none. [i] is the index of the first character of [s]. *)
Fixpoint rfind_from (c : ascii) (i : Z) (s : string) : Z :=
  match s with
  | EmptyString => (-1)%Z
  | String a s' =>
      let r := rfind_from c (i + 1)%Z s' in
      if (0 <=? r)%Z then r else if Ascii.eqb a c then i else (-1)%Z
  end.

Definition rfind (c : ascii) (s : string) : Z := rfind_from c 0%Z s.

(** Every character of [s] is a dot. *)
Fixpoint only_dots (s : string) : bool :=
  match s with
  | EmptyString => true
  | String a s' => Ascii.eqb a "." && only_dots s'
  end.

(** [os.path.splitext(p)] of [posixpath]: the extension starts at the last
    dot of the last path component, unless only dots come before it there.
    The [while] loop of [genericpath._splitext] looks for a character
    other than a dot in [p[sepIndex+1:dotIndex]]. *)
Definition splitext (p : string) : string * string :=
  let sepIndex := rfind "/" p in
  let dotIndex := rfind "." p in
  if (sepIndex <? dotIndex)%Z then
    let filenameIndex := (sepIndex + 1)%Z in
    if only_dots (substring (Z.to_nat filenameIndex)
                    (Z.to_nat (dotIndex - filenameIndex)) p)
    then (p, EmptyString)
    else (substring 0 (Z.to_nat dotIndex) p,
          substring (Z.to_nat dotIndex) (String.length p - Z.to_nat dotIndex) p)
  else (p, EmptyString).

(** [l.index(x)] where [x in l]: the first position of [x]. *)
Fixpoint index (x : string) (l : list string) : nat :=
  match l with
  | [] => 0
  | y :: l' => if String.eqb y x then 0 else S (index x l')
  end.

End Py.

(** ** Logging *)

Inductive level := INFO | WARNING | ERROR.

(** ** The pandas objects the source touches *)
Module Pandas.

(** A row handed out by [df.iterrows()]: labels with their values. *)
Definition Series (A : Type) : Type := list (string * A).

(** [row.get(key)], [None] when the label is absent (the caller supplies
    the default). *)
Fixpoint series_get {A} (row : Series A) (key : string) : option A :=
  match row with
  | [] => None
  | (k, v) :: row' => if String.eqb k key then Some v else series_get row' key
  end.

(** A parsed table: the header row and the cells of each data row. *)
Record DataFrame (A : Type) := mkDataFrame {
  columns : list string;
  rows : list (list A)
}.
Arguments mkDataFrame {A} _ _.
Arguments columns {A} _.
Arguments rows {A} _.

(** [df.iterrows()] without the index. *)
Definition iterrows {A} (df : DataFrame A) : list (Series A) :=
  map (fun r => combine (columns df) r) (rows df).

(** [df.dropna(how="all")]: a row goes when every cell of it is missing. *)
Definition dropna_all {A} (isna : A -> bool) (df : DataFrame A) : DataFrame A :=
  mkDataFrame (columns df) (List.filter (fun r => negb (forallb isna r)) (rows df)).

(** [col in df.columns] *)
Definition has_column {A} (df : DataFrame A) (col : string) : bool :=
  Py.str_in col (columns df).

End Pandas.

(** ** Numbers

    The numeric cells of a table and the totals computed from them. The
    source adds them with Python's [+=], starting from the [int] 0, writes
    them with [str] and reads text with [pd.to_numeric]. What these do
    depends on the numbers a table holds (Python's [int] and [float],
    NumPy's [int64] and [float64]): they are the operations of a number
    type, and nothing is assumed of them. *)
Class Numeric (num : Type) := {
  num_zero : num;                          (* the Python int 0 *)
  num_add : num -> num -> num;             (* x + y *)
  num_str : num -> string;                 (* str(x) *)
  parse_num : string -> option num         (* pd.to_numeric on text, errors='coerce';
                                              None is NaN *)
}.

(** Python integers as numbers: [+] is exact, [str] writes them in decimal
    and text is read as an optionally signed decimal numeral. *)
#[export] Instance Z_numeric : Numeric Z := {|
  num_zero := 0%Z;
  num_add := Z.add;
  num_str := fun x => NilZero.string_of_int (Z.to_int x);
  parse_num := fun s => Z.of_int <$> NilZero.int_of_string (Py.strip s)
|}.

(** Python's [int] and [float] as numbers. A [float] is a binary64 value,
    and so is NumPy's [float64], which adds alike: every sum is rounded to
    the nearest float, ties to even. *)
Module Number.

Inductive number :=
  | Int (z : Z)
  | Float (f : PrimFloat.float).

(** [float(z)]: the float nearest to [z], ties to even. Python raises
    [OverflowError] for an [int] beyond the range of [float] (from
    [2**1024 - 2**970] on); here the result is an infinity. *)
Definition float_of_int (z : Z) : PrimFloat.float :=
  FloatOps.SF2Prim
    (SpecFloat.binary_normalize FloatOps.prec FloatOps.emax z 0 false).

(** [x + y]: an [int] meeting a [float] is converted first. *)
Definition add (x y : number) : number :=
  match x, y with
  | Int a, Int b => Int (a + b)
  | Int a, Float g => Float (PrimFloat.add (float_of_int a) g)
  | Float f, Int b => Float (PrimFloat.add f (float_of_int b))
  | Float f, Float g => Float (PrimFloat.add f g)
  end.

(** The float a decimal literal with one digit after the point denotes,
    [tenths 3] for [0.3]: the float nearest to [k/10], which the correctly
    rounded division of two exact floats gives. *)
Definition tenths (k : Z) : PrimFloat.float :=
  PrimFloat.div (float_of_int k) (float_of_int 10).

Section Text.
(** [str(f)] of a float, the shortest decimal text that reads back as [f],
    and [pd.to_numeric] on text are not modelled: they are arguments. *)
Variable float_str : PrimFloat.float -> string.
Variable to_numeric_text : string -> option number.

Definition numeric : Numeric number := {|
  num_zero := Int 0;
  num_add := add;
  num_str := fun x =>
    match x with
    | Int z => NilZero.string_of_int (Z.to_int z)
    | Float f => float_str f
    end;
  parse_num := to_numeric_text
|}.

End Text.

End Number.

(** ** The Drive-to-Sheets workflow

    [process_drive_to_sheet_workflow] and [setup_headers] are written
    twice, in [app.py] and in [grn.py]; the workflows differ in the
    per-document function they call, in the header row they set up and in
    the name filter [grn.py] applies to the listing. The collaborators
    (Drive download and the Sheets calls that read, append and update) are
    arguments; a call that raises leaves the sheet as it was. The
    workflow's own log lines are left out. *)

(** A Drive file entry: [f['name']], [f['id']]. *)
Record file_info := mkFile { name : string; id : string }.

Module Workflow.

Record stats := mkStats {
  total_files : nat;
  processed_files : nat;
  failed_files : nat;
  skipped_files : nat;
  rows_added : nat
}.

(** [excel_files = [f for f in excel_files if f['name'] not in existing_files]] *)
Definition skip_existing_files (existing_files : gset string)
    (excel_files : list file_info) : list file_info :=
  List.filter (fun f => negb (bool_decide (name f ∈ existing_files))) excel_files.

(** [if max_files and len(excel_files) > max_files: excel_files = excel_files[:max_files]] *)
Definition limit_files (max_files : option nat) (excel_files : list file_info)
  : list file_info :=
  match max_files with
  | Some (S m) =>
      if (S m <? length excel_files)%nat then firstn (S m) excel_files
      else excel_files
  | _ => excel_files
  end.

Section DriveToSheet.
(** [R] is a row dict, [V] a sheet cell, [Sheet] the state of the target
    spreadsheet. *)
Context {R V Sheet : Type}.
(** the listing filter applied before counting ([grn.py] only) *)
Variable name_filter : list file_info -> list file_info.
(** [self.download_excel_file(f['id'])]: [None] on failure *)
Variable download_excel_file : string -> option (list Byte.byte).
(** [self.process_excel_file] / [self.process_grn_excel_file] with
    [CONFIG['excel_mapping']], the log dropped *)
Variable process_file : list Byte.byte -> file_info -> list R.
(** [[row_dict.get(col, "") for col in output_columns]] *)
Variable sheet_row : R -> list V.
(** [self.append_to_sheet]: the sheet after the append, [None] when it
    returns [False] *)
Variable append_to_sheet : Sheet -> list (list V) -> option Sheet.
(** a header text as a value handed to the Sheets calls *)
Variable header_cell : string -> V.
(** [values().get(range=f"{sheet_range}!A1:Z1").execute()]: [None] when it
    raises, else [result.get('values')], the rows of the range ([[]] when
    the result has no such key) *)
Variable get_header_range : Sheet -> option (list (list string)).
(** [values().update(range=f"{sheet_name}!A1", ..., body={'values': values})
    .execute()]: the sheet after the update, [None] when it raises *)
Variable update_header_range : Sheet -> list (list V) -> option Sheet.

Definition failed (st : stats) : stats :=
  mkStats (total_files st) (processed_files st) (S (failed_files st))
          (skipped_files st) (rows_added st).

Definition appended (n : nat) (st : stats) : stats :=
  mkStats (total_files st) (S (processed_files st)) (failed_files st)
          (skipped_files st) (rows_added st + n).

(** The body of [for excel_file in excel_files]. Every exit of the body,
    the [continue]s included, goes on with the next file. *)
Definition process_one (acc : stats * Sheet) (excel_file : file_info)
  : stats * Sheet :=
  let '(st, sheet) := acc in
  match download_excel_file (id excel_file) with
  | None => (failed st, sheet)
  | Some [] => (failed st, sheet)                    (* [if not file_data] *)
  | Some file_data =>
      match process_file file_data excel_file with
      | [] => (failed st, sheet)                     (* [if not rows_data] *)
      | rows_data =>
          let sheet_rows := map sheet_row rows_data in
          match append_to_sheet sheet sheet_rows with
          | Some sheet' => (appended (length sheet_rows) st, sheet')
          | None => (failed st, sheet)
          end
      end
  end.

Definition process_files (excel_files : list file_info) (acc : stats * Sheet)
  : stats * Sheet :=
  fold_left process_one excel_files acc.

(** [result.get('values', [[]])[0] if result.get('values') else []] *)
Definition existing_headers (values : list (list string)) : list string :=
  match values with
  | row :: _ => row
  | [] => []
  end.

(** [setup_headers(spreadsheet_id, sheet_range, headers)]: the sheet it
    leaves and the boolean it returns. With no header in row 1 the header
    row is appended; a row 1 that differs from [headers] is overwritten; a
    row 1 equal to [headers] is left alone. *)
Definition setup_headers (sheet : Sheet) (headers : list string) : Sheet * bool :=
  match get_header_range sheet with
  | None => (sheet, false)
  | Some values =>
      match existing_headers values with
      | [] =>
          match append_to_sheet sheet [map header_cell headers] with
          | Some sheet' => (sheet', true)
          | None => (sheet, false)
          end
      | _ :: _ =>
          if bool_decide (existing_headers values = headers) then (sheet, true)
          else
            match update_header_range sheet [map header_cell headers] with
            | Some sheet' => (sheet', true)
            | None => (sheet, false)
            end
      end
  end.

(** [process_drive_to_sheet_workflow(config, skip_existing)]:
    [display_headers] is the header row built from [CONFIG],
    [existing_files] what [get_existing_source_files] returned and [listed]
    what [list_excel_files] returned. *)
Definition process_drive_to_sheet_workflow (display_headers : list string)
    (skip_existing : bool) (existing_files : gset string)
    (listed : list file_info) (max_files : option nat) (sheet : Sheet)
  : stats * Sheet :=
  let excel_files := name_filter listed in
  let total := length excel_files in
  let excel_files' :=
    if skip_existing then skip_existing_files existing_files excel_files
    else excel_files in
  let skipped := if skip_existing then total - length excel_files' else 0 in
  let st := mkStats total 0 0 skipped 0 in
  let excel_files'' := limit_files max_files excel_files' in
  match excel_files'' with
  | [] => (st, sheet)
  | _ :: _ =>
      let '(sheet', headers_ok) := setup_headers sheet display_headers in
      if headers_ok then process_files excel_files'' (st, sheet')
      else (st, sheet')
  end.

End DriveToSheet.

End Workflow.

(** ** The target sheet as the workflows read it

    [get_existing_source_files] is written twice, in [app.py] and in
    [grn.py]; the two differ in the level at which a failure is logged.
    [result] is what the Sheets [values().get(...).execute()] call returned:
    [None] when it raised, else [result.get('values', [])], the rows of the
    range, each a list of cell texts. *)
Module Sheets.

Inductive message :=
  | No_source_file_column
      (* No 'source_file' column found *)
  | Found_processed_files (n : nat)
      (* [SHEET] Found {len(existing_names)} already processed files *)
  | Failed_to_get_existing
      (* [ERROR] Failed to get existing files: {str(e)} *).

Definition log_entry : Type := (level * message)%type.

(** What a row gives to the set comprehension: [row[name_index]] when
    [len(row) > name_index and row[name_index]]. *)
Definition source_file_cell (name_index : nat) (row : list string) : option string :=
  match row !! name_index with
  | Some cell => if Py.is_empty cell then None else Some cell
  | None => None
  end.

Definition get_existing_source_files (error_level : level)
    (result : option (list (list string))) : gset string * list log_entry :=
  match result with
  | None => (∅, [(error_level, Failed_to_get_existing)])
  | Some values =>
      match values with
      | [] => (∅, [])
      | headers :: data =>
          if negb (Py.str_in "source_file" headers)
          then (∅, [(WARNING, No_source_file_column)])
          else
            let name_index := Py.index "source_file" headers in
            let existing_names : gset string :=
              list_to_set (omap (source_file_cell name_index) data) in
            (existing_names, [(INFO, Found_processed_files (size existing_names))])
      end
  end.

End Sheets.

(** ** Purchase orders: [src/app.py] *)
Module PO.
Import Pandas.

(** [CONFIG['excel_mapping']] *)
Definition excel_mapping : gmap string string :=
  list_to_map
    [ ("product_number", "Item Code");
      ("product_name", "Product Description");
      ("quantity_ordered", "Quantity");
      ("item_count", "Total Items");
      ("PO Total Quantity", "Total Quantity");
      ("PO Total Amount", "Total Amount");
      ("price_per_unit", "Basic Cost Price");
      ("mrp", "MRP");
      ("base_price", "Landing Rate");
      ("amount_per_line_amount", "Total Amount");
      ("total_items_in_po", "Total Items in PO");
      ("total_quantity_in_po", "Total Quantity in PO");
      ("total_amount_of_po", "Total Amount of PO") ].

(** [list(CONFIG['output_columns'].keys())] *)
Definition output_columns : list string :=
  [ "po_number"; "po_date"; "product_number"; "product_name";
    "quantity_ordered"; "price_per_unit"; "mrp"; "base_price";
    "amount_per_line_amount"; "total_items_in_po"; "total_quantity_in_po";
    "total_amount_of_po"; "source_file" ].

(** [CONFIG['output_columns']]: the header shown for each output column. *)
Definition output_headers : gmap string string :=
  list_to_map
    [ ("po_number", "PO Number");
      ("po_date", "PO Date");
      ("product_number", "Product Number");
      ("product_name", "Product Name");
      ("quantity_ordered", "Qty");
      ("price_per_unit", "price_per_unit");
      ("mrp", "MRP");
      ("base_price", "Base Price");
      ("amount_per_line_amount", "Total Line Amount");
      ("total_items_in_po", "Total Items in PO");
      ("total_quantity_in_po", "Total Quantity in PO");
      ("total_amount_of_po", "Total Amount of PO");
      ("source_file", "    ") ].

(** [display_headers = [CONFIG['output_columns'][col] for col in output_columns]],
    the header row handed to [setup_headers]; every [col] is a key of the
    dict. *)
Definition display_headers : list string :=
  omap (fun col => output_headers !! col) output_columns.

(** [get_existing_source_files] of [app.py]: a failure is logged at the
    default level. *)
Definition get_existing_source_files := Sheets.get_existing_source_files INFO.

(** The dict returned by [extract_po_from_filename]. *)
Record po_info := mkPoInfo { po_number : string; po_date : string }.

(** A cell of a table read without [dtype]: a missing cell (the float
    NaN), a text cell or a numeric cell (a number other than NaN). *)
Inductive cell {num : Type} :=
  | NaN
  | Str (s : string)
  | Num (x : num).
Arguments cell : clear implicits.

(** A value of an output row dict: text, a Python [int] count, a total. *)
Inductive value {num : Type} :=
  | VStr (s : string)
  | VInt (n : nat)
  | VNum (x : num).
Arguments value : clear implicits.

(** An output row dict, keys in insertion order. *)
Definition record (num : Type) : Type := list (string * value num).

(** [row_dict.get(col, "")] *)
Definition record_get {num} (r : record num) (col : string) : value num :=
  default (VStr "") (series_get r col).

Inductive message {num : Type} :=
  | Filename_extracted (po date : string)
      (* [FILENAME] Extracted PO: {po_number}, Date: {po_date} *)
  | Could_not_extract_po (filename : string)
      (* [WARNING] Could not extract PO info from filename: {filename} *)
  | Excel_read (n : nat) (filename : string)
      (* [EXCEL] Read {len(df)} rows from {file_info['name']} *)
  | Excel_columns (cols : list string)
      (* [EXCEL] Columns found: {list(df.columns)} *)
  | Missing_required_columns (missing : list string)
      (* [ERROR] Missing required columns: {missing_columns} *)
  | No_valid_line_items (filename : string)
      (* [WARNING] No valid line items found in {file_info['name']} *)
  | Totals (items : nat) (qty amount : num)
      (* [TOTALS] Items: {total_items}, Qty: {total_quantity}, Amount: {total_amount} *)
  | Extracted_rows (n : nat) (filename : string)
      (* [SUCCESS] Extracted {len(rows)} rows from {file_info['name']} *)
  | Failed_to_process
      (* [ERROR] Failed to process Excel file: {str(e)} *).
Arguments message : clear implicits.

(** An entry of the log: the level [self.log] was called with ([INFO] when
    the call names none) and the message. *)
Definition log_entry (num : Type) : Type := (level * message num)%type.

Section Processing.
Context {num : Type} {N : Numeric num}.

(** [pd.read_excel(io.BytesIO(file_data), engine='openpyxl')]: [None] when
    it raises. *)
Variable read_excel : list Byte.byte -> option (DataFrame (cell num)).

(** [extract_po_from_filename]: nothing in the [try] body raises on a
    string, so the handler is never entered. *)
Definition extract_po_from_filename (filename : string)
  : po_info * list (log_entry num) :=
  let name_without_ext := Py.replace ".xls" "" (Py.replace ".xlsx" "" filename) in
  let parts := Py.split "_" name_without_ext in
  let no_match :=
    (mkPoInfo "" "", [(INFO, Could_not_extract_po filename)]) in
  match parts with
  | po_number :: po_date_raw :: _ =>
      if (String.length po_date_raw =? 8)%nat then
        let year := Py.slice 0 4 po_date_raw in
        let month := Py.slice 4 6 po_date_raw in
        let day := Py.slice 6 8 po_date_raw in
        let po_date := (year ++ "-" ++ month ++ "-" ++ day)%string in
        (mkPoInfo po_number po_date, [(INFO, Filename_extracted po_number po_date)])
      else no_match
  | _ => no_match
  end.

(** [pd.isna(c)] on a cell *)
Definition isna (c : cell num) : bool :=
  match c with NaN => true | _ => false end.

(** [str(c)] *)
Definition to_str (c : cell num) : string :=
  match c with
  | NaN => "nan"
  | Str s => s
  | Num x => num_str x
  end.

(** [pd.to_numeric(c, errors='coerce')]; [None] is NaN. *)
Definition to_numeric (c : cell num) : option num :=
  match c with
  | NaN => None
  | Str s => parse_num s
  | Num x => Some x
  end.

(** [excel_mapping.get(field, '')] *)
Definition mapped (excel_mapping : gmap string string) (field : string) : string :=
  default "" (excel_mapping !! field).

Definition required_fields : list string := ["product_number"; "product_name"].

(** The loop over [required_fields] that fills [missing_columns]. *)
Definition missing_columns (excel_mapping : gmap string string)
    (df : DataFrame (cell num)) : list string :=
  fold_left
    (fun missing field =>
       match excel_mapping !! field with
       | Some excel_col =>
           if negb (Py.is_empty excel_col) && negb (has_column df excel_col)
           then missing ++ [excel_col]
           else missing
       | None => missing
       end)
    required_fields [].

(** The test that makes the row loop [continue]: [product_num] is [None]
    when the row has no such label. *)
Definition skip_row (excel_mapping : gmap string string)
    (row : Series (cell num)) : bool :=
  match series_get row (mapped excel_mapping "product_number") with
  | None => true
  | Some product_num =>
      isna product_num
      || Py.str_in (Py.strip (to_str product_num)) [""; "nan"; "NaN"; "NAN"]
  end.

(** STEP 1: the loop that fills [valid_rows]. *)
Definition valid_rows (excel_mapping : gmap string string)
    (df : DataFrame (cell num)) : list (Series (cell num)) :=
  fold_left
    (fun valid row => if skip_row excel_mapping row then valid else valid ++ [row])
    (iterrows df) [].

(** [pd.to_numeric(row.get(excel_mapping.get(field, ''), 0), errors='coerce')] *)
Definition numeric_field (excel_mapping : gmap string string) (field : string)
    (row : Series (cell num)) : option num :=
  match series_get row (mapped excel_mapping field) with
  | Some c => to_numeric c
  | None => Some num_zero
  end.

(** [if not pd.isna(v): total += v] *)
Definition add_if_number (total : num) (v : option num) : num :=
  match v with
  | Some x => num_add total x
  | None => total
  end.

(** STEP 2: [(total_quantity, total_amount)] after the loop over the valid rows. *)
Definition totals (excel_mapping : gmap string string)
    (valid : list (Series (cell num))) : num * num :=
  fold_left
    (fun t row =>
       (add_if_number (fst t) (numeric_field excel_mapping "quantity_ordered" row),
        add_if_number (snd t) (numeric_field excel_mapping "amount_per_line_amount" row)))
    valid (num_zero, num_zero).

(** [str(row.get(excel_mapping.get(field, ''), '')).strip()] *)
Definition text_field (excel_mapping : gmap string string) (field : string)
    (row : Series (cell num)) : value num :=
  VStr (Py.strip
          (match series_get row (mapped excel_mapping field) with
           | Some c => to_str c
           | None => ""
           end)).

(** STEP 3: the dict built for one valid row. *)
Definition row_dict (excel_mapping : gmap string string) (po : po_info)
    (total_items : nat) (total_quantity total_amount : num)
    (file : file_info) (row : Series (cell num)) : record num :=
  [ ("po_number", VStr (po_number po));
    ("po_date", VStr (po_date po));
    ("product_number", text_field excel_mapping "product_number" row);
    ("product_name", text_field excel_mapping "product_name" row);
    ("quantity_ordered", text_field excel_mapping "quantity_ordered" row);
    ("price_per_unit", text_field excel_mapping "price_per_unit" row);
    ("mrp", text_field excel_mapping "mrp" row);
    ("base_price", text_field excel_mapping "base_price" row);
    ("amount_per_line_amount", text_field excel_mapping "amount_per_line_amount" row);
    ("total_items_in_po", VInt total_items);
    ("total_quantity_in_po", VNum total_quantity);
    ("total_amount_of_po", VNum total_amount);
    ("source_file", VStr (name file)) ].

(** [process_excel_file]: the rows returned and the log written. The only
    statement of the [try] body that can raise is [pd.read_excel]; the
    handler logs and returns the still empty [rows]. *)
Definition process_excel_file (file_data : list Byte.byte) (file : file_info)
    (excel_mapping : gmap string string)
  : list (record num) * list (log_entry num) :=
  let '(po, log0) := extract_po_from_filename (name file) in
  match read_excel file_data with
  | None => ([], log0 ++ [(ERROR, Failed_to_process)])
  | Some df0 =>
      let df := dropna_all isna df0 in
      let log1 := log0 ++ [(INFO, Excel_read (length (rows df)) (name file));
                           (INFO, Excel_columns (columns df))] in
      let missing := missing_columns excel_mapping df in
      match missing with
      | _ :: _ => ([], log1 ++ [(ERROR, Missing_required_columns missing)])
      | [] =>
          let valid := valid_rows excel_mapping df in
          match valid with
          | [] => ([], log1 ++ [(INFO, No_valid_line_items (name file))])
          | _ :: _ =>
              let total_items := length valid in
              let '(total_quantity, total_amount) := totals excel_mapping valid in
              let out :=
                map (row_dict excel_mapping po total_items total_quantity
                       total_amount file) valid in
              (out,
               log1 ++ [(INFO, Totals total_items total_quantity total_amount);
                        (INFO, Extracted_rows (length out) (name file))])
          end
      end
  end.

(** [[row_dict.get(col, "") for col in output_columns]] *)
Definition sheet_row (r : record num) : list (value num) :=
  map (record_get r) output_columns.

(** The workflow of [app.py]: no name filter on the listing. *)
Definition process_drive_to_sheet_workflow {Sheet : Type}
    (download_excel_file : string -> option (list Byte.byte))
    (append_to_sheet : Sheet -> list (list (value num)) -> option Sheet)
    (get_header_range : Sheet -> option (list (list string)))
    (update_header_range : Sheet -> list (list (value num)) -> option Sheet) :=
  Workflow.process_drive_to_sheet_workflow
    (fun listed => listed) download_excel_file
    (fun file_data file => fst (process_excel_file file_data file excel_mapping))
    sheet_row append_to_sheet VStr get_header_range update_header_range
    display_headers.

End Processing.

End PO.

(** ** Goods-receipt notes: [src/grn.py] *)
Module GRN.
Import Pandas.

(** [CONFIG['excel_mapping']] *)
Definition excel_mapping : gmap string string :=
  list_to_map
    [ ("item_code", "Item Code");
      ("po_number", "po_number");
      ("product_upc", "Product UPC");
      ("product_description", "Product Description");
      ("mrp", "MRP");
      ("tax_amount", "Tax Amount");
      ("landing_rate_po", "Landing Rate - PO");
      ("landing_rate_grn", "Landing Rate - GRN");
      ("quantity_po", "Quantity - PO");
      ("quantity_grn", "Quantity - GRN");
      ("fill_rate", "Fill rate (%)");
      ("total_grn_amount", "Total GRN Amount");
      ("gmv_loss", "GMV Loss") ].

(** [list(CONFIG['output_columns'].keys())] *)
Definition output_columns : list string :=
  [ "grn_number"; "received_date"; "item_code"; "product_upc";
    "product_description"; "mrp"; "tax_amount"; "landing_rate_po";
    "landing_rate_grn"; "quantity_po"; "quantity_grn"; "fill_rate";
    "total_grn_amount"; "gmv_loss"; "source_file" ].

(** [CONFIG['output_columns']]: the header shown for each output column. *)
Definition output_headers : gmap string string :=
  list_to_map
    [ ("grn_number", "GRN Number");
      ("received_date", "Received Date");
      ("item_code", "Item Code");
      ("product_upc", "Product UPC");
      ("product_description", "Product Description");
      ("mrp", "MRP");
      ("tax_amount", "Tax Amount");
      ("landing_rate_po", "Landing Rate - PO");
      ("landing_rate_grn", "Landing Rate - GRN");
      ("quantity_po", "Qty - PO");
      ("quantity_grn", "Qty - GRN");
      ("fill_rate", "Fill Rate (%)");
      ("total_grn_amount", "Total GRN Amount");
      ("gmv_loss", "GMV Loss");
      ("source_file", "source_file") ].

(** [display_headers = [CONFIG['output_columns'][col] for col in output_columns]],
    the header row handed to [setup_headers]; every [col] is a key of the
    dict. *)
Definition display_headers : list string :=
  omap (fun col => output_headers !! col) output_columns.

(** [get_existing_source_files] of [grn.py]: a failure is logged as an error. *)
Definition get_existing_source_files := Sheets.get_existing_source_files ERROR.

(** A cell of a table read with [dtype=str]: missing (float NaN) or text. *)
Inductive cell :=
  | NaN
  | Str (s : string).

#[global] Instance cell_eq_dec : EqDecision cell.
Proof. solve_decision. Defined.

(** An output row dict: every value is a string. *)
Definition record : Type := list (string * string).

(** [row_dict.get(col, "")] *)
Definition record_get (r : record) (col : string) : string :=
  default "" (series_get r col).

Inductive message :=
  | Could_not_extract_date (filename received_date : string)
      (* [WARNING] Could not extract date from '{filename}', using today: {received_date} *)
  | Excel_read (n : nat) (filename : string)
      (* [EXCEL] Read {len(df)} rows from {file_info['name']} *)
  | Excel_columns (cols : list string)
      (* [EXCEL] Columns found: {list(df.columns)} *)
  | Missing_required_columns (missing : list string)
      (* [ERROR] Missing required columns: {missing} *)
  | No_valid_line_items (filename : string)
      (* [WARNING] No valid line items found in {file_info['name']} *)
  | Unique_grn_numbers (n : nat)
      (* [GRN] Found {len(df[grn_col].unique())} unique GRN numbers *)
  | Extracted_rows (n : nat) (filename : string)
      (* [SUCCESS] Extracted {len(rows)} rows from {file_info['name']} *)
  | Failed_to_process
      (* [ERROR] Failed to process GRN Excel file: {str(e)} *).

Definition log_entry : Type := (level * message)%type.

(** *** The regular expressions of [extract_date_from_filename]

    Each pattern is a fixed sequence of character tests, so whether it
    matches at a position is a test on the text from there; [re.search]
    takes the leftmost position where the test succeeds. *)

Definition newline : ascii := ascii_of_nat 10.

(** [$]: the end of the text, or just before a newline that ends it. *)
Definition at_end (s : string) : bool :=
  match s with
  | EmptyString => true
  | String c EmptyString => Ascii.eqb c newline
  | _ => false
  end.

(** The lower-case form of an ASCII letter ([re.IGNORECASE]). *)
Definition lower (c : ascii) : ascii :=
  let n := nat_of_ascii c in
  if (65 <=? n)%nat && (n <=? 90)%nat then ascii_of_nat (n + 32) else c.

(** [p], written in lower case, starts [s] whatever the case of [s]. *)
Fixpoint startswith_nocase (p s : string) : bool :=
  match p, s with
  | EmptyString, _ => true
  | String a p', String b s' => Ascii.eqb a (lower b) && startswith_nocase p' s'
  | String _ _, EmptyString => false
  end.

(** [s[n:]] *)
Fixpoint drop (n : nat) (s : string) : string :=
  match n, s with
  | O, _ => s
  | S n', String _ s' => drop n' s'
  | S _, EmptyString => EmptyString
  end.

(** [\d{n}] at the start of [s] *)
Fixpoint digits (n : nat) (s : string) : bool :=
  match n, s with
  | O, _ => true
  | S n', String c s' => Py.is_digit c && digits n' s'
  | S _, EmptyString => false
  end.

(** [\.(xlsx?|xls)$] at the start of [s]: the text a match leaves behind. *)
Definition ext_here (s : string) : option string :=
  if startswith_nocase ".xlsx" s && at_end (drop 5 s) then Some (drop 5 s)
  else if startswith_nocase ".xls" s && at_end (drop 4 s) then Some (drop 4 s)
  else None.

(** [re.sub(r'\.(xlsx?|xls)$', '', filename, flags=re.IGNORECASE)] *)
Fixpoint strip_excel_ext (s : string) : string :=
  match ext_here s with
  | Some rest => rest
  | None =>
      match s with
      | EmptyString => EmptyString
      | String c s' => String c (strip_excel_ext s')
      end
  end.

(** The groups [(\d{4})(\d{2})(\d{2})] of text that starts with 8 digits. *)
Definition ymd (s : string) : string * string * string :=
  (Py.slice 0 4 s, Py.slice 4 6 s, Py.slice 6 8 s).

(** [_(\d{4})(\d{2})(\d{2})_\d{6}$] at the start of [s] *)
Definition stamp_here (s : string) : option (string * string * string) :=
  if Py.startswith "_" s && digits 8 (drop 1 s) && Py.startswith "_" (drop 9 s)
     && digits 6 (drop 10 s) && at_end (drop 16 s)
  then Some (ymd (drop 1 s))
  else None.

(** [(\d{4})(\d{2})(\d{2})] at the start of [s] *)
Definition date_here (s : string) : option (string * string * string) :=
  if digits 8 s then Some (ymd s) else None.

(** [re.search]: the leftmost position where [here] matches. *)
Fixpoint search {M} (here : string -> option M) (s : string) : option M :=
  match here s with
  | Some m => Some m
  | None =>
      match s with
      | EmptyString => None
      | String _ s' => search here s'
      end
  end.

(** [f"{m.group(1)}-{m.group(2)}-{m.group(3)}"] *)
Definition dashed (g : string * string * string) : string :=
  let '(y, m, d) := g in (y ++ "-" ++ m ++ "-" ++ d)%string.

(** [extract_date_from_filename]; [today] is
    [datetime.now().strftime('%Y-%m-%d')]. *)
Definition extract_date_from_filename (today filename : string)
  : string * list log_entry :=
  let name_no_ext := strip_excel_ext filename in
  match search stamp_here name_no_ext with
  | Some g => (dashed g, [])
  | None =>
      match search date_here name_no_ext with
      | Some g => (dashed g, [])
      | None =>
          let received_date := today in
          (received_date, [(INFO, Could_not_extract_date filename received_date)])
      end
  end.

(** The name under which [process_mail_to_drive_workflow] of [grn.py]
    uploads an attachment:
    [name_no_ext, ext = os.path.splitext(original_filename)] and
    [filename = f"{name_no_ext}_{timestamp}{ext}"], where [timestamp] is the
    date of the email (or the clock) as [strftime('%Y%m%d_%H%M%S')]. *)
Definition timestamped_name (original_filename timestamp : string) : string :=
  let '(name_no_ext, ext) := Py.splitext original_filename in
  (name_no_ext ++ "_" ++ timestamp ++ ext)%string.

(** *** [process_grn_excel_file] *)

(** [pd.isna(c)] / [c.notna()] *)
Definition isna (c : cell) : bool :=
  match c with NaN => true | Str _ => false end.

(** [str(c)] *)
Definition to_str (c : cell) : string :=
  match c with NaN => "nan" | Str s => s end.

(** One cell under [df.replace({'nan': '', 'NaN': '', 'None': ''})]: a text
    cell that is one of the three keys becomes the empty text. *)
Definition replace_cell (c : cell) : cell :=
  match c with
  | NaN => NaN
  | Str s => if Py.str_in s ["nan"; "NaN"; "None"] then Str "" else Str s
  end.

(** [df.replace({'nan': '', 'NaN': '', 'None': ''})] *)
Definition replace_tokens (df : DataFrame cell) : DataFrame cell :=
  mkDataFrame (columns df) (map (map replace_cell) (rows df)).

(** [df[keep(row) for each row]]: boolean-mask selection of rows. *)
Definition select_rows (keep : Series cell -> bool) (df : DataFrame cell)
  : DataFrame cell :=
  mkDataFrame (columns df)
    (List.filter (fun r => keep (combine (columns df) r)) (rows df)).

(** The cell of a row under a column of the table. *)
Definition cell_at (col : string) (row : Series cell) : cell :=
  default NaN (series_get row col).

(** [df[item_col].notna()] for one row *)
Definition item_notna (item_col : string) (row : Series cell) : bool :=
  negb (isna (cell_at item_col row)).

(** [df[item_col].astype(str).str.strip().isin(['', 'nan']) == False] for one row *)
Definition item_not_blank (item_col : string) (row : Series cell) : bool :=
  negb (Py.str_in (Py.strip (to_str (cell_at item_col row))) [""; "nan"]).

(** The two statements under "Drop rows without an item code". *)
Definition drop_rows_without_item_code (item_col : string) (df : DataFrame cell)
  : DataFrame cell :=
  select_rows (fun row => item_not_blank item_col row)
    (select_rows (fun row => item_notna item_col row) df).

Definition required_fields : list string :=
  ["item_code"; "product_description"; "po_number"].

(** [[excel_mapping[f] for f in required_fields
      if excel_mapping.get(f) and excel_mapping[f] not in df.columns]] *)
Definition missing_columns (excel_mapping : gmap string string)
    (df : DataFrame cell) : list string :=
  omap
    (fun f =>
       match excel_mapping !! f with
       | Some col =>
           if negb (Py.is_empty col) && negb (has_column df col)
           then Some col else None
       | None => None
       end)
    required_fields.

(** [excel_mapping.get(field, '')] *)
Definition mapped (excel_mapping : gmap string string) (field : string) : string :=
  default "" (excel_mapping !! field).

(** [str(row.get(col, '')).strip()] *)
Definition text_at (col : string) (row : Series cell) : string :=
  Py.strip (match series_get row col with
            | Some c => to_str c
            | None => ""
            end).

(** [str(row.get(excel_mapping.get(field, ''), '')).strip()] *)
Definition text_field (excel_mapping : gmap string string) (field : string)
    (row : Series cell) : string :=
  text_at (mapped excel_mapping field) row.

(** The dict built for one row. *)
Definition row_dict (excel_mapping : gmap string string) (grn_col : string)
    (received_date : string) (file : file_info) (row : Series cell) : record :=
  let grn_number := text_at grn_col row in
  [ ("grn_number", grn_number);
    ("received_date", received_date);
    ("item_code", text_field excel_mapping "item_code" row);
    ("product_upc", text_field excel_mapping "product_upc" row);
    ("product_description", text_field excel_mapping "product_description" row);
    ("mrp", text_field excel_mapping "mrp" row);
    ("tax_amount", text_field excel_mapping "tax_amount" row);
    ("landing_rate_po", text_field excel_mapping "landing_rate_po" row);
    ("landing_rate_grn", text_field excel_mapping "landing_rate_grn" row);
    ("quantity_po", text_field excel_mapping "quantity_po" row);
    ("quantity_grn", text_field excel_mapping "quantity_grn" row);
    ("fill_rate", text_field excel_mapping "fill_rate" row);
    ("total_grn_amount", text_field excel_mapping "total_grn_amount" row);
    ("gmv_loss", text_field excel_mapping "gmv_loss" row);
    ("source_file", name file) ].

(** [len(df[grn_col].unique())] *)
Definition unique_count (grn_col : string) (df : DataFrame cell) : nat :=
  length (remove_dups (map (cell_at grn_col) (iterrows df))).

Section Processing.

(** [pd.read_excel(io.BytesIO(file_data), engine='openpyxl', dtype=str)]:
    [None] when it raises. *)
Variable read_excel : list Byte.byte -> option (DataFrame cell).

(** [process_grn_excel_file]: the rows returned and the log written. The
    statements of the [try] body that can raise are [pd.read_excel], the
    subscripts [excel_mapping['item_code']] and [excel_mapping['po_number']]
    (KeyError when the mapping lacks the field) and [df[item_col]],
    [df[grn_col]] (KeyError when the table lacks the column); [rows] is
    still empty wherever they raise. *)
Definition process_grn_excel_file (today : string) (file_data : list Byte.byte)
    (file : file_info) (excel_mapping : gmap string string)
  : list record * list log_entry :=
  let '(received_date, log0) := extract_date_from_filename today (name file) in
  let raised (log : list log_entry) : list record * list log_entry :=
    ([], log ++ [(ERROR, Failed_to_process)]) in
  match read_excel file_data with
  | None => raised log0
  | Some df0 =>
      let df := replace_tokens (dropna_all isna df0) in
      let log1 := log0 ++ [(INFO, Excel_read (length (rows df)) (name file));
                           (INFO, Excel_columns (columns df))] in
      let missing := missing_columns excel_mapping df in
      match missing with
      | _ :: _ => ([], log1 ++ [(ERROR, Missing_required_columns missing)])
      | [] =>
          match excel_mapping !! "item_code" with
          | None => raised log1
          | Some item_col =>
              if negb (has_column df item_col) then raised log1 else
              let df2 := drop_rows_without_item_code item_col df in
              match rows df2 with
              | [] => ([], log1 ++ [(INFO, No_valid_line_items (name file))])
              | _ :: _ =>
                  match excel_mapping !! "po_number" with
                  | None => raised log1
                  | Some grn_col =>
                      if negb (has_column df2 grn_col) then raised log1 else
                      let log2 :=
                        log1 ++ [(INFO, Unique_grn_numbers (unique_count grn_col df2))] in
                      let out :=
                        map (row_dict excel_mapping grn_col received_date file)
                            (iterrows df2) in
                      (out, log2 ++ [(INFO, Extracted_rows (length out) (name file))])
                  end
              end
          end
      end
  end.

(** [[row_dict.get(col, "") for col in output_columns]] *)
Definition sheet_row (r : record) : list string :=
  map (record_get r) output_columns.

(** ['Consolidated-GRN-Report' in s] *)
Fixpoint contains (sub s : string) : bool :=
  Py.startswith sub s
  || match s with
     | EmptyString => false
     | String _ s' => contains sub s'
     end.

(** The workflow of [grn.py]: only files named as consolidated GRN reports
    are counted and processed. *)
Definition process_drive_to_sheet_workflow {Sheet : Type} (today : string)
    (download_excel_file : string -> option (list Byte.byte))
    (append_to_sheet : Sheet -> list (list string) -> option Sheet)
    (get_header_range : Sheet -> option (list (list string)))
    (update_header_range : Sheet -> list (list string) -> option Sheet) :=
  Workflow.process_drive_to_sheet_workflow
    (List.filter (fun f => contains "Consolidated-GRN-Report" (name f)))
    download_excel_file
    (fun file_data file =>
       fst (process_grn_excel_file today file_data file excel_mapping))
    sheet_row append_to_sheet (fun header => header) get_header_range
    update_header_range display_headers.

End Processing.

End GRN.

(** ** Mail to Drive: [get_attachments] and [process_mail_to_drive_workflow]

    Both are written twice, in [app.py] and in [grn.py]. The Gmail and
    Drive calls are arguments; a Gmail message is the JSON the API returns,
    of which the code reads the parts tree. *)
Module Mail.

(** [s.lower()] on the ASCII range. *)
Fixpoint lower (s : string) : string :=
  match s with
  | EmptyString => EmptyString
  | String c s' => String (GRN.lower c) (lower s')
  end.

(** A dict appended to [attachments]. *)
Record attachment := mkAttachment {
  attachment_id : string;      (* 'id' *)
  filename : string;           (* 'filename' *)
  mimeType : string            (* 'mimeType' *)
}.

(** A message part: the keys ['filename'], ['body'] (with its
    ['attachmentId']), ['mimeType'] and ['parts'], each of which may be
    absent. *)
#[local] Unset Elimination Schemes.
Inductive part :=
  | Part (part_filename : option string)
         (part_body : option (option string))
         (part_mimeType : option string)
         (part_parts : option (list part)).
#[local] Set Elimination Schemes.

Inductive message :=
  | Failed_to_get_attachments
      (* [ERROR] Failed to get attachments: {str(e)} *).

Definition log_entry : Type := (level * message)%type.

(** The body of [for part in parts] in [process_parts], on the list
    [attachments] collected so far; [None] when it raises ([part['body']] on
    a part without that key). The inner [fix] is the [for] loop of the
    recursive call [process_parts(part['parts'])]. *)
Fixpoint process_part (attachment_filter : string) (p : part)
    (attachments : list attachment) : option (list attachment) :=
  match p with
  | Part part_filename part_body part_mimeType part_parts =>
      let nested (attachments : list attachment) : option (list attachment) :=
        match part_parts with
        | None => Some attachments
        | Some parts =>
            (fix process_parts (parts : list part) (attachments : list attachment)
               : option (list attachment) :=
               match parts with
               | [] => Some attachments
               | q :: parts' =>
                   match process_part attachment_filter q attachments with
                   | Some attachments' => process_parts parts' attachments'
                   | None => None
                   end
               end) parts attachments
        end in
      match part_filename with
      | Some (String _ _ as filename) =>
          if negb (Py.is_empty attachment_filter)
             && negb (GRN.contains (lower attachment_filter) (lower filename))
          then Some attachments                                  (* [continue] *)
          else
            match part_body with
            | None => None                                       (* KeyError *)
            | Some attachment_id =>
                nested
                  match attachment_id with
                  | Some (String _ _ as i) =>
                      attachments
                      ++ [mkAttachment i filename
                            (default "application/octet-stream" part_mimeType)]
                  | _ => attachments
                  end
            end
      | _ => nested attachments
      end
  end.

(** [process_parts(parts)] *)
Fixpoint process_parts (attachment_filter : string) (parts : list part)
    (attachments : list attachment) : option (list attachment) :=
  match parts with
  | [] => Some attachments
  | p :: parts' =>
      match process_part attachment_filter p attachments with
      | Some attachments' => process_parts attachment_filter parts' attachments'
      | None => None
      end
  end.

(** [get_attachments(message_id, attachment_filter)]. [message] is what
    the Gmail [get] call returned: [None] when it raised, else
    [message['payload'].get('parts')]. Whatever raises, the handler logs
    (at [error_level]: the default level in [app.py], [ERROR] in [grn.py])
    and returns the empty list. *)
Definition get_attachments (error_level : level)
    (message : option (option (list part))) (attachment_filter : string)
  : list attachment * list log_entry :=
  let raised := ([], [(error_level, Failed_to_get_attachments)]) in
  match message with
  | None => raised
  | Some None => ([], [])
  | Some (Some parts) =>
      match process_parts attachment_filter parts [] with
      | Some attachments => (attachments, [])
      | None => raised
      end
  end.

Record stats := mkStats {
  processed : nat;
  failed : nat;
  skipped : nat;
  total_attachments : nat
}.

Definition count_skipped (st : stats) : stats :=
  mkStats (processed st) (failed st) (S (skipped st)) (total_attachments st).

Definition count_failed (st : stats) : stats :=
  mkStats (processed st) (S (failed st)) (skipped st) (total_attachments st).

Definition count_processed (st : stats) : stats :=
  mkStats (S (processed st)) (failed st) (skipped st) (S (total_attachments st)).

Section MailToDrive.
(** [Drive] is the state of the Drive folder. A message is its ['id']. *)
Context {Drive : Type}.
(** [self.get_attachments(message_id, config['attachment_filter'])] *)
Variable attachments_of : string -> list attachment.
(** The name uploaded for an attachment of a message: the attachment's own
    filename in [app.py], [GRN.timestamped_name] with the timestamp of the
    message in [grn.py]. *)
Variable upload_name : string -> string -> string.
(** [self.file_exists_in_drive(filename, config['gdrive_folder_id'])] *)
Variable file_exists_in_drive : Drive -> string -> bool.
(** [self.download_attachment(message_id, attachment['id'])] *)
Variable download_attachment : string -> string -> option (list Byte.byte).
(** [self.upload_to_drive(file_data, filename, folder, mimeType)]: the
    folder afterwards and the file id returned. *)
Variable upload_to_drive :
  Drive -> list Byte.byte -> string -> string -> Drive * option string.

(** The body of [for attachment in attachments]. *)
Definition process_attachment (message_id : string) (acc : stats * Drive)
    (a : attachment) : stats * Drive :=
  let '(st, drive) := acc in
  let name := upload_name message_id (filename a) in
  if file_exists_in_drive drive name then (count_skipped st, drive)
  else
    match download_attachment message_id (attachment_id a) with
    | None => (count_failed st, drive)
    | Some [] => (count_failed st, drive)              (* [if not file_data] *)
    | Some file_data =>
        match upload_to_drive drive file_data name (mimeType a) with
        | (drive', Some (String _ _)) => (count_processed st, drive')
        | (drive', _) => (count_failed st, drive')     (* [if file_id: ... else] *)
        end
    end.

(** The body of [for message in messages]. *)
Definition process_message (acc : stats * Drive) (message_id : string)
  : stats * Drive :=
  match attachments_of message_id with
  | [] => (count_skipped (fst acc), snd acc)           (* [if not attachments] *)
  | attachments => fold_left (process_attachment message_id) attachments acc
  end.

(** [process_mail_to_drive_workflow(config)]: [messages] is what
    [search_emails] returned; with no message the zero [stats] come back. *)
Definition process_mail_to_drive_workflow (messages : list string)
    (drive : Drive) : stats * Drive :=
  fold_left process_message messages (mkStats 0 0 0 0, drive).

End MailToDrive.

End Mail.

(** * Properties *)

(** ** Vocabulary of the statements *)

(** Every character of [s] passes the test [p]. *)
Fixpoint all_chars (p : ascii -> bool) (s : string) : bool :=
  match s with
  | EmptyString => true
  | String c s' => p c && all_chars p s'
  end.

(** A character that is neither the segment separator [_] nor a dot. *)
Definition plain (c : ascii) : bool :=
  negb (Ascii.eqb c "_") && negb (Ascii.eqb c ".").

(** [s] holds eight digits in a row somewhere. *)
Definition has_date_run (s : string) : Prop :=
  exists p q, s = (p ++ q)%string /\ GRN.digits 8 q = true.

(** [s] holds an underscore. *)
Definition has_underscore (s : string) : Prop :=
  exists p q, s = (p ++ String "_" q)%string.

(** [s] with every ['.xlsx'] and then every ['.xls'] deleted, as the PO
    extractor removes the extension. *)
Definition po_stem (s : string) : string :=
  Py.replace ".xls" "" (Py.replace ".xlsx" "" s).

(** The pieces the PO extractor looks at: the filename without the
    extension texts, cut at the underscores. *)
Definition po_name_parts (filename : string) : list string :=
  Py.split "_" (po_stem filename).

(** What the PO extractor returns and logs where it finds its pattern:
    the identifier and the eight characters cut 4-2-2 into a date. *)
Definition po_extracted {num} (po_number po_date_raw : string)
  : PO.po_info * list (PO.log_entry num) :=
  let po_date := (Py.slice 0 4 po_date_raw ++ "-" ++ Py.slice 4 6 po_date_raw
                  ++ "-" ++ Py.slice 6 8 po_date_raw)%string in
  (PO.mkPoInfo po_number po_date, [(INFO, PO.Filename_extracted po_number po_date)]).

(** What it returns and logs where it does not. *)
Definition po_not_extracted {num} (filename : string)
  : PO.po_info * list (PO.log_entry num) :=
  (PO.mkPoInfo "" "", [(INFO, PO.Could_not_extract_po filename)]).

(** ** Strings *)

Lemma append_cons a (s t : string) : (String a s ++ t = String a (s ++ t))%string.
Proof. reflexivity. Qed.

Lemma append_nil_l (t : string) : ("" ++ t = t)%string.
Proof. reflexivity. Qed.

Lemma append_char a (t : string) : (String a "" ++ t = String a t)%string.
Proof. reflexivity. Qed.

Lemma append_assoc (s t u : string) : ((s ++ t) ++ u = s ++ (t ++ u))%string.
Proof. induction s as [|a s IH]; [reflexivity|]. now rewrite !append_cons, IH. Qed.

Lemma append_length (s t : string) :
  String.length (s ++ t) = String.length s + String.length t.
Proof. induction s as [|a s IH]; [reflexivity|]. rewrite append_cons. simpl. now rewrite IH. Qed.

Lemma startswith_other_head c0 old a s :
  Ascii.eqb c0 a = false -> Py.startswith (String c0 old) (String a s) = false.
Proof. intros H. simpl. now rewrite H. Qed.

(** [replace] leaves alone a prefix that never shows the first character
    of the text searched for. *)
Lemma replace_keeps_prefix c0 old new p s :
  all_chars (fun a => negb (Ascii.eqb c0 a)) p = true ->
  Py.replace (String c0 old) new (p ++ s)%string
  = (p ++ Py.replace (String c0 old) new s)%string.
Proof.
  unfold Py.replace. induction p as [|a p IH]; intros Hp; [reflexivity|].
  simpl in Hp. apply andb_prop in Hp as [Ha Hp].
  apply negb_true_iff in Ha.
  change (String a p ++ s)%string with (String a (p ++ s)%string).
  cbn [Py.replace_from]. rewrite (startswith_other_head c0 old a _ Ha).
  cbn [String.append]. now rewrite IH.
Qed.

Lemma split_nonempty sep s : Py.split sep s <> [].
Proof.
  destruct s as [|c s]; simpl; [discriminate|].
  destruct (Ascii.eqb c sep); [discriminate|].
  destruct (Py.split sep s); discriminate.
Qed.

(** The first piece of [split] is the text before the first separator. *)
Lemma split_first sep p s :
  all_chars (fun a => negb (Ascii.eqb a sep)) p = true ->
  Py.split sep (p ++ String sep s)%string = p :: Py.split sep s.
Proof.
  induction p as [|a p IH]; intros Hp; simpl.
  - now rewrite Ascii.eqb_refl.
  - simpl in Hp. apply andb_prop in Hp as [Ha Hp].
    apply negb_true_iff in Ha. rewrite Ha, (IH Hp). reflexivity.
Qed.

(** Text without the separator is a single piece. *)
Lemma split_single sep s :
  all_chars (fun a => negb (Ascii.eqb a sep)) s = true -> Py.split sep s = [s].
Proof.
  induction s as [|a s IH]; intros Hs; simpl; [reflexivity|].
  simpl in Hs. apply andb_prop in Hs as [Ha Hs].
  apply negb_true_iff in Ha. now rewrite Ha, (IH Hs).
Qed.

Lemma all_chars_app p s t :
  all_chars p (s ++ t)%string = all_chars p s && all_chars p t.
Proof.
  induction s as [|a s IH]; simpl; [reflexivity|].
  now rewrite IH, andb_assoc.
Qed.

Lemma all_chars_impl (p q : ascii -> bool) s :
  (forall c, p c = true -> q c = true) ->
  all_chars p s = true -> all_chars q s = true.
Proof.
  intros Hpq. induction s as [|a s IH]; simpl; [reflexivity|].
  intros H. apply andb_prop in H as [Ha Hs].
  now rewrite (Hpq _ Ha), (IH Hs).
Qed.

(** Deleting text never brings in a character that was not there. *)
Lemma replace_from_empty_all_chars p old k s :
  all_chars p s = true -> all_chars p (Py.replace_from old "" k s) = true.
Proof.
  revert k. induction s as [|a s IH]; intros k Hs; [reflexivity|].
  simpl in Hs. apply andb_prop in Hs as [Ha Hs].
  cbn [Py.replace_from]. destruct k as [|k]; [|now apply IH].
  destruct (Py.startswith old (String a s)).
  - cbn [String.append]. now apply IH.
  - simpl. now rewrite Ha, IH.
Qed.

Lemma plain_not_underscore c : plain c = true -> negb (Ascii.eqb c "_") = true.
Proof. unfold plain. intros H. now apply andb_prop in H as [H _]. Qed.

Lemma plain_not_dot c : plain c = true -> negb (Ascii.eqb "." c) = true.
Proof.
  unfold plain. intros H. apply andb_prop in H as [_ H].
  now rewrite Ascii.eqb_sym.
Qed.

Lemma digit_plain c : Py.is_digit c = true -> plain c = true.
Proof.
  intros H. unfold plain.
  destruct (Ascii.eqb_spec c "_") as [->|_]; [discriminate|].
  destruct (Ascii.eqb_spec c ".") as [->|_]; [discriminate|].
  reflexivity.
Qed.

(** ** Filename metadata: [extract_po_from_filename] *)

Section PoFilename.
Context {num : Type}.

Let not_dot (a : ascii) : bool := negb (Ascii.eqb "." a).

Lemma po_prefix_has_no_dot id seg :
  all_chars plain id = true -> all_chars plain seg = true ->
  all_chars not_dot (id ++ "_" ++ seg ++ "_")%string = true.
Proof.
  intros Hid Hseg.
  rewrite !all_chars_app.
  rewrite (all_chars_impl plain not_dot id plain_not_dot Hid).
  rewrite (all_chars_impl plain not_dot seg plain_not_dot Hseg).
  reflexivity.
Qed.

(** Whatever follows them, two leading segments free of [_] and [.] are
    the first two parts of the name. *)
Lemma po_filename_parts id seg rest :
  all_chars plain id = true -> all_chars plain seg = true ->
  Py.split "_"
    (Py.replace ".xls" ""
       (Py.replace ".xlsx" "" (id ++ "_" ++ seg ++ "_" ++ rest)%string))
  = id :: seg :: Py.split "_" (Py.replace ".xls" "" (Py.replace ".xlsx" "" rest)).
Proof.
  intros Hid Hseg.
  assert (Hname : forall r,
    (id ++ "_" ++ seg ++ "_" ++ r)%string
    = ((id ++ "_" ++ seg ++ "_") ++ r)%string).
  { intros r. now rewrite !append_assoc. }
  rewrite Hname.
  rewrite (replace_keeps_prefix "." "xlsx" "" _ rest
             (po_prefix_has_no_dot id seg Hid Hseg)).
  rewrite (replace_keeps_prefix "." "xls" "" _ _
             (po_prefix_has_no_dot id seg Hid Hseg)).
  rewrite <- Hname, !append_char.
  rewrite (split_first "_" id) by
    (apply (all_chars_impl plain); [apply plain_not_underscore|exact Hid]).
  rewrite (split_first "_" seg) by
    (apply (all_chars_impl plain); [apply plain_not_underscore|exact Hseg]).
  reflexivity.
Qed.

(** A second part of 8 characters, digits or not, is cut 4-2-2. *)
Lemma extract_po_segments id seg rest :
  all_chars plain id = true -> all_chars plain seg = true ->
  String.length seg = 8 ->
  PO.extract_po_from_filename (num := num) (id ++ "_" ++ seg ++ "_" ++ rest)%string
  = (let date := (Py.slice 0 4 seg ++ "-" ++ Py.slice 4 6 seg ++ "-"
                  ++ Py.slice 6 8 seg)%string in
     (PO.mkPoInfo id date, [(INFO, PO.Filename_extracted id date)])).
Proof.
  intros Hid Hseg Hlen. unfold PO.extract_po_from_filename.
  rewrite (po_filename_parts id seg rest Hid Hseg), Hlen. reflexivity.
Qed.

(** A second part of any other length is no date. *)
Lemma extract_po_other_length id seg rest :
  all_chars plain id = true -> all_chars plain seg = true ->
  String.length seg <> 8 ->
  PO.extract_po_from_filename (num := num) (id ++ "_" ++ seg ++ "_" ++ rest)%string
  = (PO.mkPoInfo "" "",
     [(INFO, PO.Could_not_extract_po (id ++ "_" ++ seg ++ "_" ++ rest)%string)]).
Proof.
  intros Hid Hseg Hlen. unfold PO.extract_po_from_filename.
  rewrite (po_filename_parts id seg rest Hid Hseg).
  apply Nat.eqb_neq in Hlen. now rewrite Hlen.
Qed.

End PoFilename.

(** Text of exactly [n] digits. *)
Definition digit_text (n : nat) (s : string) : Prop :=
  String.length s = n /\ all_chars Py.is_digit s = true.

Lemma slice_ymd y m d :
  String.length y = 4 -> String.length m = 2 -> String.length d = 2 ->
  Py.slice 0 4 (y ++ m ++ d) = y /\ Py.slice 4 6 (y ++ m ++ d) = m
  /\ Py.slice 6 8 (y ++ m ++ d) = d.
Proof.
  intros Hy Hm Hd.
  destruct y as [|y1 [|y2 [|y3 [|y4 [|]]]]]; try discriminate.
  destruct m as [|m1 [|m2 [|]]]; try discriminate.
  destruct d as [|d1 [|d2 [|]]]; try discriminate.
  repeat split.
Qed.

(** C9. A filename [{ID}_{YYYYMMDD}_{HHMMSS}.{ext}], with an identifier free
    of [_] and [.], yields the identifier as [po_number] and the date part
    as [YYYY-MM-DD], and logs the extraction; for
    [5630310004451_20260211_030533.xlsx] these are [5630310004451] and
    [2026-02-11]. *)
Theorem po_filename_pattern (num : Type) (id y m d t ext : string) :
  all_chars plain id = true ->
  digit_text 4 y -> digit_text 2 m -> digit_text 2 d -> digit_text 6 t ->
  PO.extract_po_from_filename (num := num)
    (id ++ "_" ++ (y ++ m ++ d) ++ "_" ++ t ++ "." ++ ext)%string
  = (PO.mkPoInfo id (y ++ "-" ++ m ++ "-" ++ d)%string,
     [(INFO, PO.Filename_extracted id (y ++ "-" ++ m ++ "-" ++ d)%string)]).
Proof.
  intros Hid [Hy Dy] [Hm Dm] [Hd Dd] _.
  rewrite (extract_po_segments id (y ++ m ++ d) (t ++ "." ++ ext) Hid).
  - destruct (slice_ymd y m d Hy Hm Hd) as (-> & -> & ->). reflexivity.
  - rewrite !all_chars_app.
    rewrite (all_chars_impl _ _ y digit_plain Dy),
            (all_chars_impl _ _ m digit_plain Dm),
            (all_chars_impl _ _ d digit_plain Dd). reflexivity.
  - rewrite !append_length, Hy, Hm, Hd. reflexivity.
Qed.

Lemma po_filename_pattern_example :
  PO.extract_po_from_filename (num := Z) "5630310004451_20260211_030533.xlsx"
  = (PO.mkPoInfo "5630310004451" "2026-02-11",
     [(INFO, PO.Filename_extracted "5630310004451" "2026-02-11")]).
Proof.
  apply (po_filename_pattern Z "5630310004451" "2026" "02" "11" "030533" "xlsx");
    first [reflexivity | split; reflexivity].
Defined.

(** ** Filename metadata: [extract_date_from_filename] *)

Lemma search_some {M} (here : string -> option M) s m :
  GRN.search here s = Some m ->
  exists p q, s = (p ++ q)%string /\ here q = Some m.
Proof.
  induction s as [|a s IH]; cbn [GRN.search]; intros H.
  - exists ""%string, ""%string. split; [reflexivity|].
    destruct (here ""%string); [exact H|discriminate].
  - destruct (here (String a s)) eqn:E.
    + exists ""%string, (String a s). split; [reflexivity|]. now rewrite E.
    + destruct (IH H) as (p & q & -> & Hq).
      exists (String a p), q. split; [reflexivity|exact Hq].
Qed.

Lemma search_none {M} (here : string -> option M) s :
  GRN.search here s = None ->
  forall p q, s = (p ++ q)%string -> here q = None.
Proof.
  induction s as [|a s IH]; cbn [GRN.search]; intros H p q E.
  - destruct p; [|discriminate]. rewrite append_nil_l in E. subst q.
    destruct (here ""%string); [discriminate|reflexivity].
  - destruct (here (String a s)) eqn:Eh; [discriminate|].
    destruct p as [|b p].
    + rewrite append_nil_l in E. now subst q.
    + rewrite append_cons in E. injection E as _ E. now apply (IH H p q).
Qed.

(** The fallback pattern finds nothing exactly when the text holds no
    eight digits in a row. *)
Lemma no_date_run_iff s :
  GRN.search GRN.date_here s = None <-> ~ has_date_run s.
Proof.
  split.
  - intros H (p & q & E & D).
    pose proof (search_none _ _ H p q E) as Hq.
    unfold GRN.date_here in Hq. now rewrite D in Hq.
  - intros H. destruct (GRN.search GRN.date_here s) as [g|] eqn:E; [|reflexivity].
    exfalso. apply H. destruct (search_some _ _ _ E) as (p & q & -> & Hq).
    exists p, q. split; [reflexivity|].
    unfold GRN.date_here in Hq. now destruct (GRN.digits 8 q).
Qed.

Lemma at_end_no_digit n s :
  GRN.at_end s = true -> GRN.digits (S n) s = false.
Proof.
  destruct s as [|a [|b s]]; simpl; try discriminate; [reflexivity|].
  intros H. apply Ascii.eqb_eq in H as ->. reflexivity.
Qed.

Lemma ext_here_at_end s rest : GRN.ext_here s = Some rest -> GRN.at_end rest = true.
Proof.
  unfold GRN.ext_here. intros H.
  destruct (GRN.startswith_nocase ".xlsx" s && GRN.at_end (GRN.drop 5 s)) eqn:E1.
  - injection H as <-. now apply andb_prop in E1.
  - destruct (GRN.startswith_nocase ".xls" s && GRN.at_end (GRN.drop 4 s)) eqn:E2;
      [|discriminate].
    injection H as <-. now apply andb_prop in E2.
Qed.

(** Digits that start the name without its extension start the filename. *)
Lemma digits_strip_excel_ext n s :
  GRN.digits n (GRN.strip_excel_ext s) = true -> GRN.digits n s = true.
Proof.
  revert n. induction s as [|a s IH]; intros [|n]; try reflexivity.
  - cbn [GRN.strip_excel_ext]. destruct (GRN.ext_here ""%string) eqn:E; [|trivial].
    now rewrite (at_end_no_digit n _ (ext_here_at_end _ _ E)).
  - cbn [GRN.strip_excel_ext]. destruct (GRN.ext_here (String a s)) eqn:E.
    + now rewrite (at_end_no_digit n _ (ext_here_at_end _ _ E)).
    + cbn [GRN.digits]. intros H. apply andb_prop in H as [Ha H].
      now rewrite Ha, (IH n H).
Qed.

Lemma search_date_at_end s :
  GRN.at_end s = true -> GRN.search GRN.date_here s = None.
Proof.
  destruct s as [|a [|b s]]; simpl; try discriminate; [reflexivity|].
  intros H. apply Ascii.eqb_eq in H as ->. reflexivity.
Qed.

(** Dropping the extension brings in no run of eight digits. *)
Lemma no_date_run_strip_excel_ext s :
  GRN.search GRN.date_here s = None ->
  GRN.search GRN.date_here (GRN.strip_excel_ext s) = None.
Proof.
  induction s as [|a s IH]; intros H.
  - cbn [GRN.strip_excel_ext]. destruct (GRN.ext_here ""%string) eqn:E; [|exact H].
    apply search_date_at_end, (ext_here_at_end _ _ E).
  - cbn [GRN.strip_excel_ext]. destruct (GRN.ext_here (String a s)) eqn:E.
    + apply search_date_at_end, (ext_here_at_end _ _ E).
    + cbn [GRN.search] in H |- *.
      destruct (GRN.date_here (String a s)) eqn:Eh; [discriminate|].
      assert (GRN.date_here (String a (GRN.strip_excel_ext s)) = None) as ->.
      { unfold GRN.date_here in Eh |- *.
        destruct (GRN.digits 8 (String a (GRN.strip_excel_ext s))) eqn:D;
          [|reflexivity].
        pose proof (digits_strip_excel_ext 8 (String a s)) as Hd.
        cbn [GRN.strip_excel_ext] in Hd. rewrite E in Hd.
        now rewrite (Hd D) in Eh. }
      now apply IH.
Qed.

(** Where the timestamp pattern matches, eight digits follow its underscore. *)
Lemma stamp_needs_date_run s :
  GRN.search GRN.date_here s = None -> GRN.search GRN.stamp_here s = None.
Proof.
  intros H. destruct (GRN.search GRN.stamp_here s) as [g|] eqn:E; [|reflexivity].
  exfalso. destruct (search_some _ _ _ E) as (p & q & -> & Hq).
  unfold GRN.stamp_here in Hq.
  destruct (Py.startswith "_" q && GRN.digits 8 (GRN.drop 1 q)) eqn:E1;
    [|now rewrite ?E1 in Hq].
  apply andb_prop in E1 as [Hu D].
  destruct q as [|c q]; [discriminate|]. cbn [GRN.drop] in D.
  pose proof (search_none _ _ H (p ++ String c "")%string q) as Hn.
  rewrite append_assoc, append_char in Hn. specialize (Hn eq_refl).
  unfold GRN.date_here in Hn. now rewrite D in Hn.
Qed.

Lemma extract_date_without_run today filename :
  ~ has_date_run filename ->
  GRN.extract_date_from_filename today filename
  = (today, [(INFO, GRN.Could_not_extract_date filename today)]).
Proof.
  intros H. apply no_date_run_iff in H.
  unfold GRN.extract_date_from_filename.
  pose proof (no_date_run_strip_excel_ext _ H) as Hs.
  now rewrite (stamp_needs_date_run _ Hs), Hs.
Qed.

Lemma no_underscore_all_chars s :
  ~ has_underscore s ->
  all_chars (fun a => negb (Ascii.eqb a "_")) s = true.
Proof.
  induction s as [|a s IH]; intros H; [reflexivity|]. simpl.
  destruct (Ascii.eqb_spec a "_") as [->|_].
  - exfalso. apply H. now exists ""%string, s.
  - apply IH. intros (p & q & ->). apply H. now exists (String a p), q.
Qed.

Lemma extract_po_without_underscore {num} filename :
  ~ has_underscore filename ->
  PO.extract_po_from_filename (num := num) filename
  = (PO.mkPoInfo "" "", [(INFO, PO.Could_not_extract_po filename)]).
Proof.
  intros H. apply no_underscore_all_chars in H.
  unfold PO.extract_po_from_filename, Py.replace.
  rewrite (split_single "_") by now do 2 apply replace_from_empty_all_chars.
  reflexivity.
Qed.

(** A character other than the segment separator. *)
Definition not_underscore (a : ascii) : bool := negb (Ascii.eqb a "_").

Lemma startswith_before_sep old p q :
  all_chars not_underscore old = true ->
  Py.startswith old (p ++ String "_" q)%string = Py.startswith old p.
Proof.
  intros Hold. revert p. induction old as [|a old IH]; intros p; [reflexivity|].
  cbn [all_chars] in Hold. apply andb_prop in Hold as [Ha Hold].
  destruct p as [|c p].
  - rewrite append_nil_l. cbn [Py.startswith].
    unfold not_underscore in Ha. apply negb_true_iff in Ha. now rewrite Ha.
  - rewrite append_cons. cbn [Py.startswith]. now rewrite IH.
Qed.

Lemma startswith_length old s :
  Py.startswith old s = true -> String.length old <= String.length s.
Proof.
  revert s. induction old as [|a old IH]; intros s H; cbn [String.length]; [lia|].
  destruct s as [|c s]; [discriminate|].
  cbn [Py.startswith] in H. apply andb_prop in H as [_ H].
  specialize (IH s H). cbn [String.length]. lia.
Qed.

(** Deleting a text that holds no underscore stops at an underscore: an
    occurrence that starts in a piece ends in it. *)
Lemma replace_from_before_sep old k p q :
  old <> "" -> all_chars not_underscore old = true ->
  k <= String.length p ->
  Py.replace_from old "" k (p ++ String "_" q)
  = (Py.replace_from old "" k p ++ String "_" (Py.replace_from old "" 0 q))%string.
Proof.
  intros Hne Hold. revert k.
  induction p as [|c p IH]; intros k Hk.
  - cbn [String.length] in Hk. assert (k = 0) as -> by lia.
    rewrite !append_nil_l. cbn [Py.replace_from].
    rewrite <- (append_nil_l (String "_" q)), (startswith_before_sep old "" q Hold).
    destruct old as [|a old]; [now destruct Hne|]. reflexivity.
  - rewrite append_cons. destruct k as [|k].
    + cbn [Py.replace_from].
      rewrite <- append_cons, (startswith_before_sep old (String c p) q Hold).
      destruct (Py.startswith old (String c p)) eqn:E.
      * rewrite !append_nil_l. apply IH.
        apply startswith_length in E. cbn [String.length] in E. lia.
      * rewrite append_cons. f_equal. apply IH. lia.
    + cbn [Py.replace_from]. apply IH. cbn [String.length] in Hk. lia.
Qed.

(** A text is one piece, or a first piece, an underscore and the rest. *)
Lemma first_piece s :
  all_chars not_underscore s = true
  \/ exists p q, s = (p ++ String "_" q)%string
                 /\ all_chars not_underscore p = true.
Proof.
  induction s as [|a s IH]; [now left|].
  destruct (Ascii.eqb_spec a "_") as [->|Ha].
  - right. exists ""%string, s. split; reflexivity.
  - apply Ascii.eqb_neq in Ha. destruct IH as [H|(p & q & -> & Hp)].
    + left. cbn [all_chars]. rewrite H. unfold not_underscore. now rewrite Ha.
    + right. exists (String a p), q. split; [reflexivity|].
      cbn [all_chars]. rewrite Hp. unfold not_underscore. now rewrite Ha.
Qed.

(** Deleting a text that holds no underscore and cutting at the
    underscores commute. *)
Lemma split_replace old s :
  old <> "" -> all_chars not_underscore old = true ->
  Py.split "_" (Py.replace old "" s) = map (Py.replace old "") (Py.split "_" s).
Proof.
  intros Hne Hold. unfold Py.replace.
  remember (String.length s) as n eqn:Hn.
  revert s Hn. induction n as [n IH] using lt_wf_ind. intros s Hn.
  destruct (first_piece s) as [Hs|(p & q & -> & Hp)].
  - rewrite (split_single "_" s Hs). cbn [map].
    apply split_single. now apply replace_from_empty_all_chars.
  - rewrite (replace_from_before_sep old 0 p q Hne Hold) by lia.
    rewrite (split_first "_" p q Hp).
    rewrite split_first by now apply replace_from_empty_all_chars.
    cbn [map]. f_equal. apply (IH (String.length q)); [|reflexivity].
    subst n. rewrite append_length. cbn [String.length]. lia.
Qed.

(** The pieces the PO extractor looks at are the pieces of the filename,
    each without the extension texts. *)
Lemma po_name_parts_pieces filename :
  po_name_parts filename = map po_stem (Py.split "_" filename).
Proof.
  unfold po_name_parts, po_stem.
  rewrite (split_replace ".xls"), (split_replace ".xlsx"), map_map;
    try reflexivity; discriminate.
Qed.

(** A name of two pieces: the second is read without the extension texts. *)
Lemma po_filename_two_parts id tail :
  all_chars plain id = true -> ~ has_underscore tail ->
  po_name_parts (id ++ "_" ++ tail)%string = [id; po_stem tail].
Proof.
  intros Hid Htail. unfold po_name_parts, po_stem.
  assert (Hdot : all_chars (fun a => negb (Ascii.eqb "." a)) (id ++ "_")%string
                 = true).
  { rewrite all_chars_app.
    now rewrite (all_chars_impl plain _ id plain_not_dot Hid). }
  replace (id ++ "_" ++ tail)%string with ((id ++ "_") ++ tail)%string
    by now rewrite append_assoc.
  rewrite (replace_keeps_prefix "." "xlsx" "" _ tail Hdot).
  rewrite (replace_keeps_prefix "." "xls" "" _ _ Hdot).
  rewrite append_assoc, append_char.
  rewrite (split_first "_" id) by
    (apply (all_chars_impl plain); [apply plain_not_underscore|exact Hid]).
  rewrite (split_single "_"); [reflexivity|].
  unfold Py.replace. do 2 apply replace_from_empty_all_chars.
  now apply no_underscore_all_chars.
Qed.

Lemma extract_po_by_parts {num} filename :
  PO.extract_po_from_filename (num := num) filename
  = match po_name_parts filename with
    | po_number :: po_date_raw :: _ =>
        if (String.length po_date_raw =? 8)%nat
        then po_extracted po_number po_date_raw
        else po_not_extracted filename
    | _ => po_not_extracted filename
    end.
Proof. reflexivity. Qed.

(** C2, as the code has it. A filename with no eight digits in a row makes
    the GRN extractor return the current date and log its
    [[WARNING] Could not extract date ...] line (at the default level).
    The PO extractor deletes every ['.xlsx'] and then every ['.xls'] from
    the filename and cuts what is left at the underscores, which gives the
    pieces of the filename between its underscores, each without those
    texts. When that gives
    two pieces or more and the second is 8 characters long, digits or not,
    it returns the first piece as [po_number] and the second, cut 4-2-2,
    as [po_date]. In every other case it returns an empty [po_number] and
    an empty [po_date] and logs its [[WARNING] Could not extract PO info
    ...] line. Read on the filename: a name with no underscore falls back;
    a name [id_tail] with no further underscore is decided by the length
    of [tail] without the extension texts; a name [id_seg_rest] by the
    length of [seg]. Both extractors are total. *)
Theorem filename_without_date_falls_back (num : Type) (today filename : string) :
  (~ has_date_run filename ->
   GRN.extract_date_from_filename today filename
   = (today, [(INFO, GRN.Could_not_extract_date filename today)]))
  /\ po_name_parts filename = map po_stem (Py.split "_" filename)
  /\ (forall po_number po_date_raw rest,
        po_name_parts filename = po_number :: po_date_raw :: rest ->
        String.length po_date_raw = 8 ->
        PO.extract_po_from_filename (num := num) filename
        = po_extracted po_number po_date_raw)
  /\ ((forall po_number po_date_raw rest,
         po_name_parts filename = po_number :: po_date_raw :: rest ->
         String.length po_date_raw <> 8) ->
      PO.extract_po_from_filename (num := num) filename
      = po_not_extracted filename)
  /\ (~ has_underscore filename ->
      PO.extract_po_from_filename (num := num) filename
      = po_not_extracted filename)
  /\ (forall id tail,
        all_chars plain id = true -> ~ has_underscore tail ->
        filename = (id ++ "_" ++ tail)%string ->
        PO.extract_po_from_filename (num := num) filename
        = if (String.length (po_stem tail) =? 8)%nat
          then po_extracted id (po_stem tail)
          else po_not_extracted filename)
  /\ (forall id seg rest,
        all_chars plain id = true -> all_chars plain seg = true ->
        filename = (id ++ "_" ++ seg ++ "_" ++ rest)%string ->
        PO.extract_po_from_filename (num := num) filename
        = if (String.length seg =? 8)%nat
          then po_extracted id seg
          else po_not_extracted filename).
Proof.
  split; [apply extract_date_without_run|].
  split; [apply po_name_parts_pieces|].
  split.
  { intros a b rest Hparts Hlen. rewrite extract_po_by_parts, Hparts, Hlen.
    reflexivity. }
  split.
  { intros Hother. rewrite extract_po_by_parts.
    destruct (po_name_parts filename) as [|a [|b rest]] eqn:Hparts;
      try reflexivity.
    destruct (Nat.eqb_spec (String.length b) 8) as [Hlen|_]; [|reflexivity].
    now destruct (Hother a b rest eq_refl). }
  split; [apply extract_po_without_underscore|].
  split.
  { intros id tail Hid Htail ->.
    now rewrite extract_po_by_parts, (po_filename_two_parts id tail Hid Htail). }
  intros id seg rest Hid Hseg ->.
  destruct (Nat.eqb_spec (String.length seg) 8) as [Hlen|Hlen].
  - now apply extract_po_segments.
  - now apply extract_po_other_length.
Qed.

Lemma no_underscore_iff s :
  all_chars (fun a => negb (Ascii.eqb a "_")) s = true <-> ~ has_underscore s.
Proof.
  split; [|apply no_underscore_all_chars].
  intros H (p & q & ->). rewrite all_chars_app in H.
  apply andb_prop in H as [_ H]. discriminate.
Qed.

Lemma filename_without_date_falls_back_witness :
  GRN.extract_date_from_filename "2026-11-04" "invoice_final.xlsx"
  = ("2026-11-04",
     [(INFO, GRN.Could_not_extract_date "invoice_final.xlsx" "2026-11-04")])
  /\ PO.extract_po_from_filename (num := Z) "invoice_final.xlsx"
     = (PO.mkPoInfo "" "", [(INFO, PO.Could_not_extract_po "invoice_final.xlsx")]).
Proof.
  destruct (filename_without_date_falls_back Z "2026-11-04" "invoice_final.xlsx")
    as (Hgrn & _ & _ & Hpo & _).
  split.
  - apply Hgrn. apply no_date_run_iff. reflexivity.
  - apply Hpo. intros a b rest [= <- <- <-]. discriminate.
Defined.

(** C2 fails as stated: [PO_abcdefgh_1.xlsx] holds no date, its second
    segment is eight letters, and the PO extractor takes it for a date:
    the identifier is not empty and no warning is logged. And where the PO
    extractor does fall back ([report.xlsx]) the date it returns is the
    empty text, whatever the day. *)
Lemma po_extractor_takes_letters_for_a_date :
  ~ has_date_run "PO_abcdefgh_1.xlsx"
  /\ PO.extract_po_from_filename (num := Z) "PO_abcdefgh_1.xlsx"
     = (PO.mkPoInfo "PO" "abcd-ef-gh",
        [(INFO, PO.Filename_extracted "PO" "abcd-ef-gh")])
  /\ PO.po_date (fst (PO.extract_po_from_filename (num := Z) "report.xlsx")) = "".
Proof.
  split; [apply no_date_run_iff; reflexivity|]. split; reflexivity.
Qed.

(** ** The skip-existing filter *)

Lemma skip_existing_files_cons existing f files :
  Workflow.skip_existing_files existing (f :: files)
  = if decide (name f ∈ existing) then Workflow.skip_existing_files existing files
    else f :: Workflow.skip_existing_files existing files.
Proof.
  unfold Workflow.skip_existing_files. simpl.
  destruct (decide (name f ∈ existing)) as [Hin|Hout].
  - now rewrite (bool_decide_eq_true_2 _ Hin).
  - now rewrite (bool_decide_eq_false_2 _ Hout).
Qed.

Lemma skip_existing_files_sublist existing files :
  Workflow.skip_existing_files existing files `sublist_of` files.
Proof.
  induction files as [|f files IH]; [constructor|].
  rewrite skip_existing_files_cons.
  destruct (decide (name f ∈ existing)); now constructor.
Qed.

Lemma skip_existing_files_elem existing files f :
  f ∈ Workflow.skip_existing_files existing files
  <-> f ∈ files /\ name f ∉ existing.
Proof.
  induction files as [|g files IH].
  - unfold Workflow.skip_existing_files. simpl. rewrite elem_of_nil. tauto.
  - rewrite skip_existing_files_cons.
    destruct (decide (name g ∈ existing)) as [Hin|Hout].
    + rewrite IH, elem_of_cons. split.
      * intros [Hf Hnew]. auto.
      * intros [[->|Hf] Hnew]; [contradiction|auto].
    + rewrite !elem_of_cons, IH. split.
      * intros [->|[Hf Hnew]]; auto.
      * intros [[->|Hf] Hnew]; auto.
Qed.

Lemma skip_existing_files_greatest existing files l :
  l `sublist_of` files -> Forall (fun f => name f ∉ existing) l ->
  l `sublist_of` Workflow.skip_existing_files existing files.
Proof.
  induction 1 as [|f l files Hsub IH|f l files Hsub IH]; intros Hnew.
  - constructor.
  - apply Forall_cons in Hnew as [Hf Hl].
    rewrite skip_existing_files_cons.
    destruct (decide (name f ∈ existing)); [contradiction|].
    constructor. now apply IH.
  - rewrite skip_existing_files_cons.
    destruct (decide (name f ∈ existing)); [now apply IH|].
    constructor. now apply IH.
Qed.

(** C7. The skip-existing filter returns the documents whose name is not
    among the existing identifiers, in their order: the result is a
    sub-list of the listing, it holds exactly the listed documents with a
    new name, and every sub-list of new documents is a sub-list of it. For
    existing [{"f1.xlsx"}] and the listing [f1.xlsx, f2.xlsx] it is
    [f2.xlsx]. *)
Theorem skip_existing_files_spec (existing : gset string) (files : list file_info) :
  Workflow.skip_existing_files existing files `sublist_of` files
  /\ (forall f, f ∈ Workflow.skip_existing_files existing files
                <-> f ∈ files /\ name f ∉ existing)
  /\ (forall l, l `sublist_of` files ->
                Forall (fun f => name f ∉ existing) l ->
                l `sublist_of` Workflow.skip_existing_files existing files)
  /\ (forall id1 id2,
        Workflow.skip_existing_files {["f1.xlsx"]}
          [mkFile "f1.xlsx" id1; mkFile "f2.xlsx" id2]
        = [mkFile "f2.xlsx" id2]).
Proof.
  split; [apply skip_existing_files_sublist|].
  split; [apply skip_existing_files_elem|].
  split; [apply skip_existing_files_greatest|].
  intros id1 id2. rewrite !skip_existing_files_cons.
  rewrite decide_True by set_solver.
  rewrite decide_False by (simpl; set_solver).
  reflexivity.
Qed.

(** ** Row validation *)

Lemma str_in_iff x xs : Py.str_in x xs = true <-> x ∈ xs.
Proof.
  unfold Py.str_in. rewrite existsb_exists. split.
  - intros (y & Hy & E). apply String.eqb_eq in E as ->. now apply list_elem_of_In.
  - intros H. exists x. split; [now apply list_elem_of_In|apply String.eqb_refl].
Qed.

Lemma str_in_false_iff x xs : Py.str_in x xs = false <-> x ∉ xs.
Proof.
  rewrite <- str_in_iff. destruct (Py.str_in x xs); split; congruence.
Qed.

(** A loop that appends the items it does not skip is a filter. *)
Lemma append_unless_skipped {A} (skip : A -> bool) l acc :
  fold_left (fun valid x => if skip x then valid else valid ++ [x]) l acc
  = acc ++ List.filter (fun x => negb (skip x)) l.
Proof.
  revert acc. induction l as [|x l IH]; intros acc; simpl.
  - now rewrite app_nil_r.
  - rewrite IH. destruct (skip x); simpl; [reflexivity|].
    now rewrite <- app_assoc.
Qed.

Lemma filter_sublist {A} (keep : A -> bool) l : List.filter keep l `sublist_of` l.
Proof.
  induction l as [|x l IH]; simpl; [constructor|].
  destruct (keep x); now constructor.
Qed.

Lemma elem_of_filter {A} (keep : A -> bool) l x :
  x ∈ List.filter keep l <-> x ∈ l /\ keep x = true.
Proof. rewrite !list_elem_of_In. apply filter_In. Qed.

(** What [row.get] finds in a row whose cells went through [f]. *)
Lemma series_get_map {A B} (f : A -> B) cols (r : list A) col :
  Pandas.series_get (combine cols (map f r)) col
  = f <$> Pandas.series_get (combine cols r) col.
Proof.
  revert r. induction cols as [|k cols IH]; intros [|c r]; simpl; try reflexivity.
  destruct (String.eqb k col); [reflexivity|apply IH].
Qed.

(** A label missing from the header is missing from every row. *)
Lemma series_get_absent {A} cols (r : list A) col :
  col ∉ cols -> Pandas.series_get (combine cols r) col = None.
Proof.
  revert r. induction cols as [|k cols IH]; intros [|c r] H; simpl; try reflexivity.
  apply not_elem_of_cons in H as [Hk H].
  destruct (String.eqb_spec k col) as [->|_]; [contradiction|now apply IH].
Qed.

Section PoRows.
Context {num : Type} {N : Numeric num}.

(** The primary-key test of [app.py], as the code has it: the cell under
    the mapped [product_number] header is there, is not NaN, and its text,
    trimmed, is none of [''], ['nan'], ['NaN'], ['NAN']. *)
Definition po_key_accepted (excel_mapping : gmap string string)
    (row : Pandas.Series (PO.cell num)) : Prop :=
  exists c, Pandas.series_get row (PO.mapped excel_mapping "product_number") = Some c
            /\ c <> PO.NaN
            /\ (Py.strip (PO.to_str c) ∉ [""; "nan"; "NaN"; "NAN"]).

Lemma po_skip_row_false excel_mapping row :
  PO.skip_row excel_mapping row = false <-> po_key_accepted excel_mapping row.
Proof.
  unfold PO.skip_row, po_key_accepted.
  destruct (Pandas.series_get row _) as [c|]; split.
  - intros H. apply orb_false_iff in H as [Hna Hin].
    exists c. split; [reflexivity|]. split; [now intros ->|].
    now apply str_in_false_iff.
  - intros (c' & E & Hc & Hin). injection E as <-.
    apply orb_false_iff. split; [now destruct c|now apply str_in_false_iff].
  - discriminate.
  - intros (c & E & _). discriminate.
Qed.

Lemma po_valid_rows_filter excel_mapping df :
  PO.valid_rows excel_mapping df
  = List.filter (fun row => negb (PO.skip_row excel_mapping row)) (Pandas.iterrows df).
Proof. unfold PO.valid_rows. now rewrite append_unless_skipped. Qed.

Lemma po_valid_rows_spec excel_mapping df :
  PO.valid_rows excel_mapping df `sublist_of` Pandas.iterrows df
  /\ forall row, row ∈ PO.valid_rows excel_mapping df
                 <-> row ∈ Pandas.iterrows df /\ po_key_accepted excel_mapping row.
Proof.
  rewrite po_valid_rows_filter. split; [apply filter_sublist|].
  intros row. rewrite elem_of_filter, negb_true_iff.
  now rewrite po_skip_row_false.
Qed.

End PoRows.

(** The primary-key test of [grn.py], as the code has it, read on a cell of
    the table as parsed: the cell under the item-code header is text, is
    none of the three texts [df.replace] blanks (['nan'], ['NaN'],
    ['None']), and trimmed is neither [''] nor ['nan']. *)
Definition grn_key_accepted (item_col : string)
    (row : Pandas.Series GRN.cell) : Prop :=
  exists s, Pandas.series_get row item_col = Some (GRN.Str s)
            /\ (s ∉ ["nan"; "NaN"; "None"])
            /\ (Py.strip s ∉ [""; "nan"]).

Lemma grn_cell_at_replaced col cols r :
  GRN.cell_at col (combine cols (map GRN.replace_cell r))
  = GRN.replace_cell (GRN.cell_at col (combine cols r)).
Proof.
  unfold GRN.cell_at. rewrite series_get_map.
  now destruct (Pandas.series_get (combine cols r) col).
Qed.

Lemma grn_key_test item_col cols r :
  GRN.item_notna item_col (combine cols (map GRN.replace_cell r))
  && GRN.item_not_blank item_col (combine cols (map GRN.replace_cell r)) = true
  <-> grn_key_accepted item_col (combine cols r).
Proof.
  unfold GRN.item_notna, GRN.item_not_blank, grn_key_accepted.
  rewrite grn_cell_at_replaced. unfold GRN.cell_at.
  destruct (Pandas.series_get (combine cols r) item_col) as [[|s]|];
    cbn [default from_option Datatypes.id]; unfold GRN.replace_cell.
  - split; [discriminate|]. intros (s & E & _). discriminate.
  - destruct (Py.str_in s ["nan"; "NaN"; "None"]) eqn:Etok;
      cbn [GRN.isna GRN.to_str negb andb].
    + split; [intros H; vm_compute in H; discriminate|].
      intros (s' & E & Hs & _). injection E as <-.
      apply str_in_false_iff in Hs. congruence.
    + rewrite negb_true_iff, str_in_false_iff. split.
      * intros H. exists s. split; [reflexivity|].
        split; [now apply str_in_false_iff|exact H].
      * now intros (s' & [= <-] & _ & H).
  - split; [discriminate|]. intros (s & E & _). discriminate.
Qed.

Lemma filter_filter {A} (p q : A -> bool) l :
  List.filter q (List.filter p l) = List.filter (fun x => p x && q x) l.
Proof.
  induction l as [|x l IH]; simpl; [reflexivity|].
  destruct (p x); simpl; [destruct (q x); now rewrite IH|exact IH].
Qed.

Lemma filter_map_commute {A B} (f : A -> B) (p : B -> bool) l :
  List.filter p (map f l) = map f (List.filter (fun x => p (f x)) l).
Proof.
  induction l as [|x l IH]; simpl; [reflexivity|].
  destruct (p (f x)); simpl; now rewrite IH.
Qed.

Lemma grn_valid_rows_filter item_col df :
  Pandas.rows (GRN.drop_rows_without_item_code item_col (GRN.replace_tokens df))
  = map (map GRN.replace_cell)
      (List.filter
         (fun r =>
            GRN.item_notna item_col
              (combine (Pandas.columns df) (map GRN.replace_cell r))
            && GRN.item_not_blank item_col
                 (combine (Pandas.columns df) (map GRN.replace_cell r)))
         (Pandas.rows df)).
Proof.
  unfold GRN.drop_rows_without_item_code, GRN.select_rows, GRN.replace_tokens.
  cbn [Pandas.rows Pandas.columns].
  rewrite (filter_filter (A := list GRN.cell)).
  apply (filter_map_commute (map GRN.replace_cell)).
Qed.

Lemma grn_valid_rows_spec item_col df :
  Pandas.rows (GRN.drop_rows_without_item_code item_col (GRN.replace_tokens df))
    `sublist_of` map (map GRN.replace_cell) (Pandas.rows df)
  /\ forall r,
       r ∈ Pandas.rows (GRN.drop_rows_without_item_code item_col
                          (GRN.replace_tokens df))
       <-> exists r0, r0 ∈ Pandas.rows df /\ r = map GRN.replace_cell r0
                      /\ grn_key_accepted item_col (combine (Pandas.columns df) r0).
Proof.
  rewrite grn_valid_rows_filter. split.
  - apply (fmap_sublist (map GRN.replace_cell)), filter_sublist.
  - intros r. rewrite list_elem_of_fmap. split.
    + intros (r0 & -> & H). apply elem_of_filter in H as [Hin Hk].
      exists r0. split; [exact Hin|]. split; [reflexivity|].
      now apply grn_key_test.
    + intros (r0 & Hin & -> & Hk). exists r0. split; [reflexivity|].
      apply elem_of_filter. split; [exact Hin|now apply grn_key_test].
Qed.

(** C3, as the code has it. The row validators keep, in their original
    order, exactly the rows whose primary-key cell passes the test the code
    writes: in [app.py] the cell is there, is not NaN and its trimmed text
    is none of the four spellings [''], ['nan'], ['NaN'], ['NAN']; in
    [grn.py] the cell is text, is not one of ['nan'], ['NaN'], ['None']
    (blanked beforehand) and its trimmed text is neither [''] nor ['nan'].
    The comparison is by exact spelling. *)
Theorem row_validation_by_exact_spelling (num : Type) (N : Numeric num)
    (excel_mapping : gmap string string)
    (po_table : Pandas.DataFrame (PO.cell num))
    (item_col : string) (grn_table : Pandas.DataFrame GRN.cell) :
  (PO.valid_rows excel_mapping po_table `sublist_of` Pandas.iterrows po_table
   /\ forall row,
        row ∈ PO.valid_rows excel_mapping po_table
        <-> row ∈ Pandas.iterrows po_table /\ po_key_accepted excel_mapping row)
  /\ (Pandas.rows (GRN.drop_rows_without_item_code item_col
                     (GRN.replace_tokens grn_table))
        `sublist_of` map (map GRN.replace_cell) (Pandas.rows grn_table)
      /\ forall r,
           r ∈ Pandas.rows (GRN.drop_rows_without_item_code item_col
                              (GRN.replace_tokens grn_table))
           <-> exists r0, r0 ∈ Pandas.rows grn_table
                          /\ r = map GRN.replace_cell r0
                          /\ grn_key_accepted item_col
                               (combine (Pandas.columns grn_table) r0)).
Proof.
  split; [apply po_valid_rows_spec|apply grn_valid_rows_spec].
Qed.

(** A purchase-order table whose item codes are the texts [naN] and [none]. *)
Definition po_table_nan_variants : Pandas.DataFrame (PO.cell Z) :=
  Pandas.mkDataFrame ["Item Code"; "Product Description"]
    [ [PO.Str "naN"; PO.Str "rice"]; [PO.Str "none"; PO.Str "salt"] ].

(** The same table as [grn.py] reads it. *)
Definition grn_table_nan_variants : Pandas.DataFrame GRN.cell :=
  Pandas.mkDataFrame ["Item Code"; "Product Description"]
    [ [GRN.Str "naN"; GRN.Str "rice"]; [GRN.Str "none"; GRN.Str "salt"] ].

(** C3 fails as stated: rows whose primary key is [naN] or [none], case
    variants of the null tokens, are accepted by both validators. *)
Lemma nan_case_variants_are_accepted :
  PO.valid_rows PO.excel_mapping po_table_nan_variants
  = Pandas.iterrows po_table_nan_variants
  /\ Pandas.rows (GRN.drop_rows_without_item_code "Item Code"
                    (GRN.replace_tokens grn_table_nan_variants))
     = Pandas.rows grn_table_nan_variants.
Proof. split; vm_compute; reflexivity. Qed.

(** ** Required columns *)

(** The header a required field contributes to the diagnostic: the field is
    mapped, to a non-empty header, and the table has no such column. *)
Definition missing_header {A} (excel_mapping : gmap string string)
    (df : Pandas.DataFrame A) (field : string) : option string :=
  match excel_mapping !! field with
  | Some col =>
      if negb (Py.is_empty col) && negb (Pandas.has_column df col)
      then Some col else None
  | None => None
  end.

(** [col] is the physical header of a required field and is absent from
    the table. *)
Definition header_missing {A} (excel_mapping : gmap string string)
    (required : list string) (df : Pandas.DataFrame A) (col : string) : Prop :=
  exists field, field ∈ required /\ excel_mapping !! field = Some col
                /\ col <> "" /\ col ∉ Pandas.columns df.

Lemma missing_header_some {A} m (df : Pandas.DataFrame A) field col :
  missing_header m df field = Some col
  <-> m !! field = Some col /\ col <> "" /\ col ∉ Pandas.columns df.
Proof.
  unfold missing_header, Pandas.has_column.
  destruct (m !! field) as [c|]; [|split; [discriminate|now intros [? _]]].
  destruct (Py.str_in c (Pandas.columns df)) eqn:Ein.
  - rewrite andb_false_r. split; [discriminate|].
    intros ([= ->] & _ & Hout). now apply str_in_false_iff in Hout; congruence.
  - rewrite andb_true_r. apply str_in_false_iff in Ein.
    destruct c as [|a c]; simpl.
    + split; [discriminate|]. now intros ([= <-] & Hne & _).
    + split.
      * intros [= <-]. now repeat split.
      * now intros ([= ->] & _).
Qed.

Lemma elem_of_missing_headers {A} m required (df : Pandas.DataFrame A) col :
  col ∈ omap (missing_header m df) required <-> header_missing m required df col.
Proof.
  rewrite list_elem_of_omap. unfold header_missing.
  split; intros (f & Hf & H); exists f; (split; [exact Hf|]);
    now apply missing_header_some.
Qed.

(** A loop that appends what a partial function yields is [omap]. *)
Lemma append_where_some {A B} (g : A -> option B) l acc :
  fold_left (fun found x => match g x with
                            | Some y => found ++ [y]
                            | None => found
                            end) l acc
  = acc ++ omap g l.
Proof.
  revert acc. induction l as [|x l IH]; intros acc; simpl.
  - now rewrite app_nil_r.
  - rewrite IH. destruct (g x); [now rewrite <- app_assoc|reflexivity].
Qed.

Lemma fold_left_ext {A B} (f g : A -> B -> A) l acc :
  (forall a b, f a b = g a b) -> fold_left f l acc = fold_left g l acc.
Proof.
  intros H. revert acc. induction l as [|x l IH]; intros acc; simpl;
    [reflexivity|now rewrite H, IH].
Qed.

Lemma po_missing_columns_omap {num} m (df : Pandas.DataFrame (PO.cell num)) :
  PO.missing_columns m df = omap (missing_header m df) PO.required_fields.
Proof.
  unfold PO.missing_columns.
  rewrite <- (app_nil_l (omap _ _)), <- append_where_some.
  apply fold_left_ext. intros missing field. unfold missing_header.
  destruct (m !! field) as [col|]; [|reflexivity].
  now destruct (negb (Py.is_empty col) && negb (Pandas.has_column df col)).
Qed.

Lemma grn_missing_columns_omap m (df : Pandas.DataFrame GRN.cell) :
  GRN.missing_columns m df = omap (missing_header m df) GRN.required_fields.
Proof. reflexivity. Qed.

(** The per-document functions as the workflows call them: the rows
    returned, the log dropped. *)
Definition po_rows {num} {N : Numeric num}
    (read_excel : list Byte.byte -> option (Pandas.DataFrame (PO.cell num)))
    (excel_mapping : gmap string string)
    (file_data : list Byte.byte) (file : file_info) : list (PO.record num) :=
  fst (PO.process_excel_file read_excel file_data file excel_mapping).

Definition grn_rows
    (read_excel : list Byte.byte -> option (Pandas.DataFrame GRN.cell))
    (today : string) (excel_mapping : gmap string string)
    (file_data : list Byte.byte) (file : file_info) : list GRN.record :=
  fst (GRN.process_grn_excel_file read_excel today file_data file excel_mapping).

(** A document that yields no rows costs the batch one [failed_files] count
    and nothing else: the loop goes on with the next file from the same
    sheet. *)
Lemma process_files_after_empty {R V Sheet : Type}
    (download : string -> option (list Byte.byte))
    (process_file : list Byte.byte -> file_info -> list R)
    (sheet_row : R -> list V)
    (append : Sheet -> list (list V) -> option Sheet) file rest st sheet :
  (forall data, download (id file) = Some data -> process_file data file = []) ->
  Workflow.process_files download process_file sheet_row append
    (file :: rest) (st, sheet)
  = Workflow.process_files download process_file sheet_row append
      rest (Workflow.failed st, sheet).
Proof.
  intros H. unfold Workflow.process_files. cbn [fold_left]. f_equal.
  unfold Workflow.process_one.
  destruct (download (id file)) as [[|b data]|] eqn:E; try reflexivity.
  now rewrite (H _ eq_refl).
Qed.

Lemma po_process_missing_columns {num} {N : Numeric num} read data file m df0 :
  read data = Some df0 ->
  (exists col, header_missing m PO.required_fields df0 col) ->
  exists missing log,
    PO.process_excel_file read data file m
    = ([], log ++ [(ERROR, PO.Missing_required_columns missing)])
    /\ forall col, col ∈ missing <-> header_missing m PO.required_fields df0 col.
Proof.
  intros Hread [col Hcol]. unfold PO.process_excel_file.
  destruct (PO.extract_po_from_filename (name file)) as [po log0].
  rewrite Hread.
  assert (Hspec : forall c,
    c ∈ PO.missing_columns m (Pandas.dropna_all PO.isna df0)
    <-> header_missing m PO.required_fields df0 c).
  { intros c. rewrite po_missing_columns_omap.
    etransitivity; [apply elem_of_missing_headers|]. reflexivity. }
  destruct (PO.missing_columns m (Pandas.dropna_all PO.isna df0))
    as [|c0 missing] eqn:E.
  - apply Hspec in Hcol. now apply elem_of_nil in Hcol.
  - eexists _, _. split; [reflexivity|exact Hspec].
Qed.

Lemma grn_process_missing_columns read today data file m df0 :
  read data = Some df0 ->
  (exists col, header_missing m GRN.required_fields df0 col) ->
  exists missing log,
    GRN.process_grn_excel_file read today data file m
    = ([], log ++ [(ERROR, GRN.Missing_required_columns missing)])
    /\ forall col, col ∈ missing <-> header_missing m GRN.required_fields df0 col.
Proof.
  intros Hread [col Hcol]. unfold GRN.process_grn_excel_file.
  destruct (GRN.extract_date_from_filename today (name file)) as [date log0].
  rewrite Hread.
  assert (Hspec : forall c,
    c ∈ GRN.missing_columns m
          (GRN.replace_tokens (Pandas.dropna_all GRN.isna df0))
    <-> header_missing m GRN.required_fields df0 c).
  { intros c. rewrite grn_missing_columns_omap.
    etransitivity; [apply elem_of_missing_headers|]. reflexivity. }
  destruct (GRN.missing_columns m
              (GRN.replace_tokens (Pandas.dropna_all GRN.isna df0)))
    as [|c0 missing] eqn:E.
  - apply Hspec in Hcol. now apply elem_of_nil in Hcol.
  - eexists _, _. split; [reflexivity|exact Hspec].
Qed.

(** C4. When the header of a required field is absent from the parsed
    table, the document yields no record; the log ends with the [ERROR]
    entry [Missing required columns], which lists exactly the absent
    headers of required fields; and the batch loop counts the file as
    failed and goes on with the next one, in [app.py] and in [grn.py]. *)
Theorem missing_required_column_fails_document
    (num : Type) (N : Numeric num)
    (read_po : list Byte.byte -> option (Pandas.DataFrame (PO.cell num)))
    (read_grn : list Byte.byte -> option (Pandas.DataFrame GRN.cell))
    (today : string) (data : list Byte.byte) (file : file_info)
    (m : gmap string string) :
  (forall df0,
     read_po data = Some df0 ->
     (exists col, header_missing m PO.required_fields df0 col) ->
     (exists missing log,
        PO.process_excel_file read_po data file m
        = ([], log ++ [(ERROR, PO.Missing_required_columns missing)])
        /\ forall col, col ∈ missing
                       <-> header_missing m PO.required_fields df0 col)
     /\ forall (V Sheet : Type) download (sheet_row : PO.record num -> list V)
               (append : Sheet -> list (list V) -> option Sheet) rest st sheet,
          download (id file) = Some data ->
          Workflow.process_files download (po_rows read_po m) sheet_row append
            (file :: rest) (st, sheet)
          = Workflow.process_files download (po_rows read_po m) sheet_row append
              rest (Workflow.failed st, sheet))
  /\ (forall df0,
        read_grn data = Some df0 ->
        (exists col, header_missing m GRN.required_fields df0 col) ->
        (exists missing log,
           GRN.process_grn_excel_file read_grn today data file m
           = ([], log ++ [(ERROR, GRN.Missing_required_columns missing)])
           /\ forall col, col ∈ missing
                          <-> header_missing m GRN.required_fields df0 col)
        /\ forall (V Sheet : Type) download (sheet_row : GRN.record -> list V)
                  (append : Sheet -> list (list V) -> option Sheet) rest st sheet,
             download (id file) = Some data ->
             Workflow.process_files download (grn_rows read_grn today m)
               sheet_row append (file :: rest) (st, sheet)
             = Workflow.process_files download (grn_rows read_grn today m)
                 sheet_row append rest (Workflow.failed st, sheet)).
Proof.
  split; intros df0 Hread Hmiss.
  - pose proof (po_process_missing_columns read_po data file m df0 Hread Hmiss)
      as (missing & log & E & Hspec).
    split; [now exists missing, log|].
    intros V Sheet download sheet_row append rest st sheet Hdl.
    apply process_files_after_empty. intros data' Hdl'.
    assert (data' = data) as -> by congruence.
    unfold po_rows. now rewrite E.
  - pose proof (grn_process_missing_columns read_grn today data file m df0
                  Hread Hmiss) as (missing & log & E & Hspec).
    split; [now exists missing, log|].
    intros V Sheet download sheet_row append rest st sheet Hdl.
    apply process_files_after_empty. intros data' Hdl'.
    assert (data' = data) as -> by congruence.
    unfold grn_rows. now rewrite E.
Qed.

(** A purchase-order table with no [Product Description] column. *)
Definition po_table_without_description : Pandas.DataFrame (PO.cell Z) :=
  Pandas.mkDataFrame ["Item Code"; "Quantity"]
    [ [PO.Str "10001"; PO.Num 4%Z] ].

Lemma missing_required_column_witness :
  exists missing log,
    PO.process_excel_file (fun _ => Some po_table_without_description)
      [Byte.x01] (mkFile "5630310004451_20260211_030533.xlsx" "file-1")
      PO.excel_mapping
    = ([], log ++ [(ERROR, PO.Missing_required_columns missing)])
    /\ "Product Description" ∈ missing.
Proof.
  destruct (missing_required_column_fails_document Z Z_numeric
              (fun _ => Some po_table_without_description) (fun _ => None)
              "2026-11-04" [Byte.x01]
              (mkFile "5630310004451_20260211_030533.xlsx" "file-1")
              PO.excel_mapping) as [Hpo _].
  assert (Hmiss : header_missing PO.excel_mapping PO.required_fields
                    po_table_without_description "Product Description").
  { exists "product_name". split; [right; left|].
    split; [vm_compute; reflexivity|]. split; [discriminate|].
    apply str_in_false_iff. reflexivity. }
  destruct (Hpo po_table_without_description eq_refl (ex_intro _ _ Hmiss))
    as [(missing & log & E & Hspec) _].
  exists missing, log. split; [exact E|]. now apply Hspec.
Defined.

(** ** Totals *)

Lemma no_missing_headers {A} m required (df : Pandas.DataFrame A) :
  (forall col, ~ header_missing m required df col) ->
  omap (missing_header m df) required = [].
Proof.
  intros H. destruct (omap _ _) as [|c l] eqn:E; [reflexivity|].
  exfalso. apply (H c), elem_of_missing_headers. rewrite E. left.
Qed.

Lemma headers_all_present {A} m required (df : Pandas.DataFrame A) :
  omap (missing_header m df) required = [] ->
  forall col, ~ header_missing m required df col.
Proof.
  intros E col H. apply elem_of_missing_headers in H.
  rewrite E in H. now apply elem_of_nil in H.
Qed.

Section Totals.
Context {num : Type} {N : Numeric num}.

(** The numbers STEP 2 adds to the total of a field, in the order of the
    rows: for each row what [pd.to_numeric] makes of its cell under the
    mapped header (the [int] 0 when the row has no such label); a row for
    which that is NaN adds nothing. *)
Definition addends (excel_mapping : gmap string string) (field : string)
    (valid : list (Pandas.Series (PO.cell num))) : list num :=
  omap (PO.numeric_field excel_mapping field) valid.

(** [total = 0], then [total += x] for each [x] of the list in turn. *)
Definition running_sum (l : list num) : num := fold_left num_add l num_zero.

(** Adding in either order of two addends gives the same total: so it is
    for exact numbers, not for rounded ones. *)
Definition order_free_addition : Prop :=
  forall a x y : num, num_add (num_add a x) y = num_add (num_add a y) x.

(** The accumulating loop of STEP 2 adds the numbers it meets to its start. *)
Lemma accumulate_addends (g : Pandas.Series (PO.cell num) -> option num)
    rows acc :
  fold_left (fun total row => PO.add_if_number total (g row)) rows acc
  = fold_left num_add (omap g rows) acc.
Proof.
  revert acc. induction rows as [|row rows IH]; intros acc; simpl;
    [reflexivity|].
  rewrite IH. unfold PO.add_if_number. now destruct (g row).
Qed.

Lemma fold_left_pair {A B C} (f : A -> C -> A) (g : B -> C -> B) l a b :
  fold_left (fun t x => (f (fst t) x, g (snd t) x)) l (a, b)
  = (fold_left f l a, fold_left g l b).
Proof.
  revert a b. induction l as [|x l IH]; intros a b; simpl; [reflexivity|apply IH].
Qed.

Lemma totals_are_running_sums excel_mapping valid :
  PO.totals excel_mapping valid
  = (running_sum (addends excel_mapping "quantity_ordered" valid),
     running_sum (addends excel_mapping "amount_per_line_amount" valid)).
Proof.
  unfold PO.totals, running_sum, addends.
  rewrite (fold_left_pair
             (fun q row => PO.add_if_number q
                (PO.numeric_field excel_mapping "quantity_ordered" row))
             (fun a row => PO.add_if_number a
                (PO.numeric_field excel_mapping "amount_per_line_amount" row))).
  now rewrite !accumulate_addends.
Qed.

Lemma totals_snoc excel_mapping valid row :
  PO.totals excel_mapping (valid ++ [row])
  = (PO.add_if_number (fst (PO.totals excel_mapping valid))
       (PO.numeric_field excel_mapping "quantity_ordered" row),
     PO.add_if_number (snd (PO.totals excel_mapping valid))
       (PO.numeric_field excel_mapping "amount_per_line_amount" row)).
Proof. unfold PO.totals. now rewrite fold_left_app. Qed.

Lemma fold_add_perm (l l' : list num) :
  order_free_addition -> Permutation l l' ->
  forall acc, fold_left num_add l acc = fold_left num_add l' acc.
Proof.
  intros Hadd. induction 1 as [|x l l' _ IH|x y l|l l' l'' _ IH1 _ IH2];
    intros acc; simpl.
  - reflexivity.
  - apply IH.
  - now rewrite Hadd.
  - now rewrite IH1.
Qed.

Lemma omap_perm {A B} (g : A -> option B) l l' :
  Permutation l l' -> Permutation (omap g l) (omap g l').
Proof.
  induction 1 as [|x l l' _ IH|x y l|l l' l'' _ IH1 _ IH2]; simpl.
  - constructor.
  - destruct (g x); [now constructor|exact IH].
  - destruct (g x), (g y); try reflexivity. constructor.
  - now transitivity (omap g l').
Qed.

Lemma totals_perm excel_mapping valid valid' :
  order_free_addition -> Permutation valid valid' ->
  PO.totals excel_mapping valid = PO.totals excel_mapping valid'.
Proof.
  intros Hadd H. rewrite !totals_are_running_sums. unfold running_sum, addends.
  f_equal; apply fold_add_perm; try exact Hadd; now apply omap_perm.
Qed.

(** A document that reads, has its required columns and a valid row gives
    one record per valid row, each with the counts and totals of the
    document. *)
Lemma po_process_valid_rows read data file excel_mapping df0 :
  read data = Some df0 ->
  (forall col, ~ header_missing excel_mapping PO.required_fields df0 col) ->
  let valid := PO.valid_rows excel_mapping (Pandas.dropna_all PO.isna df0) in
  valid <> [] ->
  fst (PO.process_excel_file read data file excel_mapping)
  = map (PO.row_dict excel_mapping
           (fst (PO.extract_po_from_filename (num := num) (name file)))
           (length valid) (fst (PO.totals excel_mapping valid))
           (snd (PO.totals excel_mapping valid)) file)
      valid.
Proof.
  intros Hread Hmiss valid Hvalid. subst valid. unfold PO.process_excel_file.
  destruct (PO.extract_po_from_filename (name file)) as [po log0].
  rewrite Hread, po_missing_columns_omap.
  rewrite (no_missing_headers excel_mapping PO.required_fields
             (Pandas.dropna_all PO.isna df0) Hmiss).
  destruct (PO.valid_rows _ _) as [|row0 valid]; [now destruct Hvalid|].
  now destruct (PO.totals _ _) as [q a].
Qed.

(** Every record of a document carries the totals of the document's valid
    rows. *)
Lemma po_records_carry_totals read data file excel_mapping r :
  r ∈ fst (PO.process_excel_file read data file excel_mapping) ->
  exists df0,
    read data = Some df0
    /\ let valid := PO.valid_rows excel_mapping (Pandas.dropna_all PO.isna df0) in
       PO.record_get r "total_items_in_po" = PO.VInt (length valid)
       /\ PO.record_get r "total_quantity_in_po"
          = PO.VNum (fst (PO.totals excel_mapping valid))
       /\ PO.record_get r "total_amount_of_po"
          = PO.VNum (snd (PO.totals excel_mapping valid)).
Proof.
  unfold PO.process_excel_file.
  destruct (PO.extract_po_from_filename (name file)) as [po log0].
  destruct (read data) as [df0|]; [|intros H; now apply elem_of_nil in H].
  destruct (PO.missing_columns _ _); [|intros H; now apply elem_of_nil in H].
  destruct (PO.valid_rows _ _) as [|row0 valid] eqn:Ev;
    [intros H; now apply elem_of_nil in H|].
  destruct (PO.totals _ _) as [q a] eqn:Et. cbn [fst].
  intros H. apply list_elem_of_fmap in H as (row & -> & _).
  exists df0. split; [reflexivity|]. cbn zeta. rewrite Ev, Et.
  repeat split.
Qed.

End Totals.

(** C5. In [app.py] (one order per document) the quantity total is what
    the loop of STEP 2 leaves: starting from 0, the quantity of each valid
    row is added in the order of the table, where the quantity of a row is
    the number in its cell or the number its text parses to, and a row
    whose cell is missing or does not parse is passed over (no cell makes
    the computation fail: it is a total function). The totals do not depend
    on the order of the valid rows when adding two quantities in either
    order gives the same total, as it does for exact numbers. A document
    that reads, has its required columns and a valid row returns one record
    per valid row, each with that total as [total_quantity_in_po]. *)
Theorem total_quantity_is_running_sum (num : Type) (N : Numeric num)
    (excel_mapping : gmap string string) :
  (forall valid,
     fst (PO.totals excel_mapping valid)
     = running_sum (addends excel_mapping "quantity_ordered" valid))
  /\ (forall valid row,
        fst (PO.totals excel_mapping (valid ++ [row]))
        = match PO.numeric_field excel_mapping "quantity_ordered" row with
          | Some x => num_add (fst (PO.totals excel_mapping valid)) x
          | None => fst (PO.totals excel_mapping valid)
          end)
  /\ (order_free_addition ->
      forall valid valid',
        Permutation valid valid' ->
        PO.totals excel_mapping valid = PO.totals excel_mapping valid')
  /\ (forall read data file df0,
        read data = Some df0 ->
        (forall col, ~ header_missing excel_mapping PO.required_fields df0 col) ->
        let valid :=
          PO.valid_rows excel_mapping (Pandas.dropna_all PO.isna df0) in
        valid <> [] ->
        map (fun r => PO.record_get r "total_quantity_in_po")
          (fst (PO.process_excel_file read data file excel_mapping))
        = map (fun _ => PO.VNum
                          (running_sum
                             (addends excel_mapping "quantity_ordered" valid)))
            valid).
Proof.
  split; [intros valid; now rewrite totals_are_running_sums|].
  split; [intros valid row; now rewrite totals_snoc|].
  split; [intros Hadd valid valid'; now apply totals_perm|].
  intros read data file df0 Hread Hmiss valid Hvalid.
  rewrite (po_process_valid_rows read data file excel_mapping df0 Hread Hmiss
             Hvalid).
  fold valid. rewrite map_map, totals_are_running_sums. reflexivity.
Qed.

(** A table of three line items: a numeric quantity, one that does not
    parse, a textual one. *)
Definition po_table_quantities : Pandas.DataFrame (PO.cell Z) :=
  Pandas.mkDataFrame ["Item Code"; "Product Description"; "Quantity"]
    [ [PO.Str "A-10001"; PO.Str "rice"; PO.Num 2%Z];
      [PO.Str "A-10002"; PO.Str "salt"; PO.Str "n/a"];
      [PO.Str "A-10003"; PO.Str "oil"; PO.Str "5"] ].

(** The same line items, the last one first. *)
Definition po_table_quantities_rotated : Pandas.DataFrame (PO.cell Z) :=
  Pandas.mkDataFrame ["Item Code"; "Product Description"; "Quantity"]
    [ [PO.Str "A-10003"; PO.Str "oil"; PO.Str "5"];
      [PO.Str "A-10001"; PO.Str "rice"; PO.Num 2%Z];
      [PO.Str "A-10002"; PO.Str "salt"; PO.Str "n/a"] ].

Lemma total_quantity_witness :
  map (fun r => PO.record_get r "total_quantity_in_po")
    (fst (PO.process_excel_file (fun _ => Some po_table_quantities) [Byte.x01]
            (mkFile "5630310004451_20260211_030533.xlsx" "file-1")
            PO.excel_mapping))
  = [PO.VNum 7%Z; PO.VNum 7%Z; PO.VNum 7%Z]
  /\ PO.totals PO.excel_mapping
       (PO.valid_rows PO.excel_mapping po_table_quantities)
     = PO.totals PO.excel_mapping
         (PO.valid_rows PO.excel_mapping po_table_quantities_rotated).
Proof.
  destruct (total_quantity_is_running_sum Z Z_numeric PO.excel_mapping)
    as (_ & _ & Hperm & Hrecords).
  split.
  - rewrite (Hrecords (fun _ => Some po_table_quantities) [Byte.x01]
               (mkFile "5630310004451_20260211_030533.xlsx" "file-1")
               po_table_quantities eq_refl).
    + vm_compute. reflexivity.
    + apply headers_all_present. vm_compute. reflexivity.
    + vm_compute. discriminate.
  - apply Hperm.
    + intros a x y. cbn [num_add Z_numeric]. lia.
    + vm_compute. symmetry. apply (Permutation_cons_append [_; _]).
Defined.

(** Three line items with the quantities 0.1, 0.2 and 0.3. *)
Definition po_table_tenths : Pandas.DataFrame (PO.cell Number.number) :=
  Pandas.mkDataFrame ["Item Code"; "Product Description"; "Quantity"]
    [ [PO.Str "A-10001"; PO.Str "rice"; PO.Num (Number.Float (Number.tenths 1))];
      [PO.Str "A-10002"; PO.Str "salt"; PO.Num (Number.Float (Number.tenths 2))];
      [PO.Str "A-10003"; PO.Str "oil"; PO.Num (Number.Float (Number.tenths 3))] ].

(** The same line items in the opposite order. *)
Definition po_table_tenths_reversed : Pandas.DataFrame (PO.cell Number.number) :=
  Pandas.mkDataFrame ["Item Code"; "Product Description"; "Quantity"]
    [ [PO.Str "A-10003"; PO.Str "oil"; PO.Num (Number.Float (Number.tenths 3))];
      [PO.Str "A-10002"; PO.Str "salt"; PO.Num (Number.Float (Number.tenths 2))];
      [PO.Str "A-10001"; PO.Str "rice"; PO.Num (Number.Float (Number.tenths 1))] ].

(** The quantity total of the records of a document, one entry per record. *)
Definition total_quantities {num} {N : Numeric num}
    (table : Pandas.DataFrame (PO.cell num)) : list (PO.value num) :=
  map (fun r => PO.record_get r "total_quantity_in_po")
    (fst (PO.process_excel_file (fun _ => Some table) [Byte.x01]
            (mkFile "5630310004451_20260211_030533.xlsx" "file-1")
            PO.excel_mapping)).

(** With float quantities the total depends on the order of the rows: the
    quantities 0.1, 0.2, 0.3 add up to 0.6000000000000001, the float next
    above 0.6, and in the opposite order to 0.6; whatever [str] and
    [pd.to_numeric] do with text. *)
Lemma float_total_depends_on_row_order :
  Number.Float (PrimFloat.next_up (Number.tenths 6))
  <> Number.Float (Number.tenths 6)
  /\ forall float_str to_numeric_text,
       let N := Number.numeric float_str to_numeric_text in
       Permutation (PO.valid_rows PO.excel_mapping po_table_tenths)
         (PO.valid_rows PO.excel_mapping po_table_tenths_reversed)
       /\ total_quantities po_table_tenths
          = [ PO.VNum (Number.Float (PrimFloat.next_up (Number.tenths 6)));
              PO.VNum (Number.Float (PrimFloat.next_up (Number.tenths 6)));
              PO.VNum (Number.Float (PrimFloat.next_up (Number.tenths 6))) ]
       /\ total_quantities po_table_tenths_reversed
          = [ PO.VNum (Number.Float (Number.tenths 6));
              PO.VNum (Number.Float (Number.tenths 6));
              PO.VNum (Number.Float (Number.tenths 6)) ].
Proof.
  split.
  - intros H.
    apply (f_equal (fun x => match x with
                             | Number.Float f => FloatOps.Prim2SF f
                             | Number.Int _ => SpecFloat.S754_nan
                             end)) in H.
    vm_compute in H. discriminate.
  - intros float_str to_numeric_text N. split; [|split].
    + change (PO.valid_rows PO.excel_mapping po_table_tenths)
        with (rev (PO.valid_rows PO.excel_mapping po_table_tenths_reversed)).
      symmetry. apply Permutation_rev.
    + vm_compute. reflexivity.
    + vm_compute. reflexivity.
Qed.

(** ** Documents without a valid row *)

(** A log entry that reports neither an error nor computed totals. *)
Definition po_quiet_entry {num} (e : PO.log_entry num) : Prop :=
  fst e = INFO /\ forall items qty amount, snd e <> PO.Totals items qty amount.

(** A log entry that reports neither an error nor a count of GRN groups. *)
Definition grn_quiet_entry (e : GRN.log_entry) : Prop :=
  fst e = INFO /\ forall n, snd e <> GRN.Unique_grn_numbers n.

Lemma po_extract_log_quiet {num} filename :
  Forall po_quiet_entry (snd (PO.extract_po_from_filename (num := num) filename)).
Proof.
  unfold PO.extract_po_from_filename.
  destruct (Py.split _ _) as [|a [|b parts]];
    [| |destruct (String.length b =? 8)%nat];
    repeat constructor; discriminate.
Qed.

Lemma grn_extract_log_quiet today filename :
  Forall grn_quiet_entry (snd (GRN.extract_date_from_filename today filename)).
Proof.
  unfold GRN.extract_date_from_filename.
  destruct (GRN.search GRN.stamp_here _); [constructor|].
  destruct (GRN.search GRN.date_here _); repeat constructor; discriminate.
Qed.

Lemma po_no_valid_rows {num} {N : Numeric num} m (df : Pandas.DataFrame (PO.cell num)) :
  (forall row, row ∈ Pandas.iterrows df -> ~ po_key_accepted m row) ->
  PO.valid_rows m df = [].
Proof.
  intros H. destruct (PO.valid_rows m df) as [|row valid] eqn:E; [reflexivity|].
  exfalso. destruct (po_valid_rows_spec m df) as [_ Hspec].
  destruct (proj1 (Hspec row)) as [Hin Hacc]; [rewrite E; left|].
  exact (H row Hin Hacc).
Qed.

Lemma grn_no_valid_rows item_col (df : Pandas.DataFrame GRN.cell) :
  (forall r0, r0 ∈ Pandas.rows df ->
              ~ grn_key_accepted item_col (combine (Pandas.columns df) r0)) ->
  Pandas.rows (GRN.drop_rows_without_item_code item_col (GRN.replace_tokens df)) = [].
Proof.
  intros H.
  destruct (Pandas.rows (GRN.drop_rows_without_item_code item_col
                           (GRN.replace_tokens df))) as [|r rs] eqn:E;
    [reflexivity|].
  exfalso. destruct (grn_valid_rows_spec item_col df) as [_ Hspec].
  destruct (proj1 (Hspec r)) as (r0 & Hin & _ & Hacc); [rewrite E; left|].
  exact (H r0 Hin Hacc).
Qed.

Lemma po_process_no_valid_rows {num} {N : Numeric num} read data file m df0 :
  read data = Some df0 ->
  (forall col, ~ header_missing m PO.required_fields df0 col) ->
  (forall row, row ∈ Pandas.iterrows (Pandas.dropna_all PO.isna df0) ->
               ~ po_key_accepted m row) ->
  exists log,
    PO.process_excel_file read data file m
    = ([], log ++ [(INFO, PO.No_valid_line_items (name file))])
    /\ Forall po_quiet_entry log.
Proof.
  intros Hread Hmiss Hrows. unfold PO.process_excel_file.
  pose proof (po_extract_log_quiet (num := num) (name file)) as Hlog.
  destruct (PO.extract_po_from_filename (name file)) as [po log0].
  rewrite Hread, po_missing_columns_omap.
  rewrite (no_missing_headers m PO.required_fields
             (Pandas.dropna_all PO.isna df0) Hmiss).
  rewrite (po_no_valid_rows m _ Hrows).
  eexists. split; [reflexivity|].
  apply Forall_app. split; [exact Hlog|].
  repeat constructor; discriminate.
Qed.

Lemma grn_process_no_valid_rows read today data file m df0 item_col :
  read data = Some df0 ->
  (forall col, ~ header_missing m GRN.required_fields df0 col) ->
  m !! "item_code" = Some item_col ->
  item_col ∈ Pandas.columns df0 ->
  (forall r0, r0 ∈ Pandas.rows (Pandas.dropna_all GRN.isna df0) ->
              ~ grn_key_accepted item_col (combine (Pandas.columns df0) r0)) ->
  exists log,
    GRN.process_grn_excel_file read today data file m
    = ([], log ++ [(INFO, GRN.No_valid_line_items (name file))])
    /\ Forall grn_quiet_entry log.
Proof.
  intros Hread Hmiss Hitem Hcol Hrows. unfold GRN.process_grn_excel_file.
  pose proof (grn_extract_log_quiet today (name file)) as Hlog.
  destruct (GRN.extract_date_from_filename today (name file)) as [date log0].
  rewrite Hread, grn_missing_columns_omap.
  rewrite (no_missing_headers m GRN.required_fields
             (GRN.replace_tokens (Pandas.dropna_all GRN.isna df0)) Hmiss).
  rewrite Hitem.
  assert (Pandas.has_column
            (GRN.replace_tokens (Pandas.dropna_all GRN.isna df0)) item_col
          = true) as -> by now apply str_in_iff.
  cbn [negb].
  rewrite (grn_no_valid_rows item_col (Pandas.dropna_all GRN.isna df0) Hrows).
  eexists. split; [reflexivity|].
  apply Forall_app. split; [exact Hlog|].
  repeat constructor; discriminate.
Qed.

(** C8, as the code has it. A document whose required columns are all
    there and none of whose rows passes the primary-key test yields an
    empty record list; its log ends with the [No valid line items] warning
    and holds no [ERROR] entry and no entry of computed totals or groups.
    The batch loop then counts the file as failed, as it does for every
    file that yields no record, and goes on with the next one, in [app.py]
    and in [grn.py]. *)
Theorem no_valid_rows_warns_and_counts_as_failed
    (num : Type) (N : Numeric num)
    (read_po : list Byte.byte -> option (Pandas.DataFrame (PO.cell num)))
    (read_grn : list Byte.byte -> option (Pandas.DataFrame GRN.cell))
    (today : string) (data : list Byte.byte) (file : file_info)
    (m : gmap string string) :
  (forall df0,
     read_po data = Some df0 ->
     (forall col, ~ header_missing m PO.required_fields df0 col) ->
     (forall row, row ∈ Pandas.iterrows (Pandas.dropna_all PO.isna df0) ->
                  ~ po_key_accepted m row) ->
     (exists log,
        PO.process_excel_file read_po data file m
        = ([], log ++ [(INFO, PO.No_valid_line_items (name file))])
        /\ Forall po_quiet_entry log)
     /\ forall (V Sheet : Type) download (sheet_row : PO.record num -> list V)
               (append : Sheet -> list (list V) -> option Sheet) rest st sheet,
          download (id file) = Some data ->
          Workflow.process_files download (po_rows read_po m) sheet_row append
            (file :: rest) (st, sheet)
          = Workflow.process_files download (po_rows read_po m) sheet_row append
              rest (Workflow.failed st, sheet))
  /\ (forall df0 item_col,
        read_grn data = Some df0 ->
        (forall col, ~ header_missing m GRN.required_fields df0 col) ->
        m !! "item_code" = Some item_col ->
        item_col ∈ Pandas.columns df0 ->
        (forall r0, r0 ∈ Pandas.rows (Pandas.dropna_all GRN.isna df0) ->
                    ~ grn_key_accepted item_col
                        (combine (Pandas.columns df0) r0)) ->
        (exists log,
           GRN.process_grn_excel_file read_grn today data file m
           = ([], log ++ [(INFO, GRN.No_valid_line_items (name file))])
           /\ Forall grn_quiet_entry log)
        /\ forall (V Sheet : Type) download (sheet_row : GRN.record -> list V)
                  (append : Sheet -> list (list V) -> option Sheet) rest st sheet,
             download (id file) = Some data ->
             Workflow.process_files download (grn_rows read_grn today m)
               sheet_row append (file :: rest) (st, sheet)
             = Workflow.process_files download (grn_rows read_grn today m)
                 sheet_row append rest (Workflow.failed st, sheet)).
Proof.
  split.
  - intros df0 Hread Hmiss Hrows.
    pose proof (po_process_no_valid_rows read_po data file m df0 Hread Hmiss
                  Hrows) as (log & E & Hlog).
    split; [now exists log|].
    intros V Sheet download sheet_row append rest st sheet Hdl.
    apply process_files_after_empty. intros data' Hdl'.
    assert (data' = data) as -> by congruence.
    unfold po_rows. now rewrite E.
  - intros df0 item_col Hread Hmiss Hitem Hcol Hrows.
    pose proof (grn_process_no_valid_rows read_grn today data file m df0
                  item_col Hread Hmiss Hitem Hcol Hrows) as (log & E & Hlog).
    split; [now exists log|].
    intros V Sheet download sheet_row append rest st sheet Hdl.
    apply process_files_after_empty. intros data' Hdl'.
    assert (data' = data) as -> by congruence.
    unfold grn_rows. now rewrite E.
Qed.

Lemma po_rows_all_rejected {num} {N : Numeric num} m
    (df : Pandas.DataFrame (PO.cell num)) :
  PO.valid_rows m df = [] ->
  forall row, row ∈ Pandas.iterrows df -> ~ po_key_accepted m row.
Proof.
  intros E row Hin Hacc. destruct (po_valid_rows_spec m df) as [_ Hspec].
  pose proof (proj2 (Hspec row) (conj Hin Hacc)) as H.
  rewrite E in H. now apply elem_of_nil in H.
Qed.

(** A purchase-order table whose item codes are blank or missing. *)
Definition po_table_blank_keys : Pandas.DataFrame (PO.cell Z) :=
  Pandas.mkDataFrame ["Item Code"; "Product Description"; "Quantity"]
    [ [PO.Str " "; PO.Str "rice"; PO.Num 3%Z];
      [PO.NaN; PO.Str "salt"; PO.Num 1%Z] ].

Lemma no_valid_rows_witness :
  (exists log,
     PO.process_excel_file (fun _ => Some po_table_blank_keys) [Byte.x01]
       (mkFile "5630310004451_20260211_030533.xlsx" "file-1") PO.excel_mapping
     = ([], log ++ [(INFO, PO.No_valid_line_items
                             "5630310004451_20260211_030533.xlsx")])
     /\ Forall po_quiet_entry log)
  /\ Workflow.process_files (fun _ => Some [Byte.x01])
       (po_rows (fun _ => Some po_table_blank_keys) PO.excel_mapping)
       PO.sheet_row (fun sheet rows => Some (sheet ++ rows))
       [mkFile "5630310004451_20260211_030533.xlsx" "file-1"]
       (Workflow.mkStats 1 0 0 0 0, [])
     = (Workflow.mkStats 1 0 1 0 0, []).
Proof.
  destruct (no_valid_rows_warns_and_counts_as_failed Z Z_numeric
              (fun _ => Some po_table_blank_keys) (fun _ => None)
              "2026-11-04" [Byte.x01]
              (mkFile "5630310004451_20260211_030533.xlsx" "file-1")
              PO.excel_mapping) as [Hpo _].
  assert (Hheaders : forall col,
            ~ header_missing PO.excel_mapping PO.required_fields
                po_table_blank_keys col)
    by (apply headers_all_present; vm_compute; reflexivity).
  assert (Hrows : forall row,
            row ∈ Pandas.iterrows (Pandas.dropna_all PO.isna po_table_blank_keys) ->
            ~ po_key_accepted PO.excel_mapping row)
    by (apply po_rows_all_rejected; vm_compute; reflexivity).
  destruct (Hpo po_table_blank_keys eq_refl Hheaders Hrows) as [Hlog Hbatch].
  split; [exact Hlog|].
  rewrite (Hbatch (PO.value Z) (list (list (PO.value Z)))
             (fun _ => Some [Byte.x01]) PO.sheet_row
             (fun sheet rows => Some (sheet ++ rows)) []
             (Workflow.mkStats 1 0 0 0 0) [] eq_refl).
  reflexivity.
Defined.

(** A run of the purchase-order workflow over one file that reads as
    [table], on an empty sheet that takes every append. *)
Definition po_run_on_one_file (table : Pandas.DataFrame (PO.cell Z))
  : Workflow.stats * list (list (PO.value Z)) :=
  PO.process_drive_to_sheet_workflow (fun _ => Some table)
    (fun _ => Some [Byte.x01]) (fun sheet rows => Some (sheet ++ rows))
    (fun _ => Some []) (fun _ _ => None)
    true ∅ [mkFile "5630310004451_20260211_030533.xlsx" "file-1"]
    (Some 500) [].

(** C8 fails as stated: the batch does treat a document without a valid
    row as a failure. The file of [po_table_blank_keys] is counted under
    [failed_files], and the run ends exactly as it does for the file of
    [po_table_without_description], whose required column is missing. *)
Lemma no_valid_rows_counts_as_failed :
  fst (po_run_on_one_file po_table_blank_keys) = Workflow.mkStats 1 0 1 0 0
  /\ po_run_on_one_file po_table_blank_keys
     = po_run_on_one_file po_table_without_description.
Proof. split; vm_compute; reflexivity. Qed.

(** ** Output records *)

(** The fields of a purchase-order record that are read from the row. *)
Definition po_row_fields : list string :=
  [ "product_number"; "product_name"; "quantity_ordered"; "price_per_unit";
    "mrp"; "base_price"; "amount_per_line_amount" ].

(** The fields of a GRN record that are read from the row through the
    column mapping. *)
Definition grn_row_fields : list string :=
  [ "item_code"; "product_upc"; "product_description"; "mrp"; "tax_amount";
    "landing_rate_po"; "landing_rate_grn"; "quantity_po"; "quantity_grn";
    "fill_rate"; "total_grn_amount"; "gmv_loss" ].

Ltac each_member H :=
  repeat (apply elem_of_cons in H as [->|H]; [reflexivity|]);
  now apply elem_of_nil in H.

Section PoRecords.
Context {num : Type} {N : Numeric num}.

Lemma po_row_dict_keys m po items qty amount file (row : Pandas.Series (PO.cell num)) :
  map fst (PO.row_dict m po items qty amount file row) = PO.output_columns.
Proof. reflexivity. Qed.

Lemma po_row_dict_field m po items qty amount file
    (row : Pandas.Series (PO.cell num)) f :
  f ∈ po_row_fields ->
  PO.record_get (PO.row_dict m po items qty amount file row) f
  = PO.text_field m f row.
Proof. intros H. unfold po_row_fields in H. each_member H. Qed.

(** Every record of a document is built from one of its valid rows. *)
Lemma po_records_from_rows read data file m r :
  r ∈ fst (PO.process_excel_file read data file m) ->
  exists df0 po items qty amount row,
    read data = Some df0
    /\ row ∈ PO.valid_rows m (Pandas.dropna_all PO.isna df0)
    /\ r = PO.row_dict m po items qty amount file row.
Proof.
  unfold PO.process_excel_file.
  destruct (PO.extract_po_from_filename (name file)) as [po log0].
  destruct (read data) as [df0|]; [|intros H; now apply elem_of_nil in H].
  destruct (PO.missing_columns _ _); [|intros H; now apply elem_of_nil in H].
  destruct (PO.valid_rows _ _) as [|row0 valid] eqn:Ev;
    [intros H; now apply elem_of_nil in H|].
  destruct (PO.totals _ _) as [q a]. cbn [fst].
  intros H. apply list_elem_of_fmap in H as (row & -> & Hrow).
  exists df0, po, (length (row0 :: valid)), q, a, row.
  split; [reflexivity|]. split; [now rewrite Ev|reflexivity].
Qed.

Lemma po_text_field_absent m f cols (cells : list (PO.cell num)) :
  PO.mapped m f ∉ cols ->
  PO.text_field m f (combine cols cells) = PO.VStr "".
Proof.
  intros H. unfold PO.text_field. now rewrite (series_get_absent _ _ _ H).
Qed.

Lemma po_absent_column_renders_empty read data file m r :
  r ∈ fst (PO.process_excel_file read data file m) ->
  map fst r = PO.output_columns
  /\ exists df0,
       read data = Some df0
       /\ forall f, f ∈ po_row_fields ->
                    PO.mapped m f ∉ Pandas.columns df0 ->
                    PO.record_get r f = PO.VStr "".
Proof.
  intros H.
  destruct (po_records_from_rows _ _ _ _ _ H)
    as (df0 & po & items & qty & amount & row & Hread & Hrow & ->).
  split; [apply po_row_dict_keys|].
  exists df0. split; [exact Hread|]. intros f Hf Habs.
  rewrite (po_row_dict_field _ _ _ _ _ _ _ _ Hf).
  destruct (po_valid_rows_spec m (Pandas.dropna_all PO.isna df0)) as [_ Hspec].
  apply Hspec in Hrow as [Hin _].
  apply list_elem_of_fmap in Hin as (cells & -> & _).
  now apply po_text_field_absent.
Qed.

End PoRecords.

Lemma grn_row_dict_keys m grn_col date file row :
  map fst (GRN.row_dict m grn_col date file row) = GRN.output_columns.
Proof. reflexivity. Qed.

Lemma grn_row_dict_field m grn_col date file row f :
  f ∈ grn_row_fields ->
  GRN.record_get (GRN.row_dict m grn_col date file row) f
  = GRN.text_field m f row.
Proof. intros H. unfold grn_row_fields in H. each_member H. Qed.

(** Every record of a GRN document is built from a row of the parsed table
    whose cells went through [df.replace]. *)
Lemma grn_records_from_rows read today data file m r :
  r ∈ fst (GRN.process_grn_excel_file read today data file m) ->
  exists df0 grn_col date cells,
    read data = Some df0
    /\ cells ∈ Pandas.rows df0
    /\ r = GRN.row_dict m grn_col date file
             (combine (Pandas.columns df0) (map GRN.replace_cell cells)).
Proof.
  unfold GRN.process_grn_excel_file.
  destruct (GRN.extract_date_from_filename today (name file)) as [date log0].
  destruct (read data) as [df0|]; [|intros H; now apply elem_of_nil in H].
  destruct (GRN.missing_columns _ _); [|intros H; now apply elem_of_nil in H].
  destruct (m !! "item_code") as [item_col|];
    [|intros H; now apply elem_of_nil in H].
  destruct (negb (Pandas.has_column _ item_col));
    [intros H; now apply elem_of_nil in H|].
  destruct (Pandas.rows (GRN.drop_rows_without_item_code item_col _))
    as [|c0 cs] eqn:Erows; [intros H; now apply elem_of_nil in H|].
  destruct (m !! "po_number") as [grn_col|];
    [|intros H; now apply elem_of_nil in H].
  destruct (negb (Pandas.has_column _ grn_col));
    [intros H; now apply elem_of_nil in H|].
  cbn [fst]. intros H. apply list_elem_of_fmap in H as (row & -> & Hrow).
  unfold Pandas.iterrows in Hrow.
  apply list_elem_of_fmap in Hrow as (cells & -> & Hcells).
  destruct (grn_valid_rows_spec item_col (Pandas.dropna_all GRN.isna df0))
    as [_ Hspec].
  apply Hspec in Hcells as (cells0 & Hin & -> & _).
  exists df0, grn_col, date, cells0. split; [reflexivity|].
  split; [|reflexivity].
  unfold Pandas.dropna_all in Hin. cbn [Pandas.rows] in Hin.
  now apply elem_of_filter in Hin as [Hin _].
Qed.

Lemma grn_text_field_absent m f cols (cells : list GRN.cell) :
  GRN.mapped m f ∉ cols -> GRN.text_field m f (combine cols cells) = "".
Proof.
  intros H. unfold GRN.text_field, GRN.text_at.
  now rewrite (series_get_absent _ _ _ H).
Qed.

Lemma grn_absent_column_renders_empty read today data file m r :
  r ∈ fst (GRN.process_grn_excel_file read today data file m) ->
  map fst r = GRN.output_columns
  /\ exists df0,
       read data = Some df0
       /\ forall f, f ∈ grn_row_fields ->
                    GRN.mapped m f ∉ Pandas.columns df0 ->
                    GRN.record_get r f = "".
Proof.
  intros H.
  destruct (grn_records_from_rows _ _ _ _ _ _ H)
    as (df0 & grn_col & date & cells & Hread & Hin & ->).
  split; [apply grn_row_dict_keys|].
  exists df0. split; [exact Hread|]. intros f Hf Habs.
  rewrite (grn_row_dict_field _ _ _ _ _ _ Hf).
  now apply grn_text_field_absent.
Qed.

(** C6, as the code has it. Every record has exactly the fields of the
    output schema, in its order; a field read from the row is the empty
    text when the table has no column under its mapped header (or the
    field has no mapping). *)
Theorem absent_column_renders_empty
    (num : Type) (N : Numeric num)
    (read_po : list Byte.byte -> option (Pandas.DataFrame (PO.cell num)))
    (read_grn : list Byte.byte -> option (Pandas.DataFrame GRN.cell))
    (today : string) (data : list Byte.byte) (file : file_info)
    (m : gmap string string) :
  (forall r,
     r ∈ fst (PO.process_excel_file read_po data file m) ->
     map fst r = PO.output_columns
     /\ exists df0,
          read_po data = Some df0
          /\ forall f, f ∈ po_row_fields ->
                       PO.mapped m f ∉ Pandas.columns df0 ->
                       PO.record_get r f = PO.VStr "")
  /\ (forall r,
        r ∈ fst (GRN.process_grn_excel_file read_grn today data file m) ->
        map fst r = GRN.output_columns
        /\ exists df0,
             read_grn data = Some df0
             /\ forall f, f ∈ grn_row_fields ->
                          GRN.mapped m f ∉ Pandas.columns df0 ->
                          GRN.record_get r f = "").
Proof.
  split; intros r.
  - apply po_absent_column_renders_empty.
  - apply grn_absent_column_renders_empty.
Qed.

(** A purchase-order table with no [Landing Rate] column and an empty MRP
    cell. *)
Definition po_table_empty_mrp : Pandas.DataFrame (PO.cell Z) :=
  Pandas.mkDataFrame ["Item Code"; "Product Description"; "Quantity"; "MRP"]
    [ [PO.Str "10001"; PO.Str "rice"; PO.Num 2%Z; PO.NaN] ].

(** C6 fails as stated: a cell that holds no value (NaN) under a column
    that is there renders as the text [nan], not as the empty text; the
    field of the absent column ([base_price]) is empty. *)
Lemma empty_cell_renders_nan :
  map (fun r => (PO.record_get r "mrp", PO.record_get r "base_price"))
    (fst (PO.process_excel_file (fun _ => Some po_table_empty_mrp) [Byte.x01]
            (mkFile "5630310004451_20260211_030533.xlsx" "file-1")
            PO.excel_mapping))
  = [(PO.VStr "nan", PO.VStr "")].
Proof. vm_compute. reflexivity. Qed.

Lemma absent_column_witness :
  exists r,
    r ∈ fst (PO.process_excel_file (fun _ => Some po_table_empty_mrp) [Byte.x01]
               (mkFile "5630310004451_20260211_030533.xlsx" "file-1")
               PO.excel_mapping)
    /\ map fst r = PO.output_columns
    /\ PO.record_get r "base_price" = PO.VStr "".
Proof.
  destruct (absent_column_renders_empty Z Z_numeric
              (fun _ => Some po_table_empty_mrp) (fun _ => None) "2026-11-04"
              [Byte.x01] (mkFile "5630310004451_20260211_030533.xlsx" "file-1")
              PO.excel_mapping) as [Hpo _].
  destruct (fst (PO.process_excel_file (fun _ => Some po_table_empty_mrp)
                   [Byte.x01]
                   (mkFile "5630310004451_20260211_030533.xlsx" "file-1")
                   PO.excel_mapping)) as [|r rest] eqn:E;
    [vm_compute in E; discriminate|].
  exists r. split; [left|].
  destruct (Hpo r) as [Hkeys (df0 & Hread & Hfield)]; [left|].
  split; [exact Hkeys|]. injection Hread as <-.
  apply Hfield.
  - now apply str_in_iff.
  - now apply str_in_false_iff.
Defined.

(** ** The tokens [grn.py] blanks *)










Lemma grn_records_shape read today data file m :
  fst (GRN.process_grn_excel_file read today data file m) = []
  \/ exists df0 item_col grn_col,
       read data = Some df0
       /\ m !! "item_code" = Some item_col
       /\ fst (GRN.process_grn_excel_file read today data file m)
          = map (GRN.row_dict m grn_col
                   (fst (GRN.extract_date_from_filename today (name file))) file)
              (Pandas.iterrows
                 (GRN.drop_rows_without_item_code item_col
                    (GRN.replace_tokens (Pandas.dropna_all GRN.isna df0)))).
Proof.
  unfold GRN.process_grn_excel_file.
  destruct (GRN.extract_date_from_filename today (name file)) as [date log0].
  destruct (read data) as [df0|]; [|now left].
  destruct (GRN.missing_columns _ _); [|now left].
  destruct (m !! "item_code") as [item_col|]; [|now left].
  destruct (negb (Pandas.has_column _ item_col)); [now left|].
  destruct (Pandas.rows (GRN.drop_rows_without_item_code item_col _))
    as [|c0 cs] eqn:Erows; [now left|].
  destruct (m !! "po_number") as [grn_col|]; [|now left].
  destruct (negb (Pandas.has_column _ grn_col)); [now left|].
  right. exists df0, item_col, grn_col. repeat split.
Qed.






(** ** Keyed mode: one GRN file with several GRN numbers *)

(** Three valid rows whose GRN numbers are [A], [A], [B]. *)
Definition grn_table_two_groups : Pandas.DataFrame GRN.cell :=
  Pandas.mkDataFrame
    ["Item Code"; "po_number"; "Product Description"; "Quantity - GRN";
     "Total GRN Amount"]
    [ [GRN.Str "10001"; GRN.Str "A"; GRN.Str "rice"; GRN.Str "2"; GRN.Str "100"];
      [GRN.Str "10002"; GRN.Str "A"; GRN.Str "salt"; GRN.Str "3"; GRN.Str "50"];
      [GRN.Str "10003"; GRN.Str "B"; GRN.Str "oil"; GRN.Str "1"; GRN.Str "70"] ].

Definition grn_file_two_groups : file_info :=
  mkFile "Consolidated-GRN-Report_20260210_143022.xlsx" "file-1".

(** C1, on the code. For the table with GRN numbers [A], [A], [B],
    [process_grn_excel_file] returns three records that carry their own GRN
    number and the fields of the output schema and nothing else: no count
    and no sum of any group. The only thing computed per group is the
    number of distinct GRN numbers, 2, which is logged; the
    [total_grn_amount] of a record is the text of its own row's cell (100,
    50, 70), not the amount of its group (150, 150, 70). *)
Lemma grn_records_carry_no_group_totals :
  GRN.process_grn_excel_file (fun _ => Some grn_table_two_groups) "2026-11-04"
    [Byte.x01] grn_file_two_groups GRN.excel_mapping
  = (map (GRN.row_dict GRN.excel_mapping "po_number" "2026-02-10"
            grn_file_two_groups)
       (Pandas.iterrows grn_table_two_groups),
     [ (INFO, GRN.Excel_read 3 (name grn_file_two_groups));
       (INFO, GRN.Excel_columns (Pandas.columns grn_table_two_groups));
       (INFO, GRN.Unique_grn_numbers 2);
       (INFO, GRN.Extracted_rows 3 (name grn_file_two_groups)) ])
  /\ map (fun r => (GRN.record_get r "grn_number",
                    GRN.record_get r "quantity_grn",
                    GRN.record_get r "total_grn_amount"))
       (fst (GRN.process_grn_excel_file (fun _ => Some grn_table_two_groups)
               "2026-11-04" [Byte.x01] grn_file_two_groups GRN.excel_mapping))
     = [("A", "2", "100"); ("A", "3", "50"); ("B", "1", "70")]
  /\ Forall (fun r => map fst r = GRN.output_columns)
       (fst (GRN.process_grn_excel_file (fun _ => Some grn_table_two_groups)
               "2026-11-04" [Byte.x01] grn_file_two_groups GRN.excel_mapping)).
Proof.
  split; [vm_compute; reflexivity|]. split; [vm_compute; reflexivity|].
  repeat constructor.
Qed.
(** * Further properties of the workflows *)

(** ** The Drive-to-Sheets batch: what the counters count *)

Section Batch.
Context {R V Sheet : Type}.
Variable name_filter : list file_info -> list file_info.
Variable download : string -> option (list Byte.byte).
Variable process_file : list Byte.byte -> file_info -> list R.
Variable sheet_row : R -> list V.
Variable append : Sheet -> list (list V) -> option Sheet.

(** One pass of the loop body counts the file once, as processed or as
    failed, and leaves the other two counters alone. *)
Lemma process_one_counts st sheet f :
  let st' := fst (Workflow.process_one download process_file sheet_row append
                    (st, sheet) f) in
  Workflow.processed_files st' + Workflow.failed_files st'
  = S (Workflow.processed_files st + Workflow.failed_files st)
  /\ Workflow.total_files st' = Workflow.total_files st
  /\ Workflow.skipped_files st' = Workflow.skipped_files st.
Proof.
  unfold Workflow.process_one.
  destruct (download (id f)) as [[|b data]|]; cbn; try lia.
  destruct (process_file (b :: data) f) as [|r rs]; cbn; try lia.
  destruct (append sheet _); cbn; lia.
Qed.

Lemma process_files_counts files st sheet :
  let st' := fst (Workflow.process_files download process_file sheet_row append
                    files (st, sheet)) in
  Workflow.processed_files st' + Workflow.failed_files st'
  = Workflow.processed_files st + Workflow.failed_files st + length files
  /\ Workflow.total_files st' = Workflow.total_files st
  /\ Workflow.skipped_files st' = Workflow.skipped_files st.
Proof.
  unfold Workflow.process_files. revert st sheet.
  induction files as [|f files IH]; intros st sheet; cbn [fold_left length].
  - cbn. lia.
  - pose proof (process_one_counts st sheet f) as H.
    destruct (Workflow.process_one download process_file sheet_row append
                (st, sheet) f) as [st1 sheet1].
    cbn [fst] in H. specialize (IH st1 sheet1). cbn zeta in *. lia.
Qed.

End Batch.

Lemma limit_files_length max_files files :
  length (Workflow.limit_files max_files files) <= length files.
Proof.
  unfold Workflow.limit_files. destruct max_files as [[|m]|]; try lia.
  destruct (S m <? length files)%nat; [|lia].
  rewrite length_firstn. lia.
Qed.

Lemma skip_existing_files_length existing files :
  length (Workflow.skip_existing_files existing files) <= length files.
Proof. apply sublist_length, skip_existing_files_sublist. Qed.

(** X1. [process_drive_to_sheet_workflow] counts every file once.
    [total_files] is the size of the (name-filtered) listing; the files
    left after the skip-existing filter and [skipped_files] add up to it;
    each file that reaches the loop is counted exactly once, as processed
    or as failed, and none is when the header setup fails; so the three
    counters never exceed [total_files]. *)
Theorem drive_to_sheet_counts_every_file {R V Sheet : Type}
    (name_filter : list file_info -> list file_info)
    (download : string -> option (list Byte.byte))
    (process_file : list Byte.byte -> file_info -> list R)
    (sheet_row : R -> list V)
    (append : Sheet -> list (list V) -> option Sheet)
    (header_cell : string -> V)
    (get_header_range : Sheet -> option (list (list string)))
    (update_header_range : Sheet -> list (list V) -> option Sheet)
    (display_headers : list string)
    (skip_existing : bool) (existing : gset string) (listed : list file_info)
    (max_files : option nat) (sheet : Sheet) :
  let kept :=
    if skip_existing
    then Workflow.skip_existing_files existing (name_filter listed)
    else name_filter listed in
  let headers_ok :=
    snd (Workflow.setup_headers append header_cell get_header_range
           update_header_range sheet display_headers) in
  let st :=
    fst (Workflow.process_drive_to_sheet_workflow name_filter download
           process_file sheet_row append header_cell get_header_range
           update_header_range display_headers skip_existing existing listed
           max_files sheet) in
  Workflow.total_files st = length (name_filter listed)
  /\ Workflow.skipped_files st + length kept = Workflow.total_files st
  /\ Workflow.processed_files st + Workflow.failed_files st
     = (if headers_ok then length (Workflow.limit_files max_files kept) else 0)
  /\ Workflow.processed_files st + Workflow.failed_files st
     + Workflow.skipped_files st <= Workflow.total_files st.
Proof.
  intros kept headers_ok st.
  assert (Hkept : length kept <= length (name_filter listed)).
  { subst kept. destruct skip_existing; [apply skip_existing_files_length|lia]. }
  pose proof (limit_files_length max_files kept) as Hlim.
  subst st headers_ok. unfold Workflow.process_drive_to_sheet_workflow. fold kept.
  assert (Hskip : (if skip_existing then length (name_filter listed) - length kept
                   else 0) + length kept = length (name_filter listed)).
  { subst kept. destruct skip_existing; [|lia].
    pose proof (skip_existing_files_length existing (name_filter listed)). lia. }
  destruct (Workflow.limit_files max_files kept) as [|f files] eqn:E.
  - cbn [fst Workflow.total_files Workflow.skipped_files
         Workflow.processed_files Workflow.failed_files length].
    destruct (snd _); lia.
  - destruct (Workflow.setup_headers append header_cell get_header_range
                update_header_range sheet display_headers)
      as [sheet' [|]]; cbn [snd].
    + pose proof (process_files_counts download process_file sheet_row append
                    (f :: files)
                    (Workflow.mkStats (length (name_filter listed)) 0 0
                       (if skip_existing
                        then length (name_filter listed) - length kept else 0) 0)
                    sheet') as (Hc & Ht & Hs).
      cbn zeta in Hc, Ht, Hs.
      cbn [Workflow.total_files Workflow.skipped_files
           Workflow.processed_files Workflow.failed_files] in Hc, Ht, Hs.
      rewrite Ht, Hs. lia.
    + cbn [fst Workflow.total_files Workflow.skipped_files
           Workflow.processed_files Workflow.failed_files].
      lia.
Qed.

(** X2. The [max_files] limit keeps a leading part of the list, in its
    order: with a positive limit [n] the first [n] files, or all of them when
    there are no more than [n]; with no limit, or with the limit 0 (which
    Python reads as false), every file. *)
Theorem limit_files_keeps_a_prefix (max_files : option nat)
    (files : list file_info) :
  Workflow.limit_files max_files files `prefix_of` files
  /\ (forall n, max_files = Some (S n) ->
        length (Workflow.limit_files max_files files) = min (S n) (length files))
  /\ (max_files = None \/ max_files = Some 0 ->
        Workflow.limit_files max_files files = files).
Proof.
  split; [|split].
  - unfold Workflow.limit_files. destruct max_files as [[|m]|]; try reflexivity.
    destruct (S m <? length files)%nat; [|reflexivity].
    exists (skipn (S m) files). symmetry. apply firstn_skipn.
  - intros n ->. unfold Workflow.limit_files.
    destruct (Nat.ltb_spec (S n) (length files)) as [H|H].
    + rewrite length_firstn. lia.
    + lia.
  - intros [->| ->]; reflexivity.
Qed.

(** ** The rows a batch adds to the sheet *)

Section SheetGrowth.
Context {R V : Type}.
Variable download : string -> option (list Byte.byte).
Variable process_file : list Byte.byte -> file_info -> list R.
Variable sheet_row : R -> list V.
Variable append : list (list V) -> list (list V) -> option (list (list V)).
(** The sheet either refuses an append or gains exactly the rows given. *)
Hypothesis append_exact :
  forall sheet rows sheet', append sheet rows = Some sheet' -> sheet' = sheet ++ rows.

(** [row] is the sheet row of a record of one of [files]. *)
Definition row_of_files (files : list file_info) (row : list V) : Prop :=
  exists f data r,
    f ∈ files /\ download (id f) = Some data /\ r ∈ process_file data f
    /\ row = sheet_row r.

Lemma process_one_growth st sheet f :
  exists added,
    snd (Workflow.process_one download process_file sheet_row append (st, sheet) f)
    = sheet ++ added
    /\ Workflow.rows_added
         (fst (Workflow.process_one download process_file sheet_row append
                 (st, sheet) f))
       = Workflow.rows_added st + length added
    /\ forall row, row ∈ added -> row_of_files [f] row.
Proof.
  unfold Workflow.process_one.
  assert (Hnone : forall st0 : Workflow.stats,
    Workflow.rows_added (Workflow.failed st0) = Workflow.rows_added st0)
    by reflexivity.
  destruct (download (id f)) as [[|b data]|] eqn:Ed;
    try (exists []; cbn [fst snd]; rewrite app_nil_r, Hnone; cbn [length];
         split; [reflexivity|]; split; [lia|];
         intros row Hrow; now apply elem_of_nil in Hrow).
  destruct (process_file (b :: data) f) as [|r rs] eqn:Ep;
    try (exists []; cbn [fst snd]; rewrite app_nil_r, Hnone; cbn [length];
         split; [reflexivity|]; split; [lia|];
         intros row Hrow; now apply elem_of_nil in Hrow).
  destruct (append sheet (map sheet_row (r :: rs))) as [sheet'|] eqn:Ea;
    try (exists []; cbn [fst snd]; rewrite app_nil_r, Hnone; cbn [length];
         split; [reflexivity|]; split; [lia|];
         intros row Hrow; now apply elem_of_nil in Hrow).
  exists (map sheet_row (r :: rs)). cbn [fst snd].
  split; [now apply append_exact|]. split; [reflexivity|].
  intros row Hrow. apply list_elem_of_fmap in Hrow as (r' & -> & Hr').
  exists f, (b :: data), r'. split; [left|]. split; [exact Ed|].
  split; [now rewrite Ep|reflexivity].
Qed.

Lemma process_files_growth files st sheet :
  exists added,
    snd (Workflow.process_files download process_file sheet_row append files
           (st, sheet)) = sheet ++ added
    /\ Workflow.rows_added
         (fst (Workflow.process_files download process_file sheet_row append
                 files (st, sheet)))
       = Workflow.rows_added st + length added
    /\ forall row, row ∈ added -> row_of_files files row.
Proof.
  unfold Workflow.process_files. revert st sheet.
  induction files as [|f files IH]; intros st sheet; cbn [fold_left].
  - exists []. cbn [fst snd length]. rewrite app_nil_r.
    split; [reflexivity|]. split; [lia|].
    intros row Hrow. now apply elem_of_nil in Hrow.
  - destruct (process_one_growth st sheet f) as (added1 & Hs1 & Hn1 & Hr1).
    destruct (Workflow.process_one download process_file sheet_row append
                (st, sheet) f) as [st1 sheet1].
    cbn [fst snd] in Hs1, Hn1. subst sheet1.
    destruct (IH st1 (sheet ++ added1)) as (added2 & Hs2 & Hn2 & Hr2).
    exists (added1 ++ added2). rewrite Hs2, Hn2, Hn1, length_app, app_assoc.
    split; [reflexivity|]. split; [lia|].
    intros row Hrow. apply elem_of_app in Hrow as [Hrow|Hrow].
    + destruct (Hr1 row Hrow) as (f' & data & r & Hf & Hd & Hr & ->).
      apply list_elem_of_singleton in Hf as ->.
      exists f, data, r. split; [left|auto].
    + destruct (Hr2 row Hrow) as (f' & data & r & Hf & Hd & Hr & ->).
      exists f', data, r. split; [now right|auto].
Qed.

End SheetGrowth.

Lemma limit_files_elem max_files files f :
  f ∈ Workflow.limit_files max_files files -> f ∈ files.
Proof.
  unfold Workflow.limit_files. destruct max_files as [[|m]|]; try easy.
  destruct (S m <? length files)%nat; [|easy].
  intros H. rewrite <- (firstn_skipn (S m) files). apply elem_of_app. now left.
Qed.

(** *** What the header setup leaves *)

Section HeaderSetup.
Context {V Sheet : Type}.
Variable append : Sheet -> list (list V) -> option Sheet.
Variable header_cell : string -> V.
Variable get_header_range : Sheet -> option (list (list string)).
Variable update_header_range : Sheet -> list (list V) -> option Sheet.

(** With no header in row 1 the header row is appended, and the setup
    fails when the append does. *)
Lemma setup_headers_creates sheet headers values :
  get_header_range sheet = Some values ->
  Workflow.existing_headers values = [] ->
  Workflow.setup_headers append header_cell get_header_range
    update_header_range sheet headers
  = match append sheet [map header_cell headers] with
    | Some sheet' => (sheet', true)
    | None => (sheet, false)
    end.
Proof.
  intros Hget Hrow. unfold Workflow.setup_headers. now rewrite Hget, Hrow.
Qed.

(** A row 1 that holds the headers is left alone. *)
Lemma setup_headers_keeps sheet headers values :
  get_header_range sheet = Some values ->
  Workflow.existing_headers values = headers ->
  headers <> [] ->
  Workflow.setup_headers append header_cell get_header_range
    update_header_range sheet headers
  = (sheet, true).
Proof.
  intros Hget Hrow Hne. unfold Workflow.setup_headers. rewrite Hget, Hrow.
  destruct headers as [|h headers]; [now destruct Hne|].
  now rewrite bool_decide_eq_true_2.
Qed.

(** A row 1 that holds other headers is overwritten, and the setup fails
    when the update does. *)
Lemma setup_headers_updates sheet headers values :
  get_header_range sheet = Some values ->
  Workflow.existing_headers values <> [] ->
  Workflow.existing_headers values <> headers ->
  Workflow.setup_headers append header_cell get_header_range
    update_header_range sheet headers
  = match update_header_range sheet [map header_cell headers] with
    | Some sheet' => (sheet', true)
    | None => (sheet, false)
    end.
Proof.
  intros Hget Hne Hdiff. unfold Workflow.setup_headers. rewrite Hget.
  destruct (Workflow.existing_headers values) as [|h row] eqn:E;
    [now destruct Hne|].
  now rewrite bool_decide_eq_false_2.
Qed.

End HeaderSetup.

(** The sheet the loop of a run starts from: the sheet the run was given
    when no file is left to process, else that sheet as [setup_headers]
    left it. *)
Definition sheet_before_loop {V Sheet : Type}
    (append : Sheet -> list (list V) -> option Sheet)
    (header_cell : string -> V)
    (get_header_range : Sheet -> option (list (list string)))
    (update_header_range : Sheet -> list (list V) -> option Sheet)
    (display_headers : list string) (files : list file_info) (sheet : Sheet)
  : Sheet :=
  match files with
  | [] => sheet
  | _ :: _ =>
      fst (Workflow.setup_headers append header_cell get_header_range
             update_header_range sheet display_headers)
  end.

Lemma drive_to_sheet_growth {R V : Type}
    (name_filter : list file_info -> list file_info)
    (download : string -> option (list Byte.byte))
    (process_file : list Byte.byte -> file_info -> list R)
    (sheet_row : R -> list V)
    (append : list (list V) -> list (list V) -> option (list (list V)))
    (header_cell : string -> V)
    (get_header_range : list (list V) -> option (list (list string)))
    (update_header_range : list (list V) -> list (list V)
                           -> option (list (list V)))
    (display_headers : list string)
    (skip_existing : bool) (existing : gset string) (listed : list file_info)
    (max_files : option nat) (sheet : list (list V)) :
  (forall sheet rows sheet',
     append sheet rows = Some sheet' -> sheet' = sheet ++ rows) ->
  let files :=
    Workflow.limit_files max_files
      (if skip_existing
       then Workflow.skip_existing_files existing (name_filter listed)
       else name_filter listed) in
  let result :=
    Workflow.process_drive_to_sheet_workflow name_filter download process_file
      sheet_row append header_cell get_header_range update_header_range
      display_headers skip_existing existing listed max_files sheet in
  exists added,
    snd result
    = sheet_before_loop append header_cell get_header_range
        update_header_range display_headers files sheet ++ added
    /\ Workflow.rows_added (fst result) = length added
    /\ forall row, row ∈ added ->
         exists f data r,
           f ∈ name_filter listed
           /\ (skip_existing = true -> name f ∉ existing)
           /\ download (id f) = Some data /\ r ∈ process_file data f
           /\ row = sheet_row r.
Proof.
  intros Happend files result. subst result files.
  unfold Workflow.process_drive_to_sheet_workflow, sheet_before_loop.
  set (kept := if skip_existing
               then Workflow.skip_existing_files existing (name_filter listed)
               else name_filter listed).
  assert (Hkept : forall f, f ∈ Workflow.limit_files max_files kept ->
            f ∈ name_filter listed /\ (skip_existing = true -> name f ∉ existing)).
  { intros f Hf. apply limit_files_elem in Hf. subst kept.
    destruct skip_existing.
    - apply skip_existing_files_elem in Hf as [Hin Hnew]. auto.
    - split; [exact Hf|discriminate]. }
  assert (Hnothing : forall (st : Workflow.stats) (base : list (list V)),
    Workflow.rows_added st = 0 ->
    exists added : list (list V),
      base = base ++ added /\ Workflow.rows_added st = length added
      /\ forall row, row ∈ added ->
           exists f data r,
             f ∈ name_filter listed
             /\ (skip_existing = true -> name f ∉ existing)
             /\ download (id f) = Some data /\ r ∈ process_file data f
             /\ row = sheet_row r).
  { intros st base Hst. exists []. rewrite app_nil_r, Hst.
    split; [reflexivity|]. split; [reflexivity|].
    intros row Hrow. now apply elem_of_nil in Hrow. }
  destruct (Workflow.limit_files max_files kept) as [|f files] eqn:E;
    [now apply Hnothing|].
  destruct (Workflow.setup_headers append header_cell get_header_range
              update_header_range sheet display_headers) as [base [|]];
    cbn [fst snd]; [|now apply Hnothing].
  destruct (process_files_growth download process_file sheet_row append Happend
              (f :: files)
              (Workflow.mkStats (length (name_filter listed)) 0 0
                 (if skip_existing
                  then length (name_filter listed) - length kept else 0) 0)
              base) as (added & Hs & Hn & Hr).
  exists added. split; [exact Hs|]. split; [exact Hn|].
  intros row Hrow. destruct (Hr row Hrow) as (f' & data & r & Hf & Hd & Hrec & ->).
  destruct (Hkept f' Hf) as [Hin Hnew].
  exists f', data, r. auto.
Qed.

(** X3. Where an append to the sheet either fails or adds exactly the rows
    it is given, a run of [process_drive_to_sheet_workflow] leaves the
    sheet as its header setup left it with rows added below, and
    [rows_added] is the number of these rows; each of them is the sheet row
    of a record of a listed file that passed the name filter (and, with
    [skip_existing], whose name was not among the existing ones). The
    header setup is not run when no file is left to process; it leaves the
    sheet alone when row 1 holds the headers, and adds the header row,
    which [rows_added] does not count, when row 1 is empty. *)
Theorem rows_added_is_sheet_growth {R V : Type}
    (name_filter : list file_info -> list file_info)
    (download : string -> option (list Byte.byte))
    (process_file : list Byte.byte -> file_info -> list R)
    (sheet_row : R -> list V)
    (append : list (list V) -> list (list V) -> option (list (list V)))
    (header_cell : string -> V)
    (get_header_range : list (list V) -> option (list (list string)))
    (update_header_range : list (list V) -> list (list V)
                           -> option (list (list V)))
    (display_headers : list string)
    (skip_existing : bool) (existing : gset string) (listed : list file_info)
    (max_files : option nat) (sheet : list (list V)) :
  (forall sheet rows sheet',
     append sheet rows = Some sheet' -> sheet' = sheet ++ rows) ->
  let files :=
    Workflow.limit_files max_files
      (if skip_existing
       then Workflow.skip_existing_files existing (name_filter listed)
       else name_filter listed) in
  let result :=
    Workflow.process_drive_to_sheet_workflow name_filter download process_file
      sheet_row append header_cell get_header_range update_header_range
      display_headers skip_existing existing listed max_files sheet in
  let base :=
    sheet_before_loop append header_cell get_header_range update_header_range
      display_headers files sheet in
  (exists added,
     snd result = base ++ added
     /\ Workflow.rows_added (fst result) = length added
     /\ forall row, row ∈ added ->
          exists f data r,
            f ∈ name_filter listed
            /\ (skip_existing = true -> name f ∉ existing)
            /\ download (id f) = Some data /\ r ∈ process_file data f
            /\ row = sheet_row r)
  /\ (files = [] -> base = sheet)
  /\ (forall values,
        get_header_range sheet = Some values ->
        Workflow.existing_headers values = display_headers ->
        display_headers <> [] ->
        base = sheet)
  /\ (forall values sheet',
        files <> [] ->
        get_header_range sheet = Some values ->
        Workflow.existing_headers values = [] ->
        append sheet [map header_cell display_headers] = Some sheet' ->
        base = sheet ++ [map header_cell display_headers]).
Proof.
  intros Happend files result base.
  split; [now apply drive_to_sheet_growth|].
  subst base. unfold sheet_before_loop.
  split; [now intros ->|]. split.
  - intros values Hget Hrow Hne. destruct files; [reflexivity|].
    now rewrite (setup_headers_keeps append header_cell get_header_range
                   update_header_range sheet display_headers values).
  - intros values sheet' Hfiles Hget Hrow Hheader.
    destruct files; [now destruct Hfiles|].
    rewrite (setup_headers_creates append header_cell get_header_range
               update_header_range sheet display_headers values Hget Hrow).
    rewrite Hheader. cbn [fst]. now apply Happend.
Qed.

(** A purchase-order table with two line items. *)
Definition po_table_two_items : Pandas.DataFrame (PO.cell Z) :=
  Pandas.mkDataFrame ["Item Code"; "Product Description"; "Quantity"; "Total Amount"]
    [ [PO.Num 10001%Z; PO.Str "rice"; PO.Num 2%Z; PO.Num 100%Z];
      [PO.Num 10002%Z; PO.Str "salt"; PO.Num 3%Z; PO.Num 50%Z] ].

(** A run of the purchase-order workflow over one file that reads as
    [po_table_two_items], on an empty sheet that takes every append: row 1
    reads empty. *)
Definition po_run_on_empty_sheet
  : Workflow.stats * list (list (PO.value Z)) :=
  PO.process_drive_to_sheet_workflow (fun _ => Some po_table_two_items)
    (fun _ => Some [Byte.x01]) (fun sheet rows => Some (sheet ++ rows))
    (fun _ => Some []) (fun _ _ => None)
    true ∅ [mkFile "5630310004451_20260211_030533.xlsx" "file-1"]
    (Some 500) [].

Lemma rows_added_is_sheet_growth_witness :
  exists added,
    snd po_run_on_empty_sheet = [map PO.VStr PO.display_headers] ++ added
    /\ Workflow.rows_added (fst po_run_on_empty_sheet) = length added
    /\ length added = 2.
Proof.
  destruct (rows_added_is_sheet_growth (fun listed => listed)
              (fun _ => Some [Byte.x01])
              (fun file_data file =>
                 fst (PO.process_excel_file (fun _ => Some po_table_two_items)
                        file_data file PO.excel_mapping))
              PO.sheet_row (fun sheet rows => Some (sheet ++ rows))
              PO.VStr (fun _ => Some []) (fun _ _ => None) PO.display_headers
              true ∅ [mkFile "5630310004451_20260211_030533.xlsx" "file-1"]
              (Some 500) [])
    as ((added & Hs & Hn) & _ & _ & Hcreated).
  - intros sheet rows sheet' [= <-]. reflexivity.
  - rewrite (Hcreated [] [map PO.VStr PO.display_headers]) in Hs;
      [|discriminate|reflexivity|reflexivity|reflexivity].
    exists added. split; [exact Hs|]. split; [exact (proj1 Hn)|].
    rewrite <- (proj1 Hn). vm_compute. reflexivity.
Defined.

(** ** The names [get_existing_source_files] reads off the sheet *)

Lemma index_spec x l :
  x ∈ l ->
  l !! Py.index x l = Some x
  /\ forall j, j < Py.index x l -> l !! j <> Some x.
Proof.
  induction l as [|y l IH]; intros H; [now apply elem_of_nil in H|].
  cbn [Py.index]. destruct (String.eqb_spec y x) as [->|Hne].
  - split; [reflexivity|]. intros j Hj. lia.
  - apply elem_of_cons in H as [->|H]; [congruence|].
    destruct (IH H) as [Hat Hbefore]. split; [exact Hat|].
    intros [|j] Hj; cbn; [congruence|]. apply Hbefore. lia.
Qed.

Lemma source_file_cell_some i row n :
  Sheets.source_file_cell i row = Some n <-> row !! i = Some n /\ n <> "".
Proof.
  unfold Sheets.source_file_cell. destruct (row !! i) as [cell|].
  - destruct cell as [|a cell]; cbn [Py.is_empty]; split.
    + discriminate.
    + intros [[= <-] H]. congruence.
    + intros [= <-]. split; [reflexivity|discriminate].
    + now intros [[= <-] _].
  - split; [discriminate|]. now intros [? _].
Qed.

Lemma existing_source_files_elem error_level headers data n :
  n ∈ fst (Sheets.get_existing_source_files error_level (Some (headers :: data)))
  <-> "source_file" ∈ headers /\ n <> ""
      /\ exists row, row ∈ data /\ row !! Py.index "source_file" headers = Some n.
Proof.
  unfold Sheets.get_existing_source_files.
  destruct (Py.str_in "source_file" headers) eqn:E; cbn [negb fst].
  - apply str_in_iff in E. rewrite elem_of_list_to_set, list_elem_of_omap.
    split.
    + intros (row & Hrow & Hcell). apply source_file_cell_some in Hcell as [Hat Hne].
      split; [exact E|]. split; [exact Hne|]. now exists row.
    + intros (_ & Hne & row & Hrow & Hat). exists row. split; [exact Hrow|].
      now apply source_file_cell_some.
  - apply str_in_false_iff in E. split.
    + intros H. now apply elem_of_empty in H.
    + now intros [H _].
Qed.

(** X4. [get_existing_source_files] returns the non-empty texts found, in
    the rows below the first, under the first column headed [source_file];
    it returns the empty set when the read fails, when the range is empty
    and, with a warning, when no column of the first row is headed
    [source_file]. *)
Theorem existing_source_files_spec (error_level : level)
    (headers : list string) (data : list (list string)) :
  (forall n,
     n ∈ fst (Sheets.get_existing_source_files error_level (Some (headers :: data)))
     <-> "source_file" ∈ headers /\ n <> ""
         /\ exists row, row ∈ data
                        /\ row !! Py.index "source_file" headers = Some n)
  /\ ("source_file" ∈ headers ->
      headers !! Py.index "source_file" headers = Some "source_file"
      /\ forall j, j < Py.index "source_file" headers ->
                   headers !! j <> Some "source_file")
  /\ ("source_file" ∉ headers ->
      Sheets.get_existing_source_files error_level (Some (headers :: data))
      = (∅, [(WARNING, Sheets.No_source_file_column)]))
  /\ Sheets.get_existing_source_files error_level (Some []) = (∅, [])
  /\ Sheets.get_existing_source_files error_level None
     = (∅, [(error_level, Sheets.Failed_to_get_existing)]).
Proof.
  split; [intros n; apply existing_source_files_elem|].
  split; [apply index_spec|].
  split; [|split; reflexivity].
  intros H. apply str_in_false_iff in H.
  unfold Sheets.get_existing_source_files. now rewrite H.
Qed.

(** X5. Under the header row [app.py] hands to [setup_headers], whose last
    cell is four spaces, [get_existing_source_files] finds no [source_file]
    column whatever rows follow: it warns and returns the empty set, and
    the skip-existing filter then keeps every listed file. *)
Theorem po_header_row_hides_source_file (num : Type) (N : Numeric num)
    (read : list Byte.byte -> option (Pandas.DataFrame (PO.cell num)))
    (Sheet : Type) (download : string -> option (list Byte.byte))
    (append : Sheet -> list (list (PO.value num)) -> option Sheet)
    (get_header_range : Sheet -> option (list (list string)))
    (update_header_range : Sheet -> list (list (PO.value num)) -> option Sheet)
    (data : list (list string)) (files : list file_info)
    (max_files : option nat) (sheet : Sheet) :
  PO.get_existing_source_files (Some (PO.display_headers :: data))
  = (∅, [(WARNING, Sheets.No_source_file_column)])
  /\ Workflow.skip_existing_files
       (fst (PO.get_existing_source_files (Some (PO.display_headers :: data))))
       files
     = files
  /\ Workflow.skipped_files
       (fst (PO.process_drive_to_sheet_workflow read download append
               get_header_range update_header_range true
               (fst (PO.get_existing_source_files
                       (Some (PO.display_headers :: data))))
               files max_files sheet))
     = 0.
Proof.
  assert (E : PO.get_existing_source_files (Some (PO.display_headers :: data))
              = (∅, [(WARNING, Sheets.No_source_file_column)])) by reflexivity.
  assert (Hall : Workflow.skip_existing_files ∅ files = files).
  { induction files as [|f files IH]; [reflexivity|].
    rewrite skip_existing_files_cons, IH.
    rewrite decide_False; [reflexivity|]. apply not_elem_of_empty. }
  split; [exact E|]. rewrite E. cbn [fst]. split; [exact Hall|].
  unfold PO.process_drive_to_sheet_workflow,
    Workflow.process_drive_to_sheet_workflow.
  rewrite Hall, Nat.sub_diag.
  destruct (Workflow.limit_files max_files files) as [|f fs]; [reflexivity|].
  destruct (Workflow.setup_headers _ _ _ _ _ _) as [sheet' [|]];
    [|reflexivity].
  now destruct (process_files_counts download
                  (fun file_data file =>
                     fst (PO.process_excel_file read file_data file
                            PO.excel_mapping))
                  PO.sheet_row append (f :: fs)
                  (Workflow.mkStats (length files) 0 0 0 0) sheet')
    as (_ & _ & ->).
Qed.

(** ** A GRN file that was written to the sheet is skipped afterwards *)

Lemma grn_sheet_row_source_file m grn_col date file row :
  GRN.sheet_row (GRN.row_dict m grn_col date file row)
    !! Py.index "source_file" GRN.display_headers
  = Some (name file).
Proof. reflexivity. Qed.

(** X6. Once the sheet, under the header row [grn.py] writes, holds the
    rows that [process_grn_excel_file] produced for a file with a name,
    [get_existing_source_files] returns that name, and the skip-existing
    filter drops every listed file that bears it. *)
Theorem grn_written_file_is_skipped
    (read : list Byte.byte -> option (Pandas.DataFrame GRN.cell))
    (today : string) (data : list Byte.byte) (file : file_info)
    (m : gmap string string) (before after : list (list string))
    (files : list file_info) :
  fst (GRN.process_grn_excel_file read today data file m) <> [] ->
  name file <> "" ->
  let existing :=
    fst (GRN.get_existing_source_files
           (Some (GRN.display_headers
                  :: before
                     ++ map GRN.sheet_row
                          (fst (GRN.process_grn_excel_file read today data file m))
                     ++ after))) in
  name file ∈ existing
  /\ forall f, name f = name file ->
               f ∉ Workflow.skip_existing_files existing files.
Proof.
  intros Hrecs Hname existing.
  assert (Hin : name file ∈ existing).
  { subst existing. apply existing_source_files_elem.
    split; [now apply str_in_iff|]. split; [exact Hname|].
    destruct (fst (GRN.process_grn_excel_file read today data file m))
      as [|r recs] eqn:E; [congruence|].
    exists (GRN.sheet_row r). split.
    - apply elem_of_app. right. apply elem_of_app. left. cbn [map]. left.
    - destruct (grn_records_from_rows read today data file m r)
        as (df0 & grn_col & date & cells & _ & _ & ->); [rewrite E; left|].
      apply grn_sheet_row_source_file. }
  split; [exact Hin|].
  intros f Hf Hkept. apply skip_existing_files_elem in Hkept as [_ Hnew].
  apply Hnew. now rewrite Hf.
Qed.

(** A GRN table with one valid row. *)
Definition grn_table_one_row : Pandas.DataFrame GRN.cell :=
  Pandas.mkDataFrame ["Item Code"; "po_number"; "Product Description"]
    [ [GRN.Str "10001"; GRN.Str "A"; GRN.Str "rice"] ].

Lemma grn_written_file_is_skipped_witness :
  Workflow.skip_existing_files
    (fst (GRN.get_existing_source_files
            (Some (GRN.display_headers
                   :: []
                      ++ map GRN.sheet_row
                           (fst (GRN.process_grn_excel_file
                                   (fun _ => Some grn_table_one_row) "2026-11-04"
                                   [Byte.x01]
                                   (mkFile "Consolidated-GRN-Report_20260210_143022.xlsx"
                                      "file-1")
                                   GRN.excel_mapping))
                      ++ []))))
    [mkFile "Consolidated-GRN-Report_20260210_143022.xlsx" "file-1"]
  = [].
Proof.
  destruct (grn_written_file_is_skipped (fun _ => Some grn_table_one_row)
              "2026-11-04" [Byte.x01]
              (mkFile "Consolidated-GRN-Report_20260210_143022.xlsx" "file-1")
              GRN.excel_mapping [] []
              [mkFile "Consolidated-GRN-Report_20260210_143022.xlsx" "file-1"])
    as [Hin _]; [vm_compute; discriminate|discriminate|].
  rewrite skip_existing_files_cons, decide_True by exact Hin. reflexivity.
Defined.

(** ** What every output record holds *)

Section PoRecordFacts.
Context {num : Type} {N : Numeric num}.

Lemma po_text_field_of_key m (row : Pandas.Series (PO.cell num)) :
  po_key_accepted m row ->
  exists s, PO.text_field m "product_number" row = PO.VStr s
            /\ (s ∉ [""; "nan"; "NaN"; "NAN"]).
Proof.
  intros (c & Hc & _ & Hs). unfold PO.text_field. rewrite Hc.
  now exists (Py.strip (PO.to_str c)).
Qed.

Lemma po_records_shape read data file m :
  fst (PO.process_excel_file read data file m) = []
  \/ exists df0,
       read data = Some df0
       /\ let valid := PO.valid_rows m (Pandas.dropna_all PO.isna df0) in
          fst (PO.process_excel_file read data file m)
          = map (PO.row_dict m
                   (fst (PO.extract_po_from_filename (num := num) (name file)))
                   (length valid) (fst (PO.totals m valid))
                   (snd (PO.totals m valid)) file)
              valid.
Proof.
  unfold PO.process_excel_file.
  destruct (PO.extract_po_from_filename (name file)) as [po log0].
  destruct (read data) as [df0|]; [|now left].
  destruct (PO.missing_columns _ _); [|now left].
  destruct (PO.valid_rows _ _) as [|row0 valid] eqn:Ev; [now left|].
  right. exists df0. split; [reflexivity|]. cbn zeta. rewrite Ev.
  now destruct (PO.totals _ _) as [q a].
Qed.

End PoRecordFacts.

(** X7. Every record [process_excel_file] returns has a [product_number]
    that is none of [''], ['nan'], ['NaN'], ['NAN']; carries the PO number
    and date extracted from the file name and the file name itself; its
    [total_items_in_po] is the number of records returned for the file; and
    its [total_amount_of_po] is what adding the amount of each valid row,
    from 0 and in the order of the table, leaves (a row whose amount cell
    is missing or does not parse is passed over). *)
Theorem po_records_are_keyed_and_counted (num : Type) (N : Numeric num)
    (read : list Byte.byte -> option (Pandas.DataFrame (PO.cell num)))
    (data : list Byte.byte) (file : file_info) (m : gmap string string)
    (r : PO.record num) :
  r ∈ fst (PO.process_excel_file read data file m) ->
  (exists s, PO.record_get r "product_number" = PO.VStr s
             /\ (s ∉ [""; "nan"; "NaN"; "NAN"]))
  /\ PO.record_get r "po_number"
     = PO.VStr (PO.po_number (fst (PO.extract_po_from_filename (num := num)
                                     (name file))))
  /\ PO.record_get r "po_date"
     = PO.VStr (PO.po_date (fst (PO.extract_po_from_filename (num := num)
                                   (name file))))
  /\ PO.record_get r "source_file" = PO.VStr (name file)
  /\ PO.record_get r "total_items_in_po"
     = PO.VInt (length (fst (PO.process_excel_file read data file m)))
  /\ exists df0,
       read data = Some df0
       /\ PO.record_get r "total_amount_of_po"
          = PO.VNum
              (running_sum
                 (addends m "amount_per_line_amount"
                    (PO.valid_rows m (Pandas.dropna_all PO.isna df0)))).
Proof.
  intros Hr.
  destruct (po_records_shape read data file m) as [E|(df0 & Hread & E)];
    [rewrite E in Hr; now apply elem_of_nil in Hr|].
  cbn zeta in E. rewrite E in Hr |- *.
  apply list_elem_of_fmap in Hr as (row & -> & Hrow).
  destruct (po_valid_rows_spec m (Pandas.dropna_all PO.isna df0)) as [_ Hspec].
  apply Hspec in Hrow as [_ Hkey].
  split; [now apply po_text_field_of_key|].
  split; [reflexivity|]. split; [reflexivity|]. split; [reflexivity|].
  split; [now rewrite length_map|].
  exists df0. split; [exact Hread|].
  now rewrite totals_are_running_sums.
Qed.

Lemma po_records_are_keyed_and_counted_witness :
  exists r,
    r ∈ fst (PO.process_excel_file (fun _ => Some po_table_two_items) [Byte.x01]
               (mkFile "5630310004451_20260211_030533.xlsx" "file-1")
               PO.excel_mapping)
    /\ PO.record_get r "po_number" = PO.VStr "5630310004451"
    /\ PO.record_get r "total_items_in_po" = PO.VInt 2
    /\ PO.record_get r "total_amount_of_po" = PO.VNum 150%Z.
Proof.
  destruct (fst (PO.process_excel_file (fun _ => Some po_table_two_items)
                   [Byte.x01]
                   (mkFile "5630310004451_20260211_030533.xlsx" "file-1")
                   PO.excel_mapping)) as [|r rest] eqn:E;
    [vm_compute in E; discriminate|].
  exists r. split; [left|].
  destruct (po_records_are_keyed_and_counted Z Z_numeric
              (fun _ => Some po_table_two_items) [Byte.x01]
              (mkFile "5630310004451_20260211_030533.xlsx" "file-1")
              PO.excel_mapping r)
    as (_ & Hpo & _ & _ & Hitems & df0 & Hread & Hamount); [rewrite E; left|].
  injection Hread as <-.
  split; [exact Hpo|]. split; [|exact Hamount].
  rewrite Hitems, E. apply f_equal.
  assert (Hlen : length (fst (PO.process_excel_file
                               (fun _ => Some po_table_two_items) [Byte.x01]
                               (mkFile "5630310004451_20260211_030533.xlsx" "file-1")
                               PO.excel_mapping)) = 2)
    by (vm_compute; reflexivity).
  now rewrite E in Hlen.
Defined.

Lemma grn_item_code_of_key m item_col cols cells :
  m !! "item_code" = Some item_col ->
  grn_key_accepted item_col (combine cols cells) ->
  GRN.text_field m "item_code" (combine cols (map GRN.replace_cell cells))
    ∉ [""; "nan"].
Proof.
  intros Hm (s & Hs & Htok & Hblank).
  unfold GRN.text_field, GRN.text_at, GRN.mapped. rewrite Hm.
  cbn [default from_option Datatypes.id].
  rewrite series_get_map, Hs. cbn [fmap option_fmap option_map].
  apply str_in_false_iff in Htok. unfold GRN.replace_cell. rewrite Htok.
  exact Hblank.
Qed.

(** X8. Every record [process_grn_excel_file] returns has an [item_code]
    that is neither [''] nor ['nan'], carries as [received_date] the date
    [extract_date_from_filename] gives for the file name, and carries the
    file name as [source_file]. *)
Theorem grn_records_are_keyed_and_dated
    (read : list Byte.byte -> option (Pandas.DataFrame GRN.cell))
    (today : string) (data : list Byte.byte) (file : file_info)
    (m : gmap string string) (r : GRN.record) :
  r ∈ fst (GRN.process_grn_excel_file read today data file m) ->
  (GRN.record_get r "item_code" ∉ [""; "nan"])
  /\ GRN.record_get r "received_date"
     = fst (GRN.extract_date_from_filename today (name file))
  /\ GRN.record_get r "source_file" = name file.
Proof.
  intros Hr.
  destruct (grn_records_shape read today data file m)
    as [E|(df0 & item_col & grn_col & Hread & Hm & E)];
    [rewrite E in Hr; now apply elem_of_nil in Hr|].
  rewrite E in Hr. apply list_elem_of_fmap in Hr as (row & -> & Hrow).
  split; [|split; reflexivity].
  unfold Pandas.iterrows in Hrow.
  apply list_elem_of_fmap in Hrow as (cells & -> & Hcells).
  destruct (grn_valid_rows_spec item_col (Pandas.dropna_all GRN.isna df0))
    as [_ Hspec].
  apply Hspec in Hcells as (cells0 & _ & -> & Hkey).
  change (GRN.record_get (GRN.row_dict m grn_col
            (fst (GRN.extract_date_from_filename today (name file))) file
            (combine (Pandas.columns df0) (map GRN.replace_cell cells0)))
            "item_code")
    with (GRN.text_field m "item_code"
            (combine (Pandas.columns df0) (map GRN.replace_cell cells0))).
  now apply (grn_item_code_of_key m item_col).
Qed.

Lemma grn_records_are_keyed_and_dated_witness :
  exists r,
    r ∈ fst (GRN.process_grn_excel_file (fun _ => Some grn_table_one_row)
               "2026-11-04" [Byte.x01]
               (mkFile "Consolidated-GRN-Report_20260210_143022.xlsx" "file-1")
               GRN.excel_mapping)
    /\ GRN.record_get r "received_date" = "2026-02-10"
    /\ GRN.record_get r "source_file"
       = "Consolidated-GRN-Report_20260210_143022.xlsx".
Proof.
  destruct (fst (GRN.process_grn_excel_file (fun _ => Some grn_table_one_row)
                   "2026-11-04" [Byte.x01]
                   (mkFile "Consolidated-GRN-Report_20260210_143022.xlsx" "file-1")
                   GRN.excel_mapping)) as [|r rest] eqn:E;
    [vm_compute in E; discriminate|].
  exists r. split; [left|].
  destruct (grn_records_are_keyed_and_dated (fun _ => Some grn_table_one_row)
              "2026-11-04" [Byte.x01]
              (mkFile "Consolidated-GRN-Report_20260210_143022.xlsx" "file-1")
              GRN.excel_mapping r) as (_ & Hdate & Hfile); [rewrite E; left|].
  split; [exact Hdate|exact Hfile].
Defined.

(** ** File names that carry a timestamp *)

Lemma at_end_drop_long n s :
  n + 2 <= String.length s -> GRN.at_end (GRN.drop n s) = false.
Proof.
  revert s. induction n as [|n IH]; intros s H.
  - destruct s as [|a [|b s]]; cbn in H; try lia. reflexivity.
  - destruct s as [|a s]; cbn in H; [lia|]. cbn [GRN.drop]. apply IH. lia.
Qed.

Lemma ext_here_long s : 7 <= String.length s -> GRN.ext_here s = None.
Proof.
  intros H. unfold GRN.ext_here.
  rewrite (at_end_drop_long 5 s), (at_end_drop_long 4 s) by lia.
  now rewrite !andb_false_r.
Qed.

Lemma digit_not_dot c : Py.is_digit c = true -> Ascii.eqb "." (GRN.lower c) = false.
Proof.
  destruct c as [[] [] [] [] [] [] [] []]; intros H;
    first [discriminate H | reflexivity].
Qed.

Lemma ext_here_digit c s : Py.is_digit c = true -> GRN.ext_here (String c s) = None.
Proof.
  intros H. unfold GRN.ext_here. cbn [GRN.startswith_nocase].
  now rewrite (digit_not_dot c H).
Qed.

Lemma strip_excel_ext_step c s :
  GRN.ext_here (String c s) = None ->
  GRN.strip_excel_ext (String c s) = String c (GRN.strip_excel_ext s).
Proof. intros H. cbn [GRN.strip_excel_ext]. now rewrite H. Qed.

(** Text in front of which no extension can end is kept as it is. *)
Lemma strip_excel_ext_app pre s :
  (forall p1 c p2, pre = (p1 ++ String c p2)%string ->
                   GRN.ext_here (String c p2 ++ s)%string = None) ->
  GRN.strip_excel_ext (pre ++ s) = (pre ++ GRN.strip_excel_ext s)%string.
Proof.
  induction pre as [|c pre IH]; intros H; [reflexivity|].
  rewrite !append_cons, strip_excel_ext_step.
  - f_equal. apply IH. intros p1 c' p2 ->. now apply (H (String c p1)).
  - now apply (H ""%string c pre).
Qed.

Lemma search_app_none {M} (here : string -> option M) pre s :
  (forall p1 c p2, pre = (p1 ++ String c p2)%string ->
                   here (String c p2 ++ s)%string = None) ->
  GRN.search here (pre ++ s) = GRN.search here s.
Proof.
  induction pre as [|c pre IH]; intros H; [reflexivity|].
  rewrite append_cons. cbn [GRN.search].
  rewrite <- append_cons, (H ""%string c pre eq_refl).
  apply IH. intros p1 c' p2 ->. now apply (H (String c p1)).
Qed.

Lemma digit_not_newline c : Py.is_digit c = true -> Ascii.eqb c GRN.newline = false.
Proof.
  destruct c as [[] [] [] [] [] [] [] []]; intros H;
    first [discriminate H | reflexivity].
Qed.

(** [ext] is [.xlsx] or [.xls], in any letter case, or there is none. *)
Definition excel_ext_or_none (ext : string) : Prop :=
  Mail.lower ext ∈ [""; ".xlsx"; ".xls"].

Lemma excel_ext_or_none_strip ext :
  excel_ext_or_none ext -> GRN.strip_excel_ext ext = "".
Proof.
  unfold excel_ext_or_none. intros H.
  apply elem_of_cons in H as [H|H];
    [|apply elem_of_cons in H as [H|H];
      [|apply elem_of_cons in H as [H|H]; [|now apply elem_of_nil in H]]].
  - destruct ext; [reflexivity|discriminate].
  - destruct ext as [|e1 [|e2 [|e3 [|e4 [|e5 [|]]]]]]; try discriminate.
    cbn [Mail.lower] in H. injection H as H1 H2 H3 H4 H5.
    cbn [GRN.strip_excel_ext]. unfold GRN.ext_here.
    cbn [GRN.startswith_nocase GRN.drop GRN.at_end].
    now rewrite H1, H2, H3, H4, H5.
  - destruct ext as [|e1 [|e2 [|e3 [|e4 [|]]]]]; try discriminate.
    cbn [Mail.lower] in H. injection H as H1 H2 H3 H4.
    cbn [GRN.strip_excel_ext]. unfold GRN.ext_here.
    cbn [GRN.startswith_nocase GRN.drop GRN.at_end].
    now rewrite H1, H2, H3, H4.
Qed.

Lemma digit_text_2 s :
  digit_text 2 s ->
  exists a b, s = String a (String b "")
              /\ Py.is_digit a = true /\ Py.is_digit b = true.
Proof.
  intros [Hl Hd]. destruct s as [|a [|b [|]]]; try discriminate.
  cbn [all_chars] in Hd.
  apply andb_prop in Hd as [Ha Hd]. apply andb_prop in Hd as [Hb _].
  now exists a, b.
Qed.

Lemma digit_text_4 s :
  digit_text 4 s ->
  exists a b c d, s = String a (String b (String c (String d "")))
                  /\ Py.is_digit a = true /\ Py.is_digit b = true
                  /\ Py.is_digit c = true /\ Py.is_digit d = true.
Proof.
  intros [Hl Hd]. destruct s as [|a [|b [|c [|d [|]]]]]; try discriminate.
  cbn [all_chars] in Hd.
  apply andb_prop in Hd as [Ha Hd]. apply andb_prop in Hd as [Hb Hd].
  apply andb_prop in Hd as [Hc Hd]. apply andb_prop in Hd as [Hd' _].
  now exists a, b, c, d.
Qed.

Lemma digit_text_6 s :
  digit_text 6 s ->
  exists a b c d e f,
    s = String a (String b (String c (String d (String e (String f "")))))
    /\ Py.is_digit a = true /\ Py.is_digit b = true /\ Py.is_digit c = true
    /\ Py.is_digit d = true /\ Py.is_digit e = true /\ Py.is_digit f = true.
Proof.
  intros [Hl Hd]. destruct s as [|a [|b [|c [|d [|e [|f [|]]]]]]]; try discriminate.
  cbn [all_chars] in Hd.
  apply andb_prop in Hd as [Ha Hd]. apply andb_prop in Hd as [Hb Hd].
  apply andb_prop in Hd as [Hc Hd]. apply andb_prop in Hd as [Hd' Hd].
  apply andb_prop in Hd as [He Hd]. apply andb_prop in Hd as [Hf _].
  now exists a, b, c, d, e, f.
Qed.

(** The name [{stem}_{YYYYMMDD}_{HHMMSS}{ext}] gives the date of its
    timestamp, whatever the stem holds. *)
Lemma extract_date_of_stamped_name today stem y m d t ext :
  digit_text 4 y -> digit_text 2 m -> digit_text 2 d -> digit_text 6 t ->
  excel_ext_or_none ext ->
  GRN.extract_date_from_filename today
    (stem ++ "_" ++ (y ++ m ++ d) ++ "_" ++ t ++ ext)%string
  = ((y ++ "-" ++ m ++ "-" ++ d)%string, []).
Proof.
  intros Hy Hm Hd Ht Hext.
  destruct (digit_text_4 y Hy) as (y1 & y2 & y3 & y4 & -> & Dy1 & Dy2 & Dy3 & Dy4).
  destruct (digit_text_2 m Hm) as (m1 & m2 & -> & Dm1 & Dm2).
  destruct (digit_text_2 d Hd) as (d1 & d2 & -> & Dd1 & Dd2).
  destruct (digit_text_6 t Ht)
    as (t1 & t2 & t3 & t4 & t5 & t6 & -> & Dt1 & Dt2 & Dt3 & Dt4 & Dt5 & Dt6).
  repeat first [rewrite append_cons | rewrite append_nil_l].
  unfold GRN.extract_date_from_filename.
  assert (Hstrip :
    GRN.strip_excel_ext
      (stem ++ String "_" (String y1 (String y2 (String y3 (String y4
         (String m1 (String m2 (String d1 (String d2 (String "_"
         (String t1 (String t2 (String t3 (String t4 (String t5
         (String t6 ext))))))))))))))))
    = (stem ++ String "_" (String y1 (String y2 (String y3 (String y4
         (String m1 (String m2 (String d1 (String d2 (String "_"
         (String t1 (String t2 (String t3 (String t4 (String t5
         (String t6 ""))))))))))))))))%string).
  { rewrite strip_excel_ext_app.
    - f_equal.
      repeat (rewrite strip_excel_ext_step
                by first [ now apply ext_here_digit
                         | apply ext_here_long; cbn [String.length]; lia ]).
      now rewrite (excel_ext_or_none_strip ext Hext).
    - intros p1 c p2 _. apply ext_here_long.
      rewrite append_cons. cbn [String.length]. rewrite append_length.
      cbn [String.length]. lia. }
  rewrite Hstrip.
  assert (Hstamp :
    GRN.search GRN.stamp_here
      (stem ++ String "_" (String y1 (String y2 (String y3 (String y4
         (String m1 (String m2 (String d1 (String d2 (String "_"
         (String t1 (String t2 (String t3 (String t4 (String t5
         (String t6 ""))))))))))))))))
    = Some (String y1 (String y2 (String y3 (String y4 ""))),
            String m1 (String m2 ""), String d1 (String d2 ""))).
  { rewrite search_app_none.
    - cbn [GRN.search]. unfold GRN.stamp_here.
      cbn [Py.startswith GRN.drop GRN.digits GRN.at_end].
      rewrite Dy1, Dy2, Dy3, Dy4, Dm1, Dm2, Dd1, Dd2, Dt1, Dt2, Dt3, Dt4, Dt5, Dt6.
      reflexivity.
    - intros p1 c p2 _. unfold GRN.stamp_here.
      destruct p2 as [|c2 p2].
      + rewrite append_cons, append_nil_l.
        cbn [GRN.drop GRN.at_end]. rewrite (digit_not_newline t6 Dt6).
        now rewrite !andb_false_r.
      + rewrite (at_end_drop_long 16); [now rewrite !andb_false_r|].
        rewrite !append_cons. cbn [String.length]. rewrite append_length.
        cbn [String.length]. lia. }
  rewrite Hstamp. reflexivity.
Qed.

(** X9. [extract_date_from_filename] on a name of the documented format
    [{stem}_{YYYYMMDD}_{HHMMSS}] followed by [.xlsx], [.xls] (in any letter
    case) or nothing: the date is the one of the timestamp, written
    [YYYY-MM-DD], whatever the stem holds (digits included), and nothing is
    logged. *)
Theorem grn_timestamp_suffix_gives_date
    (today stem y m d t ext : string) :
  digit_text 4 y -> digit_text 2 m -> digit_text 2 d -> digit_text 6 t ->
  excel_ext_or_none ext ->
  GRN.extract_date_from_filename today
    (stem ++ "_" ++ (y ++ m ++ d) ++ "_" ++ t ++ ext)%string
  = ((y ++ "-" ++ m ++ "-" ++ d)%string, []).
Proof. apply extract_date_of_stamped_name. Qed.

Lemma grn_timestamp_suffix_gives_date_witness :
  GRN.extract_date_from_filename "2026-11-04"
    "Report-20250101-v2_20260210_143022.XLSX"
  = ("2026-02-10", []).
Proof.
  apply (grn_timestamp_suffix_gives_date "2026-11-04" "Report-20250101-v2"
           "2026" "02" "10" "143022" ".XLSX");
    first [split; reflexivity | right; left].
Defined.

(** X10. The name under which [grn.py] uploads an attachment gives back
    the date of its timestamp: for an attachment whose extension (as
    [os.path.splitext] cuts it) is [.xlsx], [.xls] or empty,
    [extract_date_from_filename] of the timestamped name is the date part
    of the timestamp. *)
Theorem uploaded_grn_name_gives_back_its_date
    (today original_filename y m d t : string) :
  digit_text 4 y -> digit_text 2 m -> digit_text 2 d -> digit_text 6 t ->
  excel_ext_or_none (snd (Py.splitext original_filename)) ->
  GRN.extract_date_from_filename today
    (GRN.timestamped_name original_filename (y ++ m ++ d ++ "_" ++ t))
  = ((y ++ "-" ++ m ++ "-" ++ d)%string, []).
Proof.
  intros Hy Hm Hd Ht Hext. unfold GRN.timestamped_name.
  destruct (Py.splitext original_filename) as [name_no_ext ext].
  cbn [snd] in Hext.
  replace (name_no_ext ++ "_" ++ (y ++ m ++ d ++ "_" ++ t) ++ ext)%string
    with (name_no_ext ++ "_" ++ (y ++ m ++ d) ++ "_" ++ t ++ ext)%string
    by now rewrite !append_assoc.
  now apply extract_date_of_stamped_name.
Qed.

Lemma uploaded_grn_name_gives_back_its_date_witness :
  GRN.timestamped_name "Consolidated-GRN-Report.xlsx" "20260210_143022"
  = "Consolidated-GRN-Report_20260210_143022.xlsx"
  /\ GRN.extract_date_from_filename "2026-11-04"
       (GRN.timestamped_name "Consolidated-GRN-Report.xlsx" "20260210_143022")
     = ("2026-02-10", []).
Proof.
  split; [reflexivity|].
  apply (uploaded_grn_name_gives_back_its_date "2026-11-04"
           "Consolidated-GRN-Report.xlsx" "2026" "02" "10" "143022");
    first [split; reflexivity | right; left].
Defined.

(** ** File names that hold eight digits in a row *)

Lemma digits_length n q : GRN.digits n q = true -> n <= String.length q.
Proof.
  revert q. induction n as [|n IH]; intros q H; [lia|].
  destruct q as [|c q]; [discriminate|]. cbn [GRN.digits] in H.
  apply andb_prop in H as [_ H]. cbn [String.length]. apply IH in H. lia.
Qed.

Lemma digits_kept_by_strip_excel_ext n s :
  GRN.digits n s = true -> GRN.digits n (GRN.strip_excel_ext s) = true.
Proof.
  revert s. induction n as [|n IH]; intros s H; [reflexivity|].
  destruct s as [|c s]; [discriminate|]. cbn [GRN.digits] in H.
  apply andb_prop in H as [Hc H].
  rewrite strip_excel_ext_step by now apply ext_here_digit.
  cbn [GRN.digits]. now rewrite Hc, (IH s H).
Qed.

Lemma ext_here_has_no_run s r : GRN.ext_here s = Some r -> ~ has_date_run s.
Proof.
  intros He (p & q & -> & D). apply digits_length in D.
  rewrite ext_here_long in He; [discriminate|].
  rewrite append_length. lia.
Qed.

(** Dropping the extension drops no run of eight digits. *)
Lemma date_run_kept_by_strip_excel_ext s :
  has_date_run s -> has_date_run (GRN.strip_excel_ext s).
Proof.
  induction s as [|c s IH]; intros H.
  - destruct H as (p & q & E & D). destruct p; [|discriminate].
    rewrite append_nil_l in E. now subst q.
  - destruct (GRN.ext_here (String c s)) as [r|] eqn:He;
      [now destruct (ext_here_has_no_run _ _ He)|].
    destruct H as ([|a p] & q & E & D).
    + rewrite append_nil_l in E. subst q.
      exists ""%string, (GRN.strip_excel_ext (String c s)).
      split; [reflexivity|]. now apply digits_kept_by_strip_excel_ext.
    + rewrite append_cons in E. injection E as <- ->.
      destruct IH as (p1 & q1 & E1 & D1); [now exists p, q|].
      rewrite strip_excel_ext_step by exact He.
      exists (String c p1), q1. rewrite E1. split; [reflexivity|exact D1].
Qed.

(** Text that starts with eight digits starts with a year, a month and a
    day, which are what the pattern's three groups capture. *)
Lemma digits_succ n q :
  GRN.digits (S n) q = true ->
  exists c q', q = String c q' /\ Py.is_digit c = true /\ GRN.digits n q' = true.
Proof.
  destruct q as [|c q']; [discriminate|]. cbn [GRN.digits]. intros H.
  apply andb_prop in H as [Hc H]. now exists c, q'.
Qed.

Lemma digits_8_groups q :
  GRN.digits 8 q = true ->
  exists y m d r,
    q = (y ++ m ++ d ++ r)%string
    /\ digit_text 4 y /\ digit_text 2 m /\ digit_text 2 d
    /\ GRN.ymd q = (y, m, d).
Proof.
  intros H.
  apply digits_succ in H as (c1 & q1 & -> & D1 & H).
  apply digits_succ in H as (c2 & q2 & -> & D2 & H).
  apply digits_succ in H as (c3 & q3 & -> & D3 & H).
  apply digits_succ in H as (c4 & q4 & -> & D4 & H).
  apply digits_succ in H as (c5 & q5 & -> & D5 & H).
  apply digits_succ in H as (c6 & q6 & -> & D6 & H).
  apply digits_succ in H as (c7 & q7 & -> & D7 & H).
  apply digits_succ in H as (c8 & r & -> & D8 & _).
  exists (String c1 (String c2 (String c3 (String c4 "")))),
         (String c5 (String c6 "")), (String c7 (String c8 "")), r.
  split; [reflexivity|].
  unfold digit_text. cbn [String.length all_chars].
  rewrite D1, D2, D3, D4, D5, D6, D7, D8.
  repeat split; now destruct r.
Qed.

(** X11. A file name that holds eight digits in a row never makes
    [extract_date_from_filename] fall back to the current date: the result
    is [YYYY-MM-DD] cut from eight consecutive digits of the name without
    its extension, whatever they are (no calendar check), and nothing is
    logged. *)
Theorem filename_with_date_run_gives_its_digits (today filename : string) :
  has_date_run filename ->
  exists p y m d r,
    GRN.strip_excel_ext filename = (p ++ y ++ m ++ d ++ r)%string
    /\ digit_text 4 y /\ digit_text 2 m /\ digit_text 2 d
    /\ GRN.extract_date_from_filename today filename
       = ((y ++ "-" ++ m ++ "-" ++ d)%string, []).
Proof.
  intros H. apply date_run_kept_by_strip_excel_ext in H.
  unfold GRN.extract_date_from_filename.
  destruct (GRN.search GRN.stamp_here (GRN.strip_excel_ext filename))
    as [g|] eqn:Es.
  - destruct (search_some _ _ _ Es) as (p & q & E & Hq).
    unfold GRN.stamp_here in Hq.
    destruct (Py.startswith "_" q) eqn:Hu; [|discriminate].
    destruct (GRN.digits 8 (GRN.drop 1 q)) eqn:D; [|discriminate].
    destruct (_ && _ && _)%bool in Hq; [|discriminate].
    injection Hq as <-.
    destruct q as [|c q]; [discriminate|]. cbn [GRN.drop] in D |- *.
    cbn [Py.startswith] in Hu. rewrite andb_true_r in Hu.
    apply Ascii.eqb_eq in Hu as <-.
    destruct (digits_8_groups q D) as (y & m & d & r & -> & Hy & Hm & Hd & Hg).
    exists (p ++ "_")%string, y, m, d, r. rewrite E, append_assoc, Hg.
    split; [reflexivity|]. split; [exact Hy|]. split; [exact Hm|].
    split; [exact Hd|reflexivity].
  - destruct (GRN.search GRN.date_here (GRN.strip_excel_ext filename))
      as [g|] eqn:Ed; [|now apply no_date_run_iff in Ed].
    destruct (search_some _ _ _ Ed) as (p & q & E & Hq).
    unfold GRN.date_here in Hq.
    destruct (GRN.digits 8 q) eqn:D; [|discriminate]. injection Hq as <-.
    destruct (digits_8_groups q D) as (y & m & d & r & -> & Hy & Hm & Hd & Hg).
    exists p, y, m, d, r. rewrite E, Hg.
    split; [reflexivity|]. split; [exact Hy|]. split; [exact Hm|].
    split; [exact Hd|reflexivity].
Qed.

Lemma filename_with_date_run_gives_its_digits_witness :
  exists p y m d r,
    GRN.strip_excel_ext "GRN-99999999.xlsx" = (p ++ y ++ m ++ d ++ r)%string
    /\ digit_text 4 y /\ digit_text 2 m /\ digit_text 2 d
    /\ GRN.extract_date_from_filename "2026-11-04" "GRN-99999999.xlsx"
       = ((y ++ "-" ++ m ++ "-" ++ d)%string, []).
Proof.
  apply (filename_with_date_run_gives_its_digits "2026-11-04" "GRN-99999999.xlsx").
  exists "GRN-", "99999999.xlsx". split; reflexivity.
Defined.

(** ** The two outcomes of [extract_po_from_filename] *)

Lemma split_head_no_sep sep s :
  match Py.split sep s with
  | p :: _ => all_chars (fun a => negb (Ascii.eqb a sep)) p = true
  | [] => True
  end.
Proof.
  induction s as [|c s IH]; cbn [Py.split]; [reflexivity|].
  destruct (Ascii.eqb c sep) eqn:E; [reflexivity|].
  destruct (Py.split sep s) as [|p ps]; cbn [all_chars]; rewrite E; [reflexivity|].
  exact IH.
Qed.

Lemma slices_of_8 b :
  String.length b = 8 ->
  String.length (Py.slice 0 4 b) = 4 /\ String.length (Py.slice 4 6 b) = 2
  /\ String.length (Py.slice 6 8 b) = 2
  /\ b = (Py.slice 0 4 b ++ Py.slice 4 6 b ++ Py.slice 6 8 b)%string.
Proof.
  destruct b as [|c1 [|c2 [|c3 [|c4 [|c5 [|c6 [|c7 [|c8 [|]]]]]]]]];
    try discriminate.
  intros _. repeat split.
Qed.

(** X12. [extract_po_from_filename] has two outcomes. Either it finds
    nothing: both fields are empty and the could-not-extract line is
    logged. Or the second [_]-separated part of the name (with [.xlsx] and
    [.xls] deleted) has 8 characters: the date is that part cut 4-2-2 with
    dashes, ten characters long, the PO number is the first part, which
    holds no underscore, and the extraction is logged. So a PO number is
    never returned without a date. *)
Theorem po_extraction_is_all_or_nothing (num : Type) (filename : string) :
  PO.extract_po_from_filename (num := num) filename
  = (PO.mkPoInfo "" "", [(INFO, PO.Could_not_extract_po filename)])
  \/ exists id y m d,
       String.length y = 4 /\ String.length m = 2 /\ String.length d = 2
       /\ ~ has_underscore id
       /\ (exists rest,
             Py.split "_" (Py.replace ".xls" "" (Py.replace ".xlsx" "" filename))
             = id :: (y ++ m ++ d)%string :: rest)
       /\ PO.extract_po_from_filename (num := num) filename
          = (PO.mkPoInfo id (y ++ "-" ++ m ++ "-" ++ d)%string,
             [(INFO, PO.Filename_extracted id (y ++ "-" ++ m ++ "-" ++ d)%string)]).
Proof.
  unfold PO.extract_po_from_filename.
  pose proof (split_head_no_sep "_"
                (Py.replace ".xls" "" (Py.replace ".xlsx" "" filename))) as Hhead.
  destruct (Py.split "_" _) as [|a [|b parts]]; [now left|now left|].
  destruct (Nat.eqb_spec (String.length b) 8) as [Hlen|Hlen]; [|now left].
  right. destruct (slices_of_8 b Hlen) as (Hy & Hm & Hd & Hb).
  exists a, (Py.slice 0 4 b), (Py.slice 4 6 b), (Py.slice 6 8 b).
  split; [exact Hy|]. split; [exact Hm|]. split; [exact Hd|].
  split; [now apply no_underscore_iff|].
  split; [|reflexivity].
  exists parts. now rewrite <- Hb.
Qed.

(** ** Attachments read off a Gmail message *)

(** Induction on a message part: its nested parts come first. *)
Lemma part_nested_ind (P : Mail.part -> Prop) :
  (forall f b m, P (Mail.Part f b m None)) ->
  (forall f b m parts, Forall P parts -> P (Mail.Part f b m (Some parts))) ->
  forall p, P p.
Proof.
  intros Hleaf Hnode. fix IH 1. intros [f b m [parts|]]; [|apply Hleaf].
  apply Hnode. induction parts as [|q parts IHparts]; constructor;
    [apply IH|exact IHparts].
Qed.

(** [p] is one of [parts] or lies somewhere below one of them. *)
Inductive part_of (p : Mail.part) : list Mail.part -> Prop :=
  | part_here parts : part_of p (p :: parts)
  | part_later q parts : part_of p parts -> part_of p (q :: parts)
  | part_below f b m nested parts :
      part_of p nested -> part_of p (Mail.Part f b m (Some nested) :: parts).

(** What [process_parts] appends for a part: the part is named, its name
    passes the filter, and it has an attachment id. *)
Definition attachment_of_part (attachment_filter : string) (parts : list Mail.part)
    (a : Mail.attachment) : Prop :=
  Mail.attachment_id a <> "" /\ Mail.filename a <> ""
  /\ (attachment_filter = ""
      \/ GRN.contains (Mail.lower attachment_filter) (Mail.lower (Mail.filename a))
         = true)
  /\ exists m nested,
       part_of (Mail.Part (Some (Mail.filename a))
                  (Some (Some (Mail.attachment_id a))) m nested) parts
       /\ Mail.mimeType a = default "application/octet-stream" m.

Lemma attachment_of_part_later flt q parts a :
  attachment_of_part flt parts a -> attachment_of_part flt (q :: parts) a.
Proof.
  intros (Hid & Hname & Hflt & m & nested & Hp & Hm).
  repeat split; try assumption. exists m, nested. split; [|exact Hm].
  now apply part_later.
Qed.

Lemma attachment_of_part_below flt f b m nested parts a :
  attachment_of_part flt nested a ->
  attachment_of_part flt (Mail.Part f b m (Some nested) :: parts) a.
Proof.
  intros (Hid & Hname & Hflt & m' & nested' & Hp & Hm).
  repeat split; try assumption. exists m', nested'. split; [|exact Hm].
  now apply part_below.
Qed.

Lemma process_parts_cons flt p parts acc :
  Mail.process_parts flt (p :: parts) acc
  = match Mail.process_part flt p acc with
    | Some acc' => Mail.process_parts flt parts acc'
    | None => None
    end.
Proof. reflexivity. Qed.

(** The recursive call of [process_part] on the nested parts is
    [process_parts]. *)
Lemma process_part_unfold flt f b m sub acc :
  Mail.process_part flt (Mail.Part f b m sub) acc
  = let nested acc :=
      match sub with
      | None => Some acc
      | Some parts => Mail.process_parts flt parts acc
      end in
    match f with
    | Some (String _ _ as filename) =>
        if negb (Py.is_empty flt)
           && negb (GRN.contains (Mail.lower flt) (Mail.lower filename))
        then Some acc
        else
          match b with
          | None => None
          | Some attachment_id =>
              nested
                match attachment_id with
                | Some (String _ _ as i) =>
                    acc ++ [Mail.mkAttachment i filename
                              (default "application/octet-stream" m)]
                | _ => acc
                end
          end
    | _ => nested acc
    end.
Proof.
  assert (Hloop : forall parts acc0,
    (fix process_parts (parts : list Mail.part) (attachments : list Mail.attachment)
       : option (list Mail.attachment) :=
       match parts with
       | [] => Some attachments
       | q :: parts' =>
           match Mail.process_part flt q attachments with
           | Some attachments' => process_parts parts' attachments'
           | None => None
           end
       end) parts acc0
    = Mail.process_parts flt parts acc0).
  { induction parts as [|q parts IH]; intros acc0; [reflexivity|].
    cbn [Mail.process_parts]. destruct (Mail.process_part flt q acc0); [apply IH|reflexivity]. }
  cbn [Mail.process_part]. cbn zeta.
  destruct sub as [parts|]; [|reflexivity].
  destruct f as [[|c0 fname]|]; try apply Hloop.
  destruct (negb (Py.is_empty flt) && _); [reflexivity|].
  destruct b as [[[|i0 i]|]|]; first [apply Hloop | reflexivity].
Qed.

Lemma part_of_head p q parts : part_of p [q] -> part_of p (q :: parts).
Proof.
  intros H. inversion H as [ps|q' ps Hin|f b m nested ps Hin]; subst.
  - apply part_here.
  - inversion Hin.
  - now apply part_below.
Qed.

(** What [process_part] and [process_parts] return extends the list they
    were given, by attachments of the parts they went through. *)
Definition extends_by_parts (flt : string) (parts : list Mail.part)
    (acc : list Mail.attachment) (result : option (list Mail.attachment)) : Prop :=
  forall acc', result = Some acc' ->
    exists added, acc' = acc ++ added
                  /\ Forall (attachment_of_part flt parts) added.

Lemma extends_by_nothing flt parts acc : extends_by_parts flt parts acc (Some acc).
Proof.
  intros acc' [= <-]. exists []. now rewrite app_nil_r.
Qed.

Lemma process_parts_extends flt parts :
  Forall (fun p => forall acc,
            extends_by_parts flt [p] acc (Mail.process_part flt p acc)) parts ->
  forall acc, extends_by_parts flt parts acc (Mail.process_parts flt parts acc).
Proof.
  induction 1 as [|p parts Hp _ IH]; intros acc; [apply extends_by_nothing|].
  rewrite process_parts_cons. intros acc' Hrun.
  destruct (Mail.process_part flt p acc) as [acc1|] eqn:E1; [|discriminate].
  destruct (Hp acc acc1 E1) as (added1 & -> & H1).
  destruct (IH _ acc' Hrun) as (added2 & -> & H2).
  exists (added1 ++ added2). rewrite app_assoc. split; [reflexivity|].
  apply Forall_app. split.
  - eapply Forall_impl; [exact H1|].
    intros a (Hid & Hname & Hflt & m & nested & Hpart & Hm).
    repeat split; try assumption. exists m, nested.
    split; [now apply part_of_head|exact Hm].
  - eapply Forall_impl; [exact H2|]. intros a. apply attachment_of_part_later.
Qed.

Lemma process_part_extends flt p acc :
  extends_by_parts flt [p] acc (Mail.process_part flt p acc).
Proof.
  revert acc. induction p as [f b m|f b m parts IH] using part_nested_ind;
    intros acc; rewrite process_part_unfold; cbn zeta.
  - destruct f as [[|c0 fname]|]; try apply extends_by_nothing.
    destruct (negb (Py.is_empty flt) && _) eqn:Eflt; [apply extends_by_nothing|].
    destruct b as [[[|i0 i]|]|]; try apply extends_by_nothing; [|discriminate].
    intros acc' [= <-]. eexists. split; [reflexivity|].
    constructor; [|constructor]. cbn.
    split; [discriminate|]. split; [discriminate|]. split.
    + apply andb_false_iff in Eflt as [E|E]; apply negb_false_iff in E.
      * left. now destruct flt.
      * now right.
    + exists m, None. split; [apply part_here|reflexivity].
  - pose proof (process_parts_extends flt parts IH) as Hnested.
    assert (Hbelow : forall acc0,
      extends_by_parts flt [Mail.Part f b m (Some parts)] acc0
        (Mail.process_parts flt parts acc0)).
    { intros acc0 acc' Hrun. destruct (Hnested acc0 acc' Hrun) as (added & -> & H).
      exists added. split; [reflexivity|].
      eapply Forall_impl; [exact H|]. intros a. apply attachment_of_part_below. }
    destruct f as [[|c0 fname]|]; try apply Hbelow.
    destruct (negb (Py.is_empty flt) && _) eqn:Eflt; [apply extends_by_nothing|].
    destruct b as [[[|i0 i]|]|]; try apply Hbelow; [|discriminate].
    intros acc' Hrun.
    destruct (Hbelow _ acc' Hrun) as (added & -> & H).
    eexists (_ :: added). rewrite <- app_assoc. split; [reflexivity|].
    constructor; [|exact H]. cbn.
    split; [discriminate|]. split; [discriminate|]. split.
    + apply andb_false_iff in Eflt as [E|E]; apply negb_false_iff in E.
      * left. now destruct flt.
      * now right.
    + exists m, (Some parts). split; [apply part_here|reflexivity].
Qed.

(** X13. Every attachment [get_attachments] returns comes from a part of
    the message that has a file name and an attachment id, both non-empty;
    its name holds the filter, letter case aside, when a filter is given;
    and its MIME type is the part's, [application/octet-stream] when the
    part names none. *)
Theorem get_attachments_returns_filtered_parts (error_level : level)
    (message : option (option (list Mail.part))) (attachment_filter : string)
    (a : Mail.attachment) :
  a ∈ fst (Mail.get_attachments error_level message attachment_filter) ->
  exists parts,
    message = Some (Some parts)
    /\ Mail.attachment_id a <> "" /\ Mail.filename a <> ""
    /\ (attachment_filter = ""
        \/ GRN.contains (Mail.lower attachment_filter)
             (Mail.lower (Mail.filename a)) = true)
    /\ exists m nested,
         part_of (Mail.Part (Some (Mail.filename a))
                    (Some (Some (Mail.attachment_id a))) m nested) parts
         /\ Mail.mimeType a = default "application/octet-stream" m.
Proof.
  unfold Mail.get_attachments.
  destruct message as [[parts|]|]; try (intros H; now apply elem_of_nil in H).
  destruct (Mail.process_parts attachment_filter parts []) as [found|] eqn:E;
    [|intros H; now apply elem_of_nil in H].
  cbn [fst]. intros Ha. exists parts. split; [reflexivity|].
  assert (Hall : Forall (fun p => forall acc,
            extends_by_parts attachment_filter [p] acc
              (Mail.process_part attachment_filter p acc)) parts).
  { apply Forall_forall. intros p _ acc. apply process_part_extends. }
  destruct (process_parts_extends attachment_filter parts Hall [] found E)
    as (added & -> & Hadded).
  cbn [app] in Ha. rewrite Forall_forall in Hadded.
  exact (Hadded a Ha).
Qed.

(** A message with an Excel attachment nested under a multipart part, a
    PDF beside it and an inline text part. *)
Definition message_with_nested_excel : list Mail.part :=
  [ Mail.Part (Some "") (Some None) (Some "text/plain") None;
    Mail.Part None None (Some "multipart/mixed")
      (Some [ Mail.Part (Some "PO_ZHPL_1.XLSX") (Some (Some "att-1")) None None;
              Mail.Part (Some "terms.pdf") (Some (Some "att-2"))
                (Some "application/pdf") None ]) ].

Lemma get_attachments_returns_filtered_parts_witness :
  fst (Mail.get_attachments INFO (Some (Some message_with_nested_excel)) ".xlsx")
  = [Mail.mkAttachment "att-1" "PO_ZHPL_1.XLSX" "application/octet-stream"]
  /\ GRN.contains (Mail.lower ".xlsx") (Mail.lower "PO_ZHPL_1.XLSX") = true.
Proof.
  assert (E : fst (Mail.get_attachments INFO
                     (Some (Some message_with_nested_excel)) ".xlsx")
              = [Mail.mkAttachment "att-1" "PO_ZHPL_1.XLSX"
                   "application/octet-stream"]) by (vm_compute; reflexivity).
  split; [exact E|].
  destruct (get_attachments_returns_filtered_parts INFO
              (Some (Some message_with_nested_excel)) ".xlsx"
              (Mail.mkAttachment "att-1" "PO_ZHPL_1.XLSX"
                 "application/octet-stream"))
    as (parts & _ & _ & _ & [Hf|Hf] & _);
    [rewrite E; left|discriminate Hf|exact Hf].
Defined.

(** ** The Mail-to-Drive batch: what the counters count *)

Section MailCounts.
Context {Drive : Type}.
Variable attachments_of : string -> list Mail.attachment.
Variable upload_name : string -> string -> string.
Variable file_exists_in_drive : Drive -> string -> bool.
Variable download_attachment : string -> string -> option (list Byte.byte).
Variable upload_to_drive :
  Drive -> list Byte.byte -> string -> string -> Drive * option string.

(** The three outcome counters together. *)
Definition counted (st : Mail.stats) : nat :=
  Mail.processed st + Mail.failed st + Mail.skipped st.

Lemma process_attachment_counts message_id st drive a :
  let st' := fst (Mail.process_attachment upload_name file_exists_in_drive
                    download_attachment upload_to_drive message_id (st, drive) a) in
  counted st' = S (counted st)
  /\ (Mail.processed st = Mail.total_attachments st ->
      Mail.processed st' = Mail.total_attachments st').
Proof.
  unfold Mail.process_attachment, counted.
  destruct (file_exists_in_drive drive _); [cbn; lia|].
  destruct (download_attachment message_id _) as [[|b data]|]; try (cbn; lia).
  destruct (upload_to_drive drive _ _ _) as [drive' [[|c file_id]|]]; cbn; lia.
Qed.

Lemma process_attachments_count message_id attachments st drive :
  let st' := fst (fold_left
                    (Mail.process_attachment upload_name file_exists_in_drive
                       download_attachment upload_to_drive message_id)
                    attachments (st, drive)) in
  counted st' = counted st + length attachments
  /\ (Mail.processed st = Mail.total_attachments st ->
      Mail.processed st' = Mail.total_attachments st').
Proof.
  revert st drive. induction attachments as [|a attachments IH];
    intros st drive; cbn [fold_left length].
  - cbn. split; [lia|auto].
  - pose proof (process_attachment_counts message_id st drive a) as [Hc Hp].
    destruct (Mail.process_attachment upload_name file_exists_in_drive
                download_attachment upload_to_drive message_id (st, drive) a)
      as [st1 drive1].
    cbn [fst] in Hc, Hp. destruct (IH st1 drive1) as [Hc' Hp'].
    cbn zeta. split; [lia|auto].
Qed.

(** What a message adds to the counters: one for a message without
    attachments, one per attachment otherwise. *)
Definition message_units (message_id : string) : nat :=
  match attachments_of message_id with
  | [] => 1
  | attachments => length attachments
  end.

Lemma process_message_counts st drive message_id :
  let st' := fst (Mail.process_message attachments_of upload_name
                    file_exists_in_drive download_attachment upload_to_drive
                    (st, drive) message_id) in
  counted st' = counted st + message_units message_id
  /\ (Mail.processed st = Mail.total_attachments st ->
      Mail.processed st' = Mail.total_attachments st').
Proof.
  unfold Mail.process_message, message_units.
  destruct (attachments_of message_id) as [|a attachments] eqn:E.
  - unfold counted. cbn. split; [lia|auto].
  - apply (process_attachments_count message_id (a :: attachments)).
Qed.

Lemma process_messages_count messages st drive :
  let st' := fst (fold_left
                    (Mail.process_message attachments_of upload_name
                       file_exists_in_drive download_attachment upload_to_drive)
                    messages (st, drive)) in
  counted st' = counted st + list_sum (map message_units messages)
  /\ (Mail.processed st = Mail.total_attachments st ->
      Mail.processed st' = Mail.total_attachments st').
Proof.
  revert st drive. induction messages as [|message_id messages IH];
    intros st drive; cbn [fold_left map].
  - cbn. split; [lia|auto].
  - pose proof (process_message_counts st drive message_id) as [Hc Hp].
    destruct (Mail.process_message attachments_of upload_name
                file_exists_in_drive download_attachment upload_to_drive
                (st, drive) message_id) as [st1 drive1].
    cbn [fst] in Hc, Hp. destruct (IH st1 drive1) as [Hc' Hp'].
    cbn zeta. unfold list_sum in *. cbn [fold_right]. split; [lia|auto].
Qed.

End MailCounts.

(** X14. [process_mail_to_drive_workflow] counts every attachment once: a
    message without (matching) attachments adds one to [skipped], every
    attachment of the other messages adds one to [processed], [failed] or
    [skipped], so the three counters add up to that many; and
    [total_attachments] always equals [processed]. *)
Theorem mail_to_drive_counts_every_attachment {Drive : Type}
    (attachments_of : string -> list Mail.attachment)
    (upload_name : string -> string -> string)
    (file_exists_in_drive : Drive -> string -> bool)
    (download_attachment : string -> string -> option (list Byte.byte))
    (upload_to_drive :
       Drive -> list Byte.byte -> string -> string -> Drive * option string)
    (messages : list string) (drive : Drive) :
  let st :=
    fst (Mail.process_mail_to_drive_workflow attachments_of upload_name
           file_exists_in_drive download_attachment upload_to_drive
           messages drive) in
  Mail.processed st + Mail.failed st + Mail.skipped st
  = list_sum
      (map (fun message_id =>
              match attachments_of message_id with
              | [] => 1
              | attachments => length attachments
              end) messages)
  /\ Mail.total_attachments st = Mail.processed st.
Proof.
  destruct (process_messages_count attachments_of upload_name
              file_exists_in_drive download_attachment upload_to_drive
              messages (Mail.mkStats 0 0 0 0) drive) as [Hc Hp].
  cbn zeta. unfold Mail.process_mail_to_drive_workflow.
  split; [exact Hc|]. symmetry. now apply Hp.
Qed.

(** ** The batch on a sheet that takes every append *)

(** The sheet rows a file yields: none when the download fails or is
    empty, else the rows of its records. *)
Definition file_rows {R V : Type}
    (download : string -> option (list Byte.byte))
    (process_file : list Byte.byte -> file_info -> list R)
    (sheet_row : R -> list V) (f : file_info) : list (list V) :=
  match download (id f) with
  | Some (b :: data) => map sheet_row (process_file (b :: data) f)
  | _ => []
  end.

Definition no_rows {V : Type} (rows : list (list V)) : bool :=
  match rows with [] => true | _ :: _ => false end.

Lemma process_one_on_taking_sheet {R V : Type} download process_file
    (sheet_row : R -> list V) st sheet f :
  Workflow.process_one download process_file sheet_row
    (fun sheet rows => Some (sheet ++ rows)) (st, sheet) f
  = if no_rows (file_rows download process_file sheet_row f)
    then (Workflow.failed st, sheet)
    else (Workflow.appended
            (length (file_rows download process_file sheet_row f)) st,
          sheet ++ file_rows download process_file sheet_row f).
Proof.
  unfold Workflow.process_one, file_rows.
  destruct (download (id f)) as [[|b data]|]; try reflexivity.
  now destruct (process_file (b :: data) f).
Qed.

Lemma process_files_on_taking_sheet {R V : Type} download process_file
    (sheet_row : R -> list V) files st sheet :
  let rows_of := file_rows download process_file sheet_row in
  let result :=
    Workflow.process_files download process_file sheet_row
      (fun sheet rows => Some (sheet ++ rows)) files (st, sheet) in
  snd result = sheet ++ concat (map rows_of files)
  /\ Workflow.rows_added (fst result)
     = Workflow.rows_added st + length (concat (map rows_of files))
  /\ Workflow.processed_files (fst result)
     = Workflow.processed_files st
       + length (List.filter (fun f => negb (no_rows (rows_of f))) files)
  /\ Workflow.failed_files (fst result)
     = Workflow.failed_files st
       + length (List.filter (fun f => no_rows (rows_of f)) files).
Proof.
  cbn zeta. unfold Workflow.process_files. revert st sheet.
  induction files as [|f files IH]; intros st sheet;
    cbn [fold_left map concat List.filter].
  - cbn. rewrite app_nil_r. repeat split; lia.
  - rewrite process_one_on_taking_sheet.
    destruct (no_rows (file_rows download process_file sheet_row f)) eqn:E.
    + destruct (file_rows download process_file sheet_row f); [|discriminate].
      destruct (IH (Workflow.failed st) sheet) as (Hs & Hn & Hp & Hf).
      rewrite Hs, Hn, Hp, Hf.
      cbn [negb length app Workflow.failed Workflow.rows_added
           Workflow.processed_files Workflow.failed_files].
      repeat split; lia.
    + destruct (IH (Workflow.appended
                      (length (file_rows download process_file sheet_row f)) st)
                  (sheet ++ file_rows download process_file sheet_row f))
        as (Hs & Hn & Hp & Hf).
      rewrite Hs, Hn, Hp, Hf, length_app, <- app_assoc.
      cbn [negb length Workflow.appended Workflow.rows_added
           Workflow.processed_files Workflow.failed_files].
      repeat split; lia.
Qed.

Lemma batch_counts_on_taking_sheet {R V : Type}
    (name_filter : list file_info -> list file_info)
    (download : string -> option (list Byte.byte))
    (process_file : list Byte.byte -> file_info -> list R)
    (sheet_row : R -> list V)
    (header_cell : string -> V)
    (get_header_range : list (list V) -> option (list (list string)))
    (update_header_range : list (list V) -> list (list V)
                           -> option (list (list V)))
    (display_headers : list string)
    (skip_existing : bool) (existing : gset string) (listed : list file_info)
    (max_files : option nat) (sheet : list (list V)) :
  let append := fun (sheet rows : list (list V)) => Some (sheet ++ rows) in
  let rows_of := file_rows download process_file sheet_row in
  let files :=
    Workflow.limit_files max_files
      (if skip_existing
       then Workflow.skip_existing_files existing (name_filter listed)
       else name_filter listed) in
  let went :=
    if snd (Workflow.setup_headers append header_cell get_header_range
              update_header_range sheet display_headers)
    then files else [] in
  let result :=
    Workflow.process_drive_to_sheet_workflow name_filter download process_file
      sheet_row append header_cell get_header_range update_header_range
      display_headers skip_existing existing listed max_files sheet in
  snd result
  = sheet_before_loop append header_cell get_header_range update_header_range
      display_headers files sheet ++ concat (map rows_of went)
  /\ Workflow.rows_added (fst result) = length (concat (map rows_of went))
  /\ Workflow.processed_files (fst result)
     = length (List.filter (fun f => negb (no_rows (rows_of f))) went)
  /\ Workflow.failed_files (fst result)
     = length (List.filter (fun f => no_rows (rows_of f)) went).
Proof.
  cbn zeta. unfold Workflow.process_drive_to_sheet_workflow, sheet_before_loop.
  destruct (Workflow.limit_files max_files _) as [|f files] eqn:E.
  - destruct (snd (Workflow.setup_headers _ _ _ _ _ _));
      cbn [map concat List.filter length fst snd
                            Workflow.rows_added Workflow.processed_files
                            Workflow.failed_files];
      now rewrite app_nil_r.
  - destruct (Workflow.setup_headers _ _ _ _ _ _) as [base [|]]; cbn [fst snd].
    + apply (process_files_on_taking_sheet download process_file sheet_row
               (f :: files)).
    + cbn. now rewrite app_nil_r.
Qed.

(** X15. On a sheet that takes every append, a run of
    [process_drive_to_sheet_workflow] leaves the sheet as its header setup
    left it, with the rows of the files it went through added below, file
    after file in the order of the listing; it goes through every file
    left to process, or through none when the header setup fails.
    [rows_added] is the number of the rows added below, [processed_files]
    the number of files that yielded rows and [failed_files] the number of
    those that yielded none. The header setup is not run when no file is
    left to process; it succeeds and leaves the sheet alone when row 1
    holds the headers; it succeeds and adds the header row when row 1 is
    empty. *)
Theorem batch_appends_rows_in_listing_order {R V : Type}
    (name_filter : list file_info -> list file_info)
    (download : string -> option (list Byte.byte))
    (process_file : list Byte.byte -> file_info -> list R)
    (sheet_row : R -> list V)
    (header_cell : string -> V)
    (get_header_range : list (list V) -> option (list (list string)))
    (update_header_range : list (list V) -> list (list V)
                           -> option (list (list V)))
    (display_headers : list string)
    (skip_existing : bool) (existing : gset string) (listed : list file_info)
    (max_files : option nat) (sheet : list (list V)) :
  let append := fun (sheet rows : list (list V)) => Some (sheet ++ rows) in
  let rows_of := file_rows download process_file sheet_row in
  let files :=
    Workflow.limit_files max_files
      (if skip_existing
       then Workflow.skip_existing_files existing (name_filter listed)
       else name_filter listed) in
  let setup :=
    Workflow.setup_headers append header_cell get_header_range
      update_header_range sheet display_headers in
  let base :=
    sheet_before_loop append header_cell get_header_range update_header_range
      display_headers files sheet in
  let went := if snd setup then files else [] in
  let result :=
    Workflow.process_drive_to_sheet_workflow name_filter download process_file
      sheet_row append header_cell get_header_range update_header_range
      display_headers skip_existing existing listed max_files sheet in
  snd result = base ++ concat (map rows_of went)
  /\ Workflow.rows_added (fst result) = length (concat (map rows_of went))
  /\ Workflow.processed_files (fst result)
     = length (List.filter (fun f => negb (no_rows (rows_of f))) went)
  /\ Workflow.failed_files (fst result)
     = length (List.filter (fun f => no_rows (rows_of f)) went)
  /\ (files = [] -> base = sheet)
  /\ (files <> [] -> base = fst setup)
  /\ (forall values,
        get_header_range sheet = Some values ->
        Workflow.existing_headers values = display_headers ->
        display_headers <> [] ->
        setup = (sheet, true))
  /\ (forall values,
        get_header_range sheet = Some values ->
        Workflow.existing_headers values = [] ->
        setup = (sheet ++ [map header_cell display_headers], true)).
Proof.
  intros append rows_of files setup base went result.
  destruct (batch_counts_on_taking_sheet name_filter download process_file
              sheet_row header_cell get_header_range update_header_range
              display_headers skip_existing existing listed max_files sheet)
    as (Hs & Hn & Hp & Hf).
  split; [exact Hs|]. split; [exact Hn|]. split; [exact Hp|].
  split; [exact Hf|].
  subst base. unfold sheet_before_loop.
  split; [now intros ->|].
  split; [now destruct files|].
  split.
  - intros values. apply setup_headers_keeps.
  - intros values Hget Hrow. subst setup.
    now rewrite (setup_headers_creates append header_cell get_header_range
                   update_header_range sheet display_headers values Hget Hrow).
Qed.

(** ** The rows the GRN batch adds *)

Lemma grn_sheet_row_length r :
  length (GRN.sheet_row r) = length GRN.display_headers.
Proof. unfold GRN.sheet_row. now rewrite length_map. Qed.

(** X16. Where an append either fails or adds exactly the rows it is
    given, a run of the GRN workflow leaves the sheet as its header setup
    left it with rows added below; every row added below has one cell per
    header, and its cell under [source_file] is the name of a listed file
    whose name holds [Consolidated-GRN-Report] and (with [skip_existing])
    was not among the names already in the sheet. The header setup is not
    run when no file is left to process; it leaves the sheet alone when row
    1 holds the headers of [grn.py], and adds the header row when row 1 is
    empty. *)
Theorem grn_added_rows_name_their_report
    (read : list Byte.byte -> option (Pandas.DataFrame GRN.cell))
    (today : string) (download : string -> option (list Byte.byte))
    (append : list (list string) -> list (list string)
              -> option (list (list string)))
    (get_header_range : list (list string) -> option (list (list string)))
    (update_header_range : list (list string) -> list (list string)
                           -> option (list (list string)))
    (skip_existing : bool) (existing : gset string) (listed : list file_info)
    (max_files : option nat) (sheet : list (list string)) :
  (forall sheet rows sheet',
     append sheet rows = Some sheet' -> sheet' = sheet ++ rows) ->
  let reports :=
    List.filter (fun f => GRN.contains "Consolidated-GRN-Report" (name f))
      listed in
  let files :=
    Workflow.limit_files max_files
      (if skip_existing then Workflow.skip_existing_files existing reports
       else reports) in
  let base :=
    sheet_before_loop append (fun header => header) get_header_range
      update_header_range GRN.display_headers files sheet in
  (exists added,
     snd (GRN.process_drive_to_sheet_workflow read today download append
            get_header_range update_header_range skip_existing existing listed
            max_files sheet)
     = base ++ added
     /\ forall row, row ∈ added ->
          length row = length GRN.display_headers
          /\ exists f,
               f ∈ listed
               /\ GRN.contains "Consolidated-GRN-Report" (name f) = true
               /\ (skip_existing = true -> name f ∉ existing)
               /\ row !! Py.index "source_file" GRN.display_headers
                  = Some (name f))
  /\ (files = [] -> base = sheet)
  /\ (forall values,
        get_header_range sheet = Some values ->
        Workflow.existing_headers values = GRN.display_headers ->
        base = sheet)
  /\ (forall values sheet',
        files <> [] ->
        get_header_range sheet = Some values ->
        Workflow.existing_headers values = [] ->
        append sheet [GRN.display_headers] = Some sheet' ->
        base = sheet ++ [GRN.display_headers]).
Proof.
  intros Happend reports files base. split.
  - unfold GRN.process_drive_to_sheet_workflow.
    destruct (drive_to_sheet_growth
                (List.filter
                   (fun f => GRN.contains "Consolidated-GRN-Report" (name f)))
                download
                (fun file_data file =>
                   fst (GRN.process_grn_excel_file read today file_data file
                          GRN.excel_mapping))
                GRN.sheet_row append (fun header => header) get_header_range
                update_header_range GRN.display_headers skip_existing existing
                listed max_files sheet Happend) as (added & Hs & _ & Hrows).
    exists added. split; [exact Hs|].
    intros row Hrow.
    destruct (Hrows row Hrow) as (f & data & r & Hf & Hnew & _ & Hr & ->).
    split; [apply grn_sheet_row_length|].
    apply elem_of_filter in Hf as [Hlisted Hname].
    exists f. split; [exact Hlisted|]. split; [exact Hname|].
    split; [exact Hnew|].
    destruct (grn_records_from_rows read today data f GRN.excel_mapping r Hr)
      as (df0 & grn_col & date & cells & _ & _ & ->).
    apply grn_sheet_row_source_file.
  - subst base. unfold sheet_before_loop.
    split; [now intros ->|]. split.
    + intros values Hget Hrow. destruct files; [reflexivity|].
      rewrite (setup_headers_keeps append (fun header => header)
                 get_header_range update_header_range sheet
                 GRN.display_headers values Hget Hrow); [reflexivity|].
      discriminate.
    + intros values sheet' Hfiles Hget Hrow Hheader.
      destruct files; [now destruct Hfiles|].
      rewrite (setup_headers_creates append (fun header => header)
                 get_header_range update_header_range sheet
                 GRN.display_headers values Hget Hrow).
      change (map (fun header : string => header) GRN.display_headers)
        with GRN.display_headers.
      rewrite Hheader. cbn [fst]. now apply Happend.
Qed.

(** A run of the GRN workflow over a consolidated report and a debit note,
    each read as a table with one valid row, on an empty sheet that takes
    every append: row 1 reads empty. *)
Definition grn_run_on_empty_sheet : Workflow.stats * list (list string) :=
  GRN.process_drive_to_sheet_workflow (fun _ => Some grn_table_one_row)
    "2026-11-04" (fun _ => Some [Byte.x01])
    (fun sheet rows => Some (sheet ++ rows))
    (fun _ => Some []) (fun _ _ => None) true ∅
    [ mkFile "Consolidated-GRN-Report_20260210_143022.xlsx" "file-1";
      mkFile "debit-note.xlsx" "file-2" ]
    (Some 500) [].

Lemma grn_added_rows_name_their_report_witness :
  exists added,
    snd grn_run_on_empty_sheet = [GRN.display_headers] ++ added
    /\ added <> []
    /\ forall row, row ∈ added ->
         row !! 14 = Some "Consolidated-GRN-Report_20260210_143022.xlsx".
Proof.
  destruct (grn_added_rows_name_their_report (fun _ => Some grn_table_one_row)
              "2026-11-04" (fun _ => Some [Byte.x01])
              (fun sheet rows => Some (sheet ++ rows))
              (fun _ => Some []) (fun _ _ => None) true ∅
              [ mkFile "Consolidated-GRN-Report_20260210_143022.xlsx" "file-1";
                mkFile "debit-note.xlsx" "file-2" ]
              (Some 500) [])
    as ((added & Hs & Hrows) & _ & _ & Hcreated).
  - intros sheet rows sheet' [= <-]. reflexivity.
  - rewrite (Hcreated [] [GRN.display_headers]) in Hs;
      [|discriminate|reflexivity|reflexivity|reflexivity].
    exists added. split; [exact Hs|]. split.
    + intros ->. vm_compute in Hs. discriminate.
    + intros row Hrow.
      destruct (Hrows row Hrow) as (_ & f & Hf & Hname & _ & Hcell).
      apply elem_of_cons in Hf as [->|Hf]; [exact Hcell|].
      apply list_elem_of_singleton in Hf as ->. vm_compute in Hname.
      discriminate.
Defined.

(** ** The outcome of a document is the last line of its log *)

(** The last entry of a purchase-order log tells how the document ended. *)
Definition po_outcome {num} (file : file_info) (records : list (PO.record num))
    (e : PO.log_entry num) : Prop :=
  match records with
  | [] =>
      e = (ERROR, PO.Failed_to_process)
      \/ (exists missing, missing <> [] /\ e = (ERROR, PO.Missing_required_columns missing))
      \/ e = (INFO, PO.No_valid_line_items (name file))
  | _ :: _ => e = (INFO, PO.Extracted_rows (length records) (name file))
  end.

(** The last entry of a GRN log tells how the document ended. *)
Definition grn_outcome (file : file_info) (records : list GRN.record)
    (e : GRN.log_entry) : Prop :=
  match records with
  | [] =>
      e = (ERROR, GRN.Failed_to_process)
      \/ (exists missing, missing <> [] /\ e = (ERROR, GRN.Missing_required_columns missing))
      \/ e = (INFO, GRN.No_valid_line_items (name file))
  | _ :: _ => e = (INFO, GRN.Extracted_rows (length records) (name file))
  end.

Lemma po_outcome_logged {num} {N : Numeric num} read data file m :
  exists log e,
    snd (PO.process_excel_file read data file m) = log ++ [e]
    /\ po_outcome file (fst (PO.process_excel_file read data file m)) e.
Proof.
  unfold PO.process_excel_file.
  destruct (PO.extract_po_from_filename (name file)) as [po log0].
  destruct (read data) as [df0|]; [|eexists _, _; split; [reflexivity|now left]].
  destruct (PO.missing_columns _ _) as [|c missing].
  - destruct (PO.valid_rows _ _) as [|row valid].
    + eexists _, _. split; [reflexivity|]. right. now right.
    + destruct (PO.totals _ _) as [q a]. cbn [fst snd].
      match goal with
      | |- exists log e, ?l ++ [?x; ?y] = _ /\ _ => exists (l ++ [x]), y
      end.
      split; [rewrite <- !app_assoc; reflexivity|reflexivity].
  - eexists _, _. split; [reflexivity|]. right. left.
    eexists. split; [|reflexivity]. discriminate.
Qed.

Lemma grn_outcome_logged read today data file m :
  exists log e,
    snd (GRN.process_grn_excel_file read today data file m) = log ++ [e]
    /\ grn_outcome file (fst (GRN.process_grn_excel_file read today data file m)) e.
Proof.
  unfold GRN.process_grn_excel_file.
  destruct (GRN.extract_date_from_filename today (name file)) as [date log0].
  destruct (read data) as [df0|]; [|eexists _, _; split; [reflexivity|now left]].
  destruct (GRN.missing_columns _ _) as [|c missing];
    [|eexists _, _; split; [reflexivity|]; right; left;
      eexists; split; [|reflexivity]; discriminate].
  destruct (m !! "item_code") as [item_col|];
    [|eexists _, _; split; [reflexivity|now left]].
  destruct (negb (Pandas.has_column _ item_col));
    [eexists _, _; split; [reflexivity|now left]|].
  destruct (Pandas.rows (GRN.drop_rows_without_item_code item_col _))
    as [|c0 cs] eqn:Erows;
    [eexists _, _; split; [reflexivity|]; right; now right|].
  destruct (m !! "po_number") as [grn_col|];
    [|eexists _, _; split; [reflexivity|now left]].
  destruct (negb (Pandas.has_column _ grn_col));
    [eexists _, _; split; [reflexivity|now left]|].
  cbn [fst snd]. eexists _, _. split; [reflexivity|].
  unfold Pandas.iterrows. rewrite Erows. reflexivity.
Qed.

(** X17. Every call of [process_excel_file] and of
    [process_grn_excel_file] ends its log with the line that tells the
    outcome. When records are returned it is the [[SUCCESS] Extracted n
    rows] line with [n] the number of records; when none is returned it is
    an [ERROR] line (the file could not be processed, or required columns
    are missing) or the [No valid line items] line. Records never come
    with an error as the last line, and no call ends without a line. *)
Theorem document_outcome_is_logged (num : Type) (N : Numeric num)
    (read_po : list Byte.byte -> option (Pandas.DataFrame (PO.cell num)))
    (read_grn : list Byte.byte -> option (Pandas.DataFrame GRN.cell))
    (today : string) (data : list Byte.byte) (file : file_info)
    (m : gmap string string) :
  (exists log e,
     snd (PO.process_excel_file read_po data file m) = log ++ [e]
     /\ po_outcome file (fst (PO.process_excel_file read_po data file m)) e)
  /\ (exists log e,
        snd (GRN.process_grn_excel_file read_grn today data file m) = log ++ [e]
        /\ grn_outcome file
             (fst (GRN.process_grn_excel_file read_grn today data file m)) e).
Proof. split; [apply po_outcome_logged|apply grn_outcome_logged]. Qed.

(** ** Running a workflow again *)

Lemma skip_existing_files_all_known existing files :
  (forall f, f ∈ files -> name f ∈ existing) ->
  Workflow.skip_existing_files existing files = [].
Proof.
  intros H.
  destruct (Workflow.skip_existing_files existing files) as [|f kept] eqn:E;
    [reflexivity|].
  exfalso.
  assert (Hf : f ∈ Workflow.skip_existing_files existing files)
    by (rewrite E; left).
  apply skip_existing_files_elem in Hf as [Hin Hnew]. now apply Hnew, H.
Qed.

Lemma drive_to_sheet_nothing_new {R V Sheet : Type}
    (name_filter : list file_info -> list file_info)
    (download : string -> option (list Byte.byte))
    (process_file : list Byte.byte -> file_info -> list R)
    (sheet_row : R -> list V)
    (append : Sheet -> list (list V) -> option Sheet)
    (header_cell : string -> V)
    (get_header_range : Sheet -> option (list (list string)))
    (update_header_range : Sheet -> list (list V) -> option Sheet)
    (display_headers : list string)
    (existing : gset string) (listed : list file_info)
    (max_files : option nat) (sheet : Sheet) :
  (forall f, f ∈ name_filter listed -> name f ∈ existing) ->
  Workflow.process_drive_to_sheet_workflow name_filter download process_file
    sheet_row append header_cell get_header_range update_header_range
    display_headers true existing listed max_files sheet
  = (Workflow.mkStats (length (name_filter listed)) 0 0
       (length (name_filter listed)) 0,
     sheet).
Proof.
  intros H. unfold Workflow.process_drive_to_sheet_workflow.
  rewrite (skip_existing_files_all_known existing _ H).
  cbn [length]. rewrite Nat.sub_0_r.
  now destruct max_files as [[|m]|].
Qed.

(** X18. When the name of every listed file (that passes the name filter)
    is already among the existing ones, a run of
    [process_drive_to_sheet_workflow] with [skip_existing] downloads and
    appends nothing and does not touch the header row: the sheet is
    returned as it was, every file is counted as skipped and none as
    processed or failed. *)
Theorem listing_already_in_sheet_is_left_alone {R V Sheet : Type}
    (name_filter : list file_info -> list file_info)
    (download : string -> option (list Byte.byte))
    (process_file : list Byte.byte -> file_info -> list R)
    (sheet_row : R -> list V)
    (append : Sheet -> list (list V) -> option Sheet)
    (header_cell : string -> V)
    (get_header_range : Sheet -> option (list (list string)))
    (update_header_range : Sheet -> list (list V) -> option Sheet)
    (display_headers : list string)
    (existing : gset string) (listed : list file_info)
    (max_files : option nat) (sheet : Sheet) :
  (forall f, f ∈ name_filter listed -> name f ∈ existing) ->
  Workflow.process_drive_to_sheet_workflow name_filter download process_file
    sheet_row append header_cell get_header_range update_header_range
    display_headers true existing listed max_files sheet
  = (Workflow.mkStats (length (name_filter listed)) 0 0
       (length (name_filter listed)) 0,
     sheet).
Proof. apply drive_to_sheet_nothing_new. Qed.

Lemma listing_already_in_sheet_is_left_alone_witness :
  PO.process_drive_to_sheet_workflow (fun _ => Some po_table_two_items)
    (fun _ => Some [Byte.x01]) (fun sheet rows => Some (sheet ++ rows))
    (fun _ => Some []) (fun _ _ => None)
    true {["5630310004451_20260211_030533.xlsx"]}
    [mkFile "5630310004451_20260211_030533.xlsx" "file-1"] (Some 500) []
  = (Workflow.mkStats 1 0 0 1 0, []).
Proof.
  apply (listing_already_in_sheet_is_left_alone (fun listed => listed)).
  intros f Hf. apply list_elem_of_singleton in Hf as ->.
  now apply elem_of_singleton.
Defined.

(** Rows added below leave the names already read off the sheet in place. *)
Lemma existing_source_files_grow error_level headers data added n :
  n ∈ fst (Sheets.get_existing_source_files error_level (Some (headers :: data))) ->
  n ∈ fst (Sheets.get_existing_source_files error_level
             (Some (headers :: data ++ added))).
Proof.
  rewrite !existing_source_files_elem.
  intros (Hh & Hn & row & Hrow & Hat). split; [exact Hh|]. split; [exact Hn|].
  exists row. split; [|exact Hat]. apply elem_of_app. now left.
Qed.

Lemma limit_files_within max_files (files : list file_info) :
  (forall n, max_files = Some n -> length files <= n) ->
  Workflow.limit_files max_files files = files.
Proof.
  intros H. unfold Workflow.limit_files. destruct max_files as [[|m]|]; try reflexivity.
  specialize (H (S m) eq_refl).
  destruct (Nat.ltb_spec (S m) (length files)); [lia|reflexivity].
Qed.

Lemma filter_none_length {A} (p : A -> bool) l :
  length (List.filter p l) = 0 -> forall x, x ∈ l -> p x = false.
Proof.
  induction l as [|y l IH]; intros H x Hx; [now apply elem_of_nil in Hx|].
  cbn [List.filter] in H. destruct (p y) eqn:E; [discriminate|].
  apply elem_of_cons in Hx as [->|Hx]; [exact E|now apply IH].
Qed.

Lemma elem_of_concat_map {A B} (g : A -> list B) l x :
  x ∈ l -> forall y, y ∈ g x -> y ∈ concat (map g l).
Proof.
  induction l as [|z l IH]; intros Hx y Hy; [now apply elem_of_nil in Hx|].
  cbn [map concat]. apply elem_of_app.
  apply elem_of_cons in Hx as [->|Hx]; [now left|right; now apply IH].
Qed.

(** X19. The GRN workflow does the work once. Take a sheet that starts
    with the header row [grn.py] writes, whose row 1 reads as it is and
    which takes every append, and a listing of named files that the
    [max_files] limit does not cut. If a run with [skip_existing] that
    reads the existing names off the sheet ends without a failed file, a
    second run on the sheet it left reads the names of all the listed
    reports off it and adds nothing: same sheet, no row added, no file
    processed or failed, every report skipped. *)
Theorem grn_second_run_adds_nothing
    (read : list Byte.byte -> option (Pandas.DataFrame GRN.cell))
    (today : string) (download : string -> option (list Byte.byte))
    (get_header_range : list (list string) -> option (list (list string)))
    (update_header_range : list (list string) -> list (list string)
                           -> option (list (list string)))
    (listed : list file_info) (max_files : option nat)
    (body : list (list string)) :
  let run sheet :=
    GRN.process_drive_to_sheet_workflow read today download
      (fun sheet rows => Some (sheet ++ rows)) get_header_range
      update_header_range true
      (fst (GRN.get_existing_source_files (Some sheet)))
      listed max_files sheet in
  let first := run (GRN.display_headers :: body) in
  (forall rest,
     get_header_range (GRN.display_headers :: rest) = Some [GRN.display_headers]) ->
  (forall f, f ∈ listed -> name f <> "") ->
  (forall n, max_files = Some n -> length listed <= n) ->
  Workflow.failed_files (fst first) = 0 ->
  snd (run (snd first)) = snd first
  /\ Workflow.rows_added (fst (run (snd first))) = 0
  /\ Workflow.processed_files (fst (run (snd first))) = 0
  /\ Workflow.failed_files (fst (run (snd first))) = 0
  /\ Workflow.skipped_files (fst (run (snd first)))
     = Workflow.total_files (fst (run (snd first))).
Proof.
  intros run first Hget Hnamed Hlimit Hfailed.
  set (reports :=
         List.filter (fun f => GRN.contains "Consolidated-GRN-Report" (name f))
           listed).
  set (process_file := fun file_data file =>
         fst (GRN.process_grn_excel_file read today file_data file
                GRN.excel_mapping)).
  set (existing0 :=
         fst (GRN.get_existing_source_files (Some (GRN.display_headers :: body)))).
  set (kept := Workflow.skip_existing_files existing0 reports).
  assert (Hcut : Workflow.limit_files max_files kept = kept).
  { apply limit_files_within. intros n Hn.
    pose proof (skip_existing_files_length existing0 reports).
    pose proof (sublist_length _ _ (filter_sublist
      (fun f => GRN.contains "Consolidated-GRN-Report" (name f)) listed)).
    specialize (Hlimit n Hn). fold reports in H0. fold kept in H. lia. }
  assert (Hsetup :
    Workflow.setup_headers (fun sheet rows => Some (sheet ++ rows))
      (fun header : string => header) get_header_range update_header_range
      (GRN.display_headers :: body) GRN.display_headers
    = (GRN.display_headers :: body, true)).
  { apply (setup_headers_keeps _ _ _ _ _ _ [GRN.display_headers]);
      [apply Hget|reflexivity|discriminate]. }
  destruct (batch_counts_on_taking_sheet
              (List.filter (fun f => GRN.contains "Consolidated-GRN-Report" (name f)))
              download process_file GRN.sheet_row (fun header => header)
              get_header_range update_header_range GRN.display_headers
              true existing0 listed max_files
              (GRN.display_headers :: body)) as (Hsheet & _ & _ & Hfail).
  fold reports kept in Hsheet, Hfail. rewrite Hcut in Hsheet, Hfail.
  unfold sheet_before_loop in Hsheet. rewrite Hsetup in Hsheet, Hfail.
  cbn [fst snd] in Hsheet, Hfail.
  assert (Hbase : match kept with
                  | [] => GRN.display_headers :: body
                  | _ :: _ => GRN.display_headers :: body
                  end = GRN.display_headers :: body) by now destruct kept.
  rewrite Hbase in Hsheet. clear Hbase.
  change (Workflow.process_drive_to_sheet_workflow _ _ _ _ _ _ _ _ _ _ _ _ _ _)
    with first in Hsheet, Hfail.
  rewrite Hfailed in Hfail. symmetry in Hfail.
  assert (Hall : forall f, f ∈ reports ->
            name f ∈ fst (GRN.get_existing_source_files (Some (snd first)))).
  { intros f Hf. rewrite Hsheet. cbn [app].
    destruct (decide (name f ∈ existing0)) as [Hold|Hnew].
    - now apply existing_source_files_grow.
    - assert (Hkept : f ∈ kept) by now apply skip_existing_files_elem.
      pose proof (filter_none_length _ _ Hfail f Hkept) as Hrows.
      cbn beta in Hrows.
      destruct (file_rows download process_file GRN.sheet_row f)
        as [|row rows] eqn:Erows; [discriminate|].
      assert (Hrow : row ∈ concat (map (file_rows download process_file
                                          GRN.sheet_row) kept)).
      { apply (elem_of_concat_map _ kept f Hkept). rewrite Erows. left. }
      apply existing_source_files_elem.
      split; [now apply str_in_iff|]. split.
      { apply Hnamed. now apply elem_of_filter in Hf as [Hf _]. }
      exists row. split; [apply elem_of_app; now right|].
      unfold file_rows in Erows.
      destruct (download (id f)) as [[|b data]|]; try discriminate.
      assert (Hin : row ∈ map GRN.sheet_row (process_file (b :: data) f))
        by (rewrite Erows; left).
      apply list_elem_of_fmap in Hin as (r & -> & Hr).
      destruct (grn_records_from_rows read today (b :: data) f
                  GRN.excel_mapping r Hr)
        as (df0 & grn_col & date & cells & _ & _ & ->).
      apply grn_sheet_row_source_file. }
  assert (Hsecond :
    run (snd first)
    = (Workflow.mkStats (length reports) 0 0 (length reports) 0, snd first)).
  { apply (drive_to_sheet_nothing_new
             (List.filter
                (fun f => GRN.contains "Consolidated-GRN-Report" (name f)))
             download process_file GRN.sheet_row
             (fun sheet rows => Some (sheet ++ rows)) (fun header => header)
             get_header_range update_header_range GRN.display_headers _ listed
             max_files (snd first) Hall). }
  rewrite Hsecond.
  cbn [fst snd Workflow.rows_added Workflow.processed_files
       Workflow.failed_files Workflow.skipped_files Workflow.total_files].
  repeat split.
Qed.

(** One consolidated report and a debit note, read as a table with one
    valid row, on a sheet that takes every append and reads its row 1 as
    it is. *)
Definition grn_run_on_one_report (sheet : list (list string))
  : Workflow.stats * list (list string) :=
  GRN.process_drive_to_sheet_workflow (fun _ => Some grn_table_one_row)
    "2026-11-04" (fun _ => Some [Byte.x01])
    (fun sheet rows => Some (sheet ++ rows))
    (fun sheet => Some (firstn 1 sheet)) (fun _ _ => None) true
    (fst (GRN.get_existing_source_files (Some sheet)))
    [ mkFile "Consolidated-GRN-Report_20260210_143022.xlsx" "file-1";
      mkFile "debit-note.xlsx" "file-2" ]
    (Some 500) sheet.

Lemma grn_second_run_adds_nothing_witness :
  snd (grn_run_on_one_report (snd (grn_run_on_one_report [GRN.display_headers])))
  = snd (grn_run_on_one_report [GRN.display_headers])
  /\ length (snd (grn_run_on_one_report [GRN.display_headers])) = 2.
Proof.
  destruct (grn_second_run_adds_nothing (fun _ => Some grn_table_one_row)
              "2026-11-04" (fun _ => Some [Byte.x01])
              (fun sheet => Some (firstn 1 sheet)) (fun _ _ => None)
              [ mkFile "Consolidated-GRN-Report_20260210_143022.xlsx" "file-1";
                mkFile "debit-note.xlsx" "file-2" ]
              (Some 500) []) as (Hsheet & _).
  - reflexivity.
  - intros f Hf. apply elem_of_cons in Hf as [->|Hf]; [discriminate|].
    apply list_elem_of_singleton in Hf as ->. discriminate.
  - intros n [= <-]. cbn [length]. lia.
  - vm_compute. reflexivity.
  - split; [exact Hsheet|]. vm_compute. reflexivity.
Defined.

(** ** Attachments the Drive folder already holds *)

Section MailSkips.
Context {Drive : Type}.
Variable attachments_of : string -> list Mail.attachment.
Variable upload_name : string -> string -> string.
Variable file_exists_in_drive : Drive -> string -> bool.
Variable download_attachment : string -> string -> option (list Byte.byte).
Variable upload_to_drive :
  Drive -> list Byte.byte -> string -> string -> Drive * option string.

Definition skipped_by (n : nat) (st : Mail.stats) : Mail.stats :=
  Mail.mkStats (Mail.processed st) (Mail.failed st) (Mail.skipped st + n)
    (Mail.total_attachments st).

Lemma skipped_by_0 st : skipped_by 0 st = st.
Proof. destruct st. unfold skipped_by. cbn. now rewrite Nat.add_0_r. Qed.

Lemma skipped_by_S n st : skipped_by n (Mail.count_skipped st) = skipped_by (S n) st.
Proof. unfold skipped_by, Mail.count_skipped. cbn. f_equal. lia. Qed.

Lemma skipped_by_add n k st : skipped_by n (skipped_by k st) = skipped_by (k + n) st.
Proof. unfold skipped_by. cbn. f_equal. lia. Qed.

Lemma process_attachments_held message_id attachments st drive :
  (forall a, a ∈ attachments ->
     file_exists_in_drive drive (upload_name message_id (Mail.filename a)) = true) ->
  fold_left (Mail.process_attachment upload_name file_exists_in_drive
               download_attachment upload_to_drive message_id)
    attachments (st, drive)
  = (skipped_by (length attachments) st, drive).
Proof.
  revert st. induction attachments as [|a attachments IH]; intros st H;
    cbn [fold_left length].
  - now rewrite skipped_by_0.
  - unfold Mail.process_attachment at 2. rewrite (H a) by left.
    rewrite IH by (intros a' Ha'; apply H; now right).
    now rewrite skipped_by_S.
Qed.

Lemma process_messages_held messages st drive :
  (forall message_id a, message_id ∈ messages -> a ∈ attachments_of message_id ->
     file_exists_in_drive drive (upload_name message_id (Mail.filename a)) = true) ->
  fold_left (Mail.process_message attachments_of upload_name
               file_exists_in_drive download_attachment upload_to_drive)
    messages (st, drive)
  = (skipped_by (list_sum (map (message_units attachments_of) messages)) st,
     drive).
Proof.
  revert st. induction messages as [|message_id messages IH]; intros st H;
    cbn [fold_left map].
  - cbn. now rewrite skipped_by_0.
  - assert (Hstep :
      Mail.process_message attachments_of upload_name file_exists_in_drive
        download_attachment upload_to_drive (st, drive) message_id
      = (skipped_by (message_units attachments_of message_id) st, drive)).
    { unfold Mail.process_message, message_units.
      pose proof (H message_id) as Hm.
      destruct (attachments_of message_id) as [|a attachments].
      - cbn [fst snd]. now rewrite <- skipped_by_S, skipped_by_0.
      - apply process_attachments_held. intros a' Ha'. apply Hm; [left|exact Ha']. }
    rewrite Hstep, IH by (intros m a Hm Ha; apply H; [now right|exact Ha]).
    rewrite skipped_by_add. reflexivity.
Qed.

End MailSkips.

(** X20. When the Drive folder already holds, under its upload name, every
    attachment of every message found, [process_mail_to_drive_workflow]
    downloads and uploads nothing: the folder is returned as it was,
    nothing is counted as processed or failed, and [skipped] counts every
    attachment (and every message without one). *)
Theorem mail_to_drive_skips_what_drive_holds {Drive : Type}
    (attachments_of : string -> list Mail.attachment)
    (upload_name : string -> string -> string)
    (file_exists_in_drive : Drive -> string -> bool)
    (download_attachment : string -> string -> option (list Byte.byte))
    (upload_to_drive :
       Drive -> list Byte.byte -> string -> string -> Drive * option string)
    (messages : list string) (drive : Drive) :
  (forall message_id a,
     message_id ∈ messages -> a ∈ attachments_of message_id ->
     file_exists_in_drive drive (upload_name message_id (Mail.filename a)) = true) ->
  Mail.process_mail_to_drive_workflow attachments_of upload_name
    file_exists_in_drive download_attachment upload_to_drive messages drive
  = (Mail.mkStats 0 0
       (list_sum
          (map (fun message_id =>
                  match attachments_of message_id with
                  | [] => 1
                  | attachments => length attachments
                  end) messages))
       0,
     drive).
Proof.
  intros H. unfold Mail.process_mail_to_drive_workflow.
  now rewrite (process_messages_held attachments_of upload_name
                 file_exists_in_drive download_attachment upload_to_drive
                 messages (Mail.mkStats 0 0 0 0) drive H).
Qed.

Lemma mail_to_drive_skips_what_drive_holds_witness :
  Mail.process_mail_to_drive_workflow
    (fun _ => [Mail.mkAttachment "att-1" "Consolidated-GRN-Report.xlsx"
                 "application/octet-stream"])
    (fun _ original => GRN.timestamped_name original "20260210_143022")
    (fun (drive : list string) filename => Py.str_in filename drive)
    (fun _ _ => Some [Byte.x01])
    (fun drive _ filename _ => (filename :: drive, Some "file-1"))
    ["message-1"] ["Consolidated-GRN-Report_20260210_143022.xlsx"]
  = (Mail.mkStats 0 0 1 0, ["Consolidated-GRN-Report_20260210_143022.xlsx"]).
Proof.
  apply (mail_to_drive_skips_what_drive_holds
           (fun _ => [Mail.mkAttachment "att-1" "Consolidated-GRN-Report.xlsx"
                        "application/octet-stream"])
           (fun _ original => GRN.timestamped_name original "20260210_143022")
           (fun (drive : list string) filename => Py.str_in filename drive)
           (fun _ _ => Some [Byte.x01])
           (fun drive _ filename _ => (filename :: drive, Some "file-1"))
           ["message-1"] ["Consolidated-GRN-Report_20260210_143022.xlsx"]).
  intros message_id a _ Ha. apply list_elem_of_singleton in Ha as ->.
  vm_compute. reflexivity.
Defined.

(** ** The uploaded name keeps what the listing filter looks for *)

Lemma append_nil_r (s : string) : (s ++ "")%string = s.
Proof. induction s as [|a s IH]; [reflexivity|]. now rewrite append_cons, IH. Qed.

(** Where [rfind] finds the character, the character is. *)
Lemma rfind_from_found c i s :
  (0 <= i)%Z -> (0 <= Py.rfind_from c i s)%Z ->
  exists k, Py.rfind_from c i s = (i + Z.of_nat k)%Z /\ String.get k s = Some c.
Proof.
  revert i. induction s as [|a s IH]; intros i Hi H; cbn [Py.rfind_from] in *;
    [lia|].
  destruct (Z.leb_spec 0 (Py.rfind_from c (i + 1) s)) as [Hr|Hr].
  - destruct (IH (i + 1)%Z ltac:(lia) Hr) as (k & E & Hk).
    exists (S k). split; [lia|exact Hk].
  - destruct (Ascii.eqb_spec a c) as [->|_]; [|lia].
    exists 0. split; [lia|reflexivity].
Qed.

Lemma rfind_from_least c i s : (0 <= i)%Z -> (-1 <= Py.rfind_from c i s)%Z.
Proof.
  revert i. induction s as [|a s IH]; intros i Hi; cbn [Py.rfind_from]; [lia|].
  destruct (Z.leb_spec 0 (Py.rfind_from c (i + 1) s)); [lia|].
  destruct (Ascii.eqb a c); lia.
Qed.

Lemma substring_from_get k s c :
  String.get k s = Some c ->
  exists rest, substring k (String.length s - k) s = String c rest.
Proof.
  revert s. induction k as [|k IH]; intros [|a s] H; try discriminate.
  - cbn in H. injection H as ->. cbn. eexists. reflexivity.
  - cbn [String.get] in H. cbn [String.length substring Nat.sub]. now apply IH.
Qed.

Lemma substring_whole s : substring 0 (String.length s) s = s.
Proof. induction s as [|a s IH]; [reflexivity|]. cbn. now rewrite IH. Qed.

Lemma substring_cut k s c :
  String.get k s = Some c ->
  (substring 0 k s ++ substring k (String.length s - k) s)%string = s.
Proof.
  revert s. induction k as [|k IH]; intros [|a s] H; try discriminate.
  - rewrite Nat.sub_0_r, substring_whole. reflexivity.
  - cbn [String.get] in H. cbn [String.length substring Nat.sub].
    rewrite append_cons. f_equal. now apply IH.
Qed.

(** [os.path.splitext] cuts the name in two, and an extension starts
    with a dot. *)
Lemma splitext_cut p :
  p = (fst (Py.splitext p) ++ snd (Py.splitext p))%string
  /\ (snd (Py.splitext p) = ""
      \/ exists e, snd (Py.splitext p) = String "." e).
Proof.
  unfold Py.splitext.
  destruct (Z.ltb_spec (Py.rfind "/" p) (Py.rfind "." p)) as [Hlt|_];
    [|cbn [fst snd]; rewrite append_nil_r; auto].
  destruct (Py.only_dots _); [cbn [fst snd]; rewrite append_nil_r; auto|].
  cbn [fst snd].
  pose proof (rfind_from_least "/" 0 p ltac:(lia)) as Hsep.
  fold (Py.rfind "/" p) in Hsep.
  assert (Hdot : (0 <= Py.rfind_from "." 0 p)%Z).
  { fold (Py.rfind "." p). lia. }
  destruct (rfind_from_found "." 0 p ltac:(lia) Hdot) as (k & E & Hk).
  unfold Py.rfind. rewrite E, Z.add_0_l, Nat2Z.id. split.
  - symmetry. now apply (substring_cut k p ".").
  - right. now apply substring_from_get.
Qed.

Definition no_dot (c : ascii) : bool := negb (Ascii.eqb c ".").

Lemma startswith_within sub root ext :
  all_chars no_dot sub = true ->
  (ext = "" \/ exists e, ext = String "." e) ->
  Py.startswith sub (root ++ ext) = true -> Py.startswith sub root = true.
Proof.
  intros Hsub Hext. revert root.
  induction sub as [|a sub IH]; intros root H; [reflexivity|].
  cbn [all_chars] in Hsub. apply andb_prop in Hsub as [Ha Hsub].
  destruct root as [|c root].
  - rewrite append_nil_l in H. destruct Hext as [->|[e ->]]; [discriminate|].
    cbn [Py.startswith] in H. apply andb_prop in H as [H _].
    apply Ascii.eqb_eq in H as ->. discriminate.
  - rewrite append_cons in H. cbn [Py.startswith] in H |- *.
    apply andb_prop in H as [Hc H]. rewrite Hc. now apply IH.
Qed.

Lemma startswith_app sub root rest :
  Py.startswith sub root = true -> Py.startswith sub (root ++ rest) = true.
Proof.
  revert root. induction sub as [|a sub IH]; intros root H; [reflexivity|].
  destruct root as [|c root]; [discriminate|].
  rewrite append_cons. cbn [Py.startswith] in H |- *.
  apply andb_prop in H as [Hc H]. now rewrite Hc, IH.
Qed.

Lemma contains_unfold sub s :
  GRN.contains sub s
  = Py.startswith sub s
    || match s with
       | EmptyString => false
       | String _ s' => GRN.contains sub s'
       end.
Proof. now destruct s. Qed.

Lemma contains_after sub p s :
  GRN.contains sub s = true -> GRN.contains sub (p ++ s) = true.
Proof.
  intros H. induction p as [|c p IH]; [exact H|].
  rewrite append_cons, contains_unfold, IH. apply orb_true_r.
Qed.

(** Text put between a name and its extension hides no piece of text
    without a dot that the whole name held. *)
Lemma contains_kept_by_insert sub root mid ext :
  all_chars no_dot sub = true ->
  (ext = "" \/ exists e, ext = String "." e) ->
  GRN.contains sub (root ++ ext) = true ->
  GRN.contains sub (root ++ mid ++ ext) = true.
Proof.
  intros Hsub Hext. induction root as [|c root IH]; intros H.
  - rewrite append_nil_l in H |- *. now apply contains_after.
  - rewrite append_cons in H |- *. rewrite contains_unfold in H |- *.
    apply orb_true_iff in H as [H|H]; apply orb_true_iff.
    + left. rewrite <- append_cons in H |- *.
      apply startswith_app. now apply (startswith_within sub _ ext).
    + right. now apply IH.
Qed.

(** X21. The name under which [grn.py] uploads an attachment still holds
    every piece of text without a dot that the attachment's own name held;
    so an attachment whose name holds [Consolidated-GRN-Report] is uploaded
    under a name that passes the name filter of the Drive-to-Sheets
    workflow. *)
Theorem uploaded_grn_name_keeps_the_report_marker
    (original_filename timestamp sub : string) :
  all_chars no_dot sub = true ->
  GRN.contains sub original_filename = true ->
  GRN.contains sub (GRN.timestamped_name original_filename timestamp) = true.
Proof.
  intros Hsub H. unfold GRN.timestamped_name.
  destruct (splitext_cut original_filename) as [Hcut Hext].
  destruct (Py.splitext original_filename) as [name_no_ext ext].
  cbn [fst snd] in Hcut, Hext. rewrite Hcut in H.
  replace (name_no_ext ++ "_" ++ timestamp ++ ext)%string
    with (name_no_ext ++ ("_" ++ timestamp) ++ ext)%string
    by now rewrite !append_assoc.
  now apply contains_kept_by_insert.
Qed.

Lemma uploaded_grn_name_keeps_the_report_marker_witness :
  GRN.contains "Consolidated-GRN-Report"
    (GRN.timestamped_name "Consolidated-GRN-Report.v2.xlsx" "20260210_143022")
  = true.
Proof.
  apply (uploaded_grn_name_keeps_the_report_marker
           "Consolidated-GRN-Report.v2.xlsx" "20260210_143022"
           "Consolidated-GRN-Report"); reflexivity.
Defined.
